(** * lms_backend: authentication middleware, registration/login, course
      catalog and transactional e-mail handlers

    A shallow embedding of [src/api/index.js] (users, tokens, catalog) and of
    [src/api/t.js] / [src/unnamed/part_000] (the notification service), with
    the properties of the specification stated and proved over it.

    Conventions.
    - A handler is a computation in the monad [M W]: it reads and writes the
      database [W] and either returns a value or throws.  What was written
      before a throw stays written (MongoDB has no rollback here).
    - The libraries the handlers call ([jsonwebtoken], [bcryptjs], the
      handlebars templates, the mail relay) are interfaces: type classes or
      section variables.  Every theorem holds for all their implementations;
      the concrete instances of [Module Example] only serve the examples.
    - Headers are finite maps from names to strings; a name that is absent
      reads as [None] (JavaScript's [undefined]).  Request bodies are finite
      maps from field names to strings where a handler is studied on string
      fields, and to JSON values of any type ([Json.value]) for the two
      account handlers, whose answers depend on the type of a field.
    - Strings are held as their UTF-8 bytes; [Js.length] counts UTF-16 code
      units, as [String.prototype.length] does. *)

From Stdlib Require Import ZArith NArith List String Ascii Bool Lia.
From stdpp Require Import base decidable option list strings pretty gmap.
Import ListNotations.

Local Open Scope string_scope.
Local Open Scope Z_scope.

(** ** JavaScript values and helpers *)

Module Js.

(** [!x] for a value that is a string or [undefined]: the empty string and
    [undefined] are falsy. *)
Definition truthy (x : option string) : bool :=
  match x with
  | Some s => negb (String.eqb s "")
  | None => false
  end.

(** The guard [if (!x) ... else ...]: the value of [x] where the else branch
    runs. *)
Definition truthy_value (x : option string) : option string :=
  match x with
  | Some s => if String.eqb s "" then None else Some s
  | None => None
  end.

(** [s.split(c)] for a one-character separator. *)
Fixpoint split (c : ascii) (s : string) : list string :=
  match s with
  | EmptyString => [EmptyString]
  | String a r =>
      if Ascii.eqb a c then EmptyString :: split c r
      else match split c r with
           | h :: t => String a h :: t
           | [] => [String a EmptyString]
           end
  end.

(** [a && f(a)] where [a] is a string or [undefined] and [f] returns a
    string or [undefined]: a falsy [a] is the result. *)
Definition and_then (a : option string) (f : string -> option string)
  : option string :=
  match a with
  | Some s => if String.eqb s "" then Some s else f s
  | None => None
  end.

(** [a || d] on strings. *)
Definition or_else (a : option string) (d : string) : string :=
  match a with
  | Some s => if String.eqb s "" then d else s
  | None => d
  end.

(** The UTF-16 code units a byte of a UTF-8 string accounts for: one for a
    byte that starts a sequence of one, two or three bytes, two (a surrogate
    pair) for a byte that starts a sequence of four, none for a continuation
    byte. *)
Definition utf16_units (a : ascii) : nat :=
  let n := nat_of_ascii a in
  if Nat.ltb n 128 then 1%nat
  else if Nat.ltb n 192 then 0%nat
  else if Nat.ltb n 240 then 1%nat
  else 2%nat.

(** [s.length]: the number of UTF-16 code units of the string, which is held
    here as its UTF-8 bytes. *)
Fixpoint length (s : string) : nat :=
  match s with
  | EmptyString => 0%nat
  | String a r => (utf16_units a + length r)%nat
  end.

(** A value interpolated in a template literal. *)
Definition interpolate (x : option string) : string :=
  match x with
  | Some s => s
  | None => "undefined"
  end.

(** The one-character string holding a double quote. *)
Definition dquote : string := String (ascii_of_nat 34) EmptyString.

Definition lower_ascii (a : ascii) : ascii :=
  let n := nat_of_ascii a in
  if (Nat.leb 65 n && Nat.leb n 90)%bool then ascii_of_nat (n + 32) else a.

(** [s.toLowerCase()], on the ASCII letters. *)
Fixpoint toLowerCase (s : string) : string :=
  match s with
  | EmptyString => EmptyString
  | String a r => String (lower_ascii a) (toLowerCase r)
  end.

End Js.

(** ** Errors and the handler monad *)

Record Error := mkError { err_name : string; err_message : string }.

Inductive Outcome (A : Type) :=
| Ok (a : A)
| Throw (e : Error).
Arguments Ok {A} a.
Arguments Throw {A} e.

Definition M (W A : Type) : Type := W -> Outcome A * W.

Definition ret {W A} (a : A) : M W A := fun w => (Ok a, w).

Definition throw {W A} (e : Error) : M W A := fun w => (Throw e, w).

Definition bind {W A B} (m : M W A) (k : A -> M W B) : M W B :=
  fun w =>
    match m w with
    | (Ok a, w') => k a w'
    | (Throw e, w') => (Throw e, w')
    end.

(** [try { m } catch (error) { h error }] *)
Definition try_catch {W A} (m : M W A) (h : Error -> M W A) : M W A :=
  fun w =>
    match m w with
    | (Ok a, w') => (Ok a, w')
    | (Throw e, w') => h e w'
    end.

Definition gets {W A} (f : W -> A) : M W A := fun w => (Ok (f w), w).

Definition modify {W} (f : W -> W) : M W unit := fun w => (Ok tt, f w).

(** A synchronous call that returns or throws. *)
Definition lift {W A} (r : Error + A) : M W A :=
  match r with
  | inl e => throw e
  | inr a => ret a
  end.

Declare Scope handler_scope.
Delimit Scope handler_scope with handler.
Notation "x <- m ;; k" := (bind m (fun x => k))
  (at level 100, m at next level, right associativity) : handler_scope.
Notation "m ;;; k" := (bind m (fun _ => k))
  (at level 100, right associativity) : handler_scope.

(** ** Documents *)

Definition ObjectId := N.

Inductive Role := student | admin.

Global Instance Role_eq_dec : EqDecision Role.
Proof. solve_decision. Defined.

Definition role_name (r : Role) : string :=
  match r with
  | student => "student"
  | admin => "admin"
  end.

Module User.
Record t := mk {
  _id : ObjectId;
  name : string;
  email : string;
  password : string;
  role : Role;
  createdAt : Z;
  refreshTokens : list string
}.

(** [user.refreshTokens.push(tok)] *)
Definition push_refreshToken (tok : string) (u : t) : t :=
  mk (_id u) (name u) (email u) (password u) (role u) (createdAt u)
     (refreshTokens u ++ [tok])%list.
End User.

Global Instance User_eq_dec : EqDecision User.t.
Proof. solve_decision. Defined.

Module Course.
Record t := mk {
  _id : ObjectId;
  name : string;
  code : string;
  lessons : list ObjectId;
  assignments : list ObjectId;
  createdBy : option ObjectId
}.

(** [{ $push: { lessons: id } }] and [{ $push: { assignments: id } }] *)
Definition push_lesson (id : ObjectId) (c : t) : t :=
  mk (_id c) (name c) (code c) (lessons c ++ [id])%list (assignments c)
     (createdBy c).

Definition push_assignment (id : ObjectId) (c : t) : t :=
  mk (_id c) (name c) (code c) (lessons c) (assignments c ++ [id])%list
     (createdBy c).

(** The body of [PUT /api/courses/:id]: the fields it sets. *)
Record patch := mkPatch {
  set_name : option string;
  set_code : option string;
  set_lessons : option (list ObjectId);
  set_assignments : option (list ObjectId);
  set_createdBy : option ObjectId
}.

Definition apply (b : patch) (c : t) : t :=
  mk (_id c)
     (default (name c) (set_name b))
     (default (code c) (set_code b))
     (default (lessons c) (set_lessons b))
     (default (assignments c) (set_assignments b))
     (match set_createdBy b with Some u => Some u | None => createdBy c end).
End Course.

Global Instance Course_eq_dec : EqDecision Course.t.
Proof. solve_decision. Defined.

Module Lesson.
Record t := mk {
  _id : ObjectId;
  title : string;
  youtubeLink : string;
  course : option ObjectId
}.

(** The body of [PUT /api/lessons/:id]. *)
Record patch := mkPatch {
  set_title : option string;
  set_youtubeLink : option string;
  set_course : option ObjectId
}.

Definition apply (b : patch) (l : t) : t :=
  mk (_id l)
     (default (title l) (set_title b))
     (default (youtubeLink l) (set_youtubeLink b))
     (match set_course b with Some c => Some c | None => course l end).
End Lesson.

Global Instance Lesson_eq_dec : EqDecision Lesson.t.
Proof. solve_decision. Defined.

Module Assignment.
Record t := mk {
  _id : ObjectId;
  title : string;
  link : string;
  course : option ObjectId
}.

(** The body of [PUT /api/assignments/:id]. *)
Record patch := mkPatch {
  set_title : option string;
  set_link : option string;
  set_course : option ObjectId
}.

Definition apply (b : patch) (a : t) : t :=
  mk (_id a)
     (default (title a) (set_title b))
     (default (link a) (set_link b))
     (match set_course b with Some c => Some c | None => course a end).
End Assignment.

Global Instance Assignment_eq_dec : EqDecision Assignment.t.
Proof. solve_decision. Defined.

(** The database of [index.js]: one list per collection, in insertion order,
    and the source of fresh [ObjectId]s. *)
Record World := mkWorld {
  users : list User.t;
  courses : list Course.t;
  lessons : list Lesson.t;
  assignments : list Assignment.t;
  next_oid : ObjectId
}.

Definition empty_world : World := mkWorld [] [] [] [] 0%N.

Definition set_users (f : list User.t -> list User.t) (w : World) : World :=
  mkWorld (f (users w)) (courses w) (lessons w) (assignments w) (next_oid w).

Definition set_courses (f : list Course.t -> list Course.t) (w : World) : World :=
  mkWorld (users w) (f (courses w)) (lessons w) (assignments w) (next_oid w).

Definition set_lessons (f : list Lesson.t -> list Lesson.t) (w : World) : World :=
  mkWorld (users w) (courses w) (f (lessons w)) (assignments w) (next_oid w).

Definition set_assignments (f : list Assignment.t -> list Assignment.t)
  (w : World) : World :=
  mkWorld (users w) (courses w) (lessons w) (f (assignments w)) (next_oid w).

(** [new Model(...)] draws the document's [_id]. *)
Definition new_oid : M World ObjectId :=
  fun w => (Ok (next_oid w),
            mkWorld (users w) (courses w) (lessons w) (assignments w)
                    (N.succ (next_oid w))).

(** Replace the first element that satisfies [p] ([updateOne] by [_id]). *)
Fixpoint update_first {A} (p : A -> bool) (f : A -> A) (l : list A) : list A :=
  match l with
  | [] => []
  | x :: r => if p x then f x :: r else x :: update_first p f r
  end.

(** Remove the first element that satisfies [p] ([deleteOne] by [_id]). *)
Fixpoint remove_first {A} (p : A -> bool) (l : list A) : list A :=
  match l with
  | [] => []
  | x :: r => if p x then r else x :: remove_first p r
  end.

(** ** Tokens: the [jsonwebtoken] interface *)

(** A claim value of a token payload, as it is after the JSON round trip: a
    string, where [JOid i] is the 24-digit hexadecimal string of the
    [ObjectId] [i] and [JStr s] any other string. *)
Inductive jsval :=
| JStr (s : string)
| JOid (i : ObjectId).

Global Instance jsval_eq_dec : EqDecision jsval.
Proof. solve_decision. Defined.

Abbreviation Payload := (gmap string jsval).

(** [jwt.sign(payload, secret, { expiresIn })] and [jwt.verify(token, secret)]
    at a given time; both return or throw.  The secret is read from the
    environment and may be undefined. *)
Class JwtLib := {
  jwt_sign : Payload -> option string -> string -> Z -> Error + string;
  jwt_verify : string -> option string -> Z -> Error + Payload
}.

(** [bcrypt.hash(password, rounds)] and [bcrypt.compare(password, hash)]. *)
Class BcryptLib := {
  bcrypt_hash : string -> nat -> string;
  bcrypt_compare : string -> string -> bool
}.

(** [process.env] *)
Record Env := mkEnv {
  JWT_SECRET : option string;
  JWT_REFRESH_SECRET : option string;
  JWT_ACCESS_EXPIRES_IN : option string;
  JWT_REFRESH_EXPIRES_IN : option string
}.

(** ** Responses *)

Record PublicUser := mkPublicUser {
  pu_id : ObjectId;
  pu_name : string;
  pu_email : string;
  pu_role : Role
}.

Inductive Body :=
| Message (message : string)
| MessageCode (message code : string)
| MessageError (message error : string)
| Registered (message : string) (role : Role) (token refreshToken : string)
             (user : PublicUser)
| LoggedIn (message : string) (token refreshToken : string) (user : PublicUser)
| CourseDoc (c : option Course.t)
| LessonDoc (l : option Lesson.t)
| AssignmentDoc (a : option Assignment.t).

Record Response := json { status : nat; body : Body }.

(** What the middleware does with a request: answer it, or attach the user
    ([req.user = user]) and call [next()]. *)
Inductive AuthResult :=
| Responded (r : Response)
| Next (user : User.t).

Abbreviation Headers := (gmap string string).
Abbreviation JsonBody := (gmap string string).

Section Handlers.

Context {jwtlib : JwtLib} {bcryptlib : BcryptLib}.
Variable env : Env.

Local Open Scope handler_scope.

(** *** The [User] model *)

(** Mongoose casts the [_id] of a filter to an [ObjectId] and throws a
    [CastError] when the value is not one. *)
Definition cast_oid (v : jsval) : Error + ObjectId :=
  match v with
  | JOid i => inr i
  | JStr s => inl (mkError "CastError" "Cast to ObjectId failed")
  end.

(** The test a filter on [_id] and [email] makes of a document; [None] stands
    for a key that is not in the filter. *)
Definition User_matches (oid : option ObjectId) (mail : option string)
  (u : User.t) : bool :=
  match oid with
  | Some i => bool_decide (User._id u = i)
  | None => true
  end &&
  match mail with
  | Some e => bool_decide (User.email u = e)
  | None => true
  end.

(** [User.findOne({ _id, email })], as the middleware calls it.  The key
    [_id] is in the filter also when its value is [undefined] (a verified
    token without [userId]): the filter then asks for a document whose [_id]
    is null, and there is none. *)
Definition User_findOne (id : option jsval) (mail : option string)
  : M World (option User.t) :=
  match id with
  | Some v =>
      i <- lift (cast_oid v) ;;
      gets (fun w => find (User_matches (Some i) mail) (users w))
  | None => ret None
  end.

(** [User.findOne({ email })], for an e-mail that is a string. *)
Definition User_findOne_email (mail : string) : M World (option User.t) :=
  gets (fun w => find (User_matches None (Some mail)) (users w)).

(** [User.countDocuments()] *)
Definition User_countDocuments : M World nat :=
  gets (fun w => length (users w)).

(** The schema's [required] fields; the empty string does not satisfy
    [required]. *)
Definition User_valid (u : User.t) : bool :=
  negb (String.eqb (User.name u) "")
  && negb (String.eqb (User.email u) "")
  && negb (String.eqb (User.password u) "").

(** The paths of a document that fail [required], in the order of the
    schema: [undefined] and the empty string fail. *)
Definition failing (fields : list (string * option string)) : list string :=
  flat_map (fun f => if Js.truthy (snd f) then [] else [fst f]) fields.

(** The error of [save()] for a document that fails validation: its message
    names every failing path. *)
Definition ValidationError (model : string) (paths : list string) : Error :=
  mkError "ValidationError"
          (model ++ " validation failed: "
           ++ String.concat ", "
                (map (fun path => path ++ ": Path `" ++ path ++ "` is required.")
                     paths)).

(** A [required] string path of a document with the paths [fields]: its
    value, or the validation error of the document. *)
Definition required (model : string) (fields : list (string * option string))
  (x : option string) : Error + string :=
  match Js.truthy_value x with
  | Some s => inr s
  | None => inl (ValidationError model (failing fields))
  end.

Definition User_paths (u : User.t) : list (string * option string) :=
  [("name", Some (User.name u)); ("email", Some (User.email u));
   ("password", Some (User.password u))].

Definition DuplicateKey : Error :=
  mkError "MongoServerError" "E11000 duplicate key error".

(** [user.save()]: validates, then updates the stored document with the same
    [_id] (the handlers only push to its [refreshTokens]) or, when there is
    none, inserts the document; [email] is a unique index. *)
Definition User_save (u : User.t) : M World unit :=
  if negb (User_valid u) then
    throw (ValidationError "UserAdmin" (failing (User_paths u)))
  else
    stored <- gets (fun w =>
      existsb (fun x => bool_decide (User._id x = User._id u)) (users w)) ;;
    if (stored : bool) then
      modify (set_users
        (update_first (fun x => bool_decide (User._id x = User._id u))
                      (fun _ => u)))
    else
      clash <- gets (fun w =>
        existsb (fun x => bool_decide (User.email x = User.email u)) (users w)) ;;
      if (clash : bool) then throw DuplicateKey
      else modify (set_users (fun l => (l ++ [u])%list)).

(** *** [authenticateToken] *)

(** The callback of [user.refreshTokens.some(...)]. *)
Definition refresh_matches (now : Z) (decoded : Payload) (t : string) : bool :=
  match jwt_verify t (JWT_REFRESH_SECRET env) now with
  | inr rt => bool_decide (rt !! "userId" = decoded !! "userId")
  | inl _ => false
  end.

Definition bearer_token (headers : Headers) : option string :=
  Js.and_then (headers !! "authorization")
              (fun authHeader => Js.split " "%char authHeader !! 1%nat).

Definition authenticateToken (now : Z) (headers : Headers)
  : M World AuthResult :=
  let token := bearer_token headers in
  let userEmail := headers !! "email" in
  let userRole := headers !! "role" in
  try_catch
    (match Js.truthy_value token with
     | None =>
         ret (Responded
                (json 401 (MessageCode "Authorization token required"
                                       "TOKEN_MISSING")))
     | Some token =>
     match Js.truthy_value userEmail with
     | None =>
         ret (Responded
                (json 401 (MessageCode "User email required" "EMAIL_MISSING")))
     | Some userEmail =>
         decoded <- lift (jwt_verify token (JWT_SECRET env) now) ;;
         user <- User_findOne (decoded !! "userId") (Some userEmail) ;;
         match user with
         | None =>
             ret (Responded
                    (json 403 (MessageCode "Invalid credentials"
                                           "INVALID_CREDENTIALS")))
         | Some user =>
             if negb (existsb (refresh_matches now decoded)
                              (User.refreshTokens user)) then
               ret (Responded
                      (json 403 (MessageCode "Token invalidated"
                                             "TOKEN_INVALIDATED")))
             else ret (Next user)
         end
     end end)
    (fun error =>
       if String.eqb (err_name error) "TokenExpiredError" then
         ret (Responded (json 401 (MessageCode "Token expired" "TOKEN_EXPIRED")))
       else if String.eqb (err_name error) "JsonWebTokenError" then
         ret (Responded (json 403 (MessageCode "Invalid token" "INVALID_TOKEN")))
       else
         ret (Responded
                (json 500 (MessageCode "Authentication failed" "AUTH_FAILED")))).

(** *** Token issue, as both [/api/register] and [/api/login] do it *)

Definition access_payload (u : User.t) : Payload :=
  {[ "userId" := JOid (User._id u); "role" := JStr (role_name (User.role u)) ]}.

Definition refresh_payload (u : User.t) : Payload :=
  {[ "userId" := JOid (User._id u) ]}.

Definition sign_access (now : Z) (u : User.t) : Error + string :=
  jwt_sign (access_payload u) (JWT_SECRET env)
           (Js.or_else (JWT_ACCESS_EXPIRES_IN env) "15m") now.

Definition sign_refresh (now : Z) (u : User.t) : Error + string :=
  jwt_sign (refresh_payload u) (JWT_REFRESH_SECRET env)
           (Js.or_else (JWT_REFRESH_EXPIRES_IN env) "7d") now.

Definition public (u : User.t) : PublicUser :=
  mkPublicUser (User._id u) (User.name u) (User.email u) (User.role u).

(** *** [POST /api/register] *)

(** The handler on a body whose fields are strings; [post_register_json]
    below is the handler on any body. *)
Definition post_register (now : Z) (body : JsonBody) : M World Response :=
  let name := body !! "name" in
  let email := body !! "email" in
  let password := body !! "password" in
  try_catch
    (match Js.truthy_value name, Js.truthy_value email,
           Js.truthy_value password with
     | Some name, Some email, Some password =>
         if (Js.length password <? 8)%nat then
           ret (json 400 (Message "Password must be at least 8 characters"))
         else
           existingUser <- User_findOne_email email ;;
           match existingUser with
           | Some _ => ret (json 400 (Message "Email already in use"))
           | None =>
               let hashedPassword := bcrypt_hash password 10 in
               userCount <- User_countDocuments ;;
               let role := if Nat.eqb userCount 0 then admin else student in
               id <- new_oid ;;
               let newUser :=
                 User.mk id name email hashedPassword role now [] in
               User_save newUser ;;;
               token <- lift (sign_access now newUser) ;;
               refreshToken <- lift (sign_refresh now newUser) ;;
               let newUser := User.push_refreshToken refreshToken newUser in
               User_save newUser ;;;
               ret (json 201
                      (Registered "User registered successfully"
                                  (User.role newUser) token refreshToken
                                  (public newUser)))
           end
     | _, _, _ => ret (json 400 (Message "All fields are required"))
     end)
    (fun error =>
       ret (json 500 (MessageError "Registration failed" (err_message error)))).

(** *** [POST /api/login] *)

(** The handler on a body whose fields are strings; [post_login_json] below
    is the handler on any body. *)
Definition post_login (now : Z) (body : JsonBody) : M World Response :=
  let email := body !! "email" in
  let password := body !! "password" in
  try_catch
    (match Js.truthy_value email, Js.truthy_value password with
     | Some email, Some password =>
         user <- User_findOne_email email ;;
         match user with
         | None => ret (json 401 (Message "Invalid email or password"))
         | Some user =>
             if negb (bcrypt_compare password (User.password user)) then
               ret (json 401 (Message "Invalid email or password"))
             else
               token <- lift (sign_access now user) ;;
               refreshToken <- lift (sign_refresh now user) ;;
               let user := User.push_refreshToken refreshToken user in
               User_save user ;;;
               ret (json 200
                      (LoggedIn "Login successful" token refreshToken
                                (public user)))
         end
     | _, _ => ret (json 400 (Message "Email and password required"))
     end)
    (fun error =>
       ret (json 500 (MessageError "Login failed" (err_message error)))).

(** *** The catalog models *)

Definition Course_findById (i : ObjectId) (w : World) : option Course.t :=
  find (fun c => bool_decide (Course._id c = i)) (courses w).

Definition code_taken (i : ObjectId) (code : string) (w : World) : bool :=
  existsb (fun c => bool_decide (Course.code c = code)
                    && negb (bool_decide (Course._id c = i)))
          (courses w).

(** [new Course({ name, code, createdBy }).save()]: [name] and [code] are
    required, [code] is a unique index. *)
Definition Course_create (name code : option string) (createdBy : ObjectId)
  : M World Course.t :=
  id <- new_oid ;;
  let paths := [("name", name); ("code", code)] in
  name <- lift (required "Course" paths name) ;;
  code <- lift (required "Course" paths code) ;;
  clash <- gets (code_taken id code) ;;
  if (clash : bool) then throw DuplicateKey
  else
    let course := Course.mk id name code [] [] (Some createdBy) in
    modify (set_courses (fun l => (l ++ [course])%list)) ;;;
    ret course.

(** [Course.findByIdAndUpdate(id, update, { new: true })]: the updated
    document, or [null] when no course has this id. *)
Definition Course_findByIdAndUpdate (id : jsval) (f : Course.t -> Course.t)
  : M World (option Course.t) :=
  i <- lift (cast_oid id) ;;
  found <- gets (Course_findById i) ;;
  match found with
  | None => ret None
  | Some c =>
      clash <- gets (code_taken i (Course.code (f c))) ;;
      if negb (String.eqb (Course.code (f c)) (Course.code c)) && (clash : bool)
      then throw DuplicateKey
      else
        modify (set_courses
                  (update_first (fun c => bool_decide (Course._id c = i)) f)) ;;;
        ret (Some (f c))
  end.

Definition Course_findByIdAndDelete (id : jsval) : M World unit :=
  i <- lift (cast_oid id) ;;
  modify (set_courses (remove_first (fun c => bool_decide (Course._id c = i)))).

(** [new Lesson({ title, youtubeLink, course }).save()] *)
Definition Lesson_create (title youtubeLink : option string) (course : jsval)
  : M World Lesson.t :=
  id <- new_oid ;;
  course <- lift (cast_oid course) ;;
  let paths := [("title", title); ("youtubeLink", youtubeLink)] in
  title <- lift (required "Lesson" paths title) ;;
  youtubeLink <- lift (required "Lesson" paths youtubeLink) ;;
  let lesson := Lesson.mk id title youtubeLink (Some course) in
  modify (set_lessons (fun l => (l ++ [lesson])%list)) ;;;
  ret lesson.

Definition Lesson_findByIdAndUpdate (id : jsval) (f : Lesson.t -> Lesson.t)
  : M World (option Lesson.t) :=
  i <- lift (cast_oid id) ;;
  found <- gets (fun w => find (fun l => bool_decide (Lesson._id l = i))
                               (lessons w)) ;;
  match found with
  | None => ret None
  | Some l =>
      modify (set_lessons
                (update_first (fun l => bool_decide (Lesson._id l = i)) f)) ;;;
      ret (Some (f l))
  end.

Definition Lesson_findByIdAndDelete (id : jsval) : M World unit :=
  i <- lift (cast_oid id) ;;
  modify (set_lessons (remove_first (fun l => bool_decide (Lesson._id l = i)))).

(** [new Assignment({ title, link, course }).save()] *)
Definition Assignment_create (title link : option string) (course : jsval)
  : M World Assignment.t :=
  id <- new_oid ;;
  course <- lift (cast_oid course) ;;
  let paths := [("title", title); ("link", link)] in
  title <- lift (required "Assignment" paths title) ;;
  link <- lift (required "Assignment" paths link) ;;
  let assignment := Assignment.mk id title link (Some course) in
  modify (set_assignments (fun l => (l ++ [assignment])%list)) ;;;
  ret assignment.

Definition Assignment_findByIdAndUpdate (id : jsval)
  (f : Assignment.t -> Assignment.t) : M World (option Assignment.t) :=
  i <- lift (cast_oid id) ;;
  found <- gets (fun w => find (fun a => bool_decide (Assignment._id a = i))
                               (assignments w)) ;;
  match found with
  | None => ret None
  | Some a =>
      modify (set_assignments
                (update_first (fun a => bool_decide (Assignment._id a = i)) f)) ;;;
      ret (Some (f a))
  end.

Definition Assignment_findByIdAndDelete (id : jsval) : M World unit :=
  i <- lift (cast_oid id) ;;
  modify (set_assignments
            (remove_first (fun a => bool_decide (Assignment._id a = i)))).

(** *** The catalog routes *)

(** [app.METHOD(path, authenticateToken, handler)]: the handler runs when the
    middleware calls [next()], with the user it attached. *)
Definition protected (now : Z) (headers : Headers)
  (handler : User.t -> M World Response) : M World Response :=
  auth <- authenticateToken now headers ;;
  match auth with
  | Responded r => ret r
  | Next user => handler user
  end.

Definition Forbidden : Response := json 403 (Message "Forbidden").

(** [POST /api/courses] *)
Definition post_courses (now : Z) (headers : Headers) (body : JsonBody)
  : M World Response :=
  protected now headers (fun user =>
    if negb (bool_decide (headers !! "role" = Some "admin")) then ret Forbidden
    else
      try_catch
        (course <- Course_create (body !! "name") (body !! "code")
                                 (User._id user) ;;
         ret (json 201 (CourseDoc (Some course))))
        (fun error =>
           ret (json 500 (MessageError "Error creating course"
                                       (err_message error))))).

(** [PUT /api/courses/:id] *)
Definition put_course (now : Z) (headers : Headers) (id : jsval)
  (body : Course.patch) : M World Response :=
  protected now headers (fun user =>
    if negb (bool_decide (User.role user = admin)) then ret Forbidden
    else
      course <- Course_findByIdAndUpdate id (Course.apply body) ;;
      ret (json 200 (CourseDoc course))).

(** [DELETE /api/courses/:id] *)
Definition delete_course (now : Z) (headers : Headers) (id : jsval)
  : M World Response :=
  protected now headers (fun user =>
    if negb (bool_decide (User.role user = admin)) then ret Forbidden
    else
      Course_findByIdAndDelete id ;;;
      ret (json 200 (Message "Course deleted"))).

(** [POST /api/courses/:courseId/lessons] *)
Definition post_course_lessons (now : Z) (headers : Headers) (courseId : jsval)
  (body : JsonBody) : M World Response :=
  protected now headers (fun user =>
    if negb (bool_decide (User.role user = admin)) then ret Forbidden
    else
      lesson <- Lesson_create (body !! "title") (body !! "youtubeLink")
                              courseId ;;
      Course_findByIdAndUpdate courseId
        (Course.push_lesson (Lesson._id lesson)) ;;;
      ret (json 201 (LessonDoc (Some lesson)))).

(** [PUT /api/lessons/:id] *)
Definition put_lesson (now : Z) (headers : Headers) (id : jsval)
  (body : Lesson.patch) : M World Response :=
  protected now headers (fun user =>
    if negb (bool_decide (User.role user = admin)) then ret Forbidden
    else
      lesson <- Lesson_findByIdAndUpdate id (Lesson.apply body) ;;
      ret (json 200 (LessonDoc lesson))).

(** [DELETE /api/lessons/:id] *)
Definition delete_lesson (now : Z) (headers : Headers) (id : jsval)
  : M World Response :=
  protected now headers (fun user =>
    if negb (bool_decide (User.role user = admin)) then ret Forbidden
    else
      Lesson_findByIdAndDelete id ;;;
      ret (json 200 (Message "Lesson deleted"))).

(** [POST /api/courses/:courseId/assignments] *)
Definition post_course_assignments (now : Z) (headers : Headers)
  (courseId : jsval) (body : JsonBody) : M World Response :=
  protected now headers (fun user =>
    if negb (bool_decide (User.role user = admin)) then ret Forbidden
    else
      assignment <- Assignment_create (body !! "title") (body !! "link")
                                      courseId ;;
      Course_findByIdAndUpdate courseId
        (Course.push_assignment (Assignment._id assignment)) ;;;
      ret (json 201 (AssignmentDoc (Some assignment)))).

(** [PUT /api/assignments/:id] *)
Definition put_assignment (now : Z) (headers : Headers) (id : jsval)
  (body : Assignment.patch) : M World Response :=
  protected now headers (fun user =>
    if negb (bool_decide (User.role user = admin)) then ret Forbidden
    else
      assignment <- Assignment_findByIdAndUpdate id (Assignment.apply body) ;;
      ret (json 200 (AssignmentDoc assignment))).

(** [DELETE /api/assignments/:id] *)
Definition delete_assignment (now : Z) (headers : Headers) (id : jsval)
  : M World Response :=
  protected now headers (fun user =>
    if negb (bool_decide (User.role user = admin)) then ret Forbidden
    else
      Assignment_findByIdAndDelete id ;;;
      ret (json 200 (Message "Assignment deleted"))).

(** The nine mutating requests of the catalog. *)
Inductive Mutation :=
| PostCourse (body : JsonBody)
| PutCourse (id : jsval) (body : Course.patch)
| DeleteCourse (id : jsval)
| PostLesson (courseId : jsval) (body : JsonBody)
| PutLesson (id : jsval) (body : Lesson.patch)
| DeleteLesson (id : jsval)
| PostAssignment (courseId : jsval) (body : JsonBody)
| PutAssignment (id : jsval) (body : Assignment.patch)
| DeleteAssignment (id : jsval).

Definition mutate (now : Z) (headers : Headers) (m : Mutation)
  : M World Response :=
  match m with
  | PostCourse body => post_courses now headers body
  | PutCourse id body => put_course now headers id body
  | DeleteCourse id => delete_course now headers id
  | PostLesson courseId body => post_course_lessons now headers courseId body
  | PutLesson id body => put_lesson now headers id body
  | DeleteLesson id => delete_lesson now headers id
  | PostAssignment courseId body =>
      post_course_assignments now headers courseId body
  | PutAssignment id body => put_assignment now headers id body
  | DeleteAssignment id => delete_assignment now headers id
  end.

(** Registration requests served one after the other. *)
Fixpoint register_all (reqs : list (Z * JsonBody)) : M World (list Response) :=
  match reqs with
  | [] => ret []
  | (now, body) :: rest =>
      r <- post_register now body ;;
      rs <- register_all rest ;;
      ret (r :: rs)
  end.

End Handlers.

(** ** Request bodies with fields of any JSON type *)

(** [express.json()] hands the handlers whatever JSON the client sent:
    [post_register] and [post_login] above are the two account handlers on a
    body whose fields are strings; [post_register_json] and [post_login_json]
    below are the same handlers on any parsed body (lemmas
    [post_register_json_strings] and [post_login_json_strings]). *)

Module Json.

(** A JSON value.  Of a number the handlers look at nothing but whether it
    is zero, so the integers stand for all numbers.  An object holds its own
    properties, one entry per key. *)
#[local] Unset Elimination Schemes.
Inductive value :=
| Str (s : string)
| Num (n : Z)
| Bool (b : bool)
| Null
| Arr (items : list value)
| Obj (fields : list (string * value)).
#[local] Set Elimination Schemes.

(** The guard [if (!v) ... else ...] on a field that may be absent: the value
    where the else branch runs.  The empty string, zero, [false], [null] and
    [undefined] are falsy; arrays and objects are truthy. *)
Definition truthy_value (v : option value) : option value :=
  match v with
  | Some (Str s) => if String.eqb s "" then None else v
  | Some (Num n) => if Z.eqb n 0 then None else v
  | Some (Bool b) => if b then v else None
  | Some Null => None
  | Some (Arr _) => v
  | Some (Obj _) => v
  | None => None
  end.

(** [typeof v] *)
Definition typeof (v : value) : string :=
  match v with
  | Str _ => "string"
  | Num _ => "number"
  | Bool _ => "boolean"
  | Null => "object"
  | Arr _ => "object"
  | Obj _ => "object"
  end.

(** The own property [key] of an object. *)
Fixpoint get (key : string) (fields : list (string * value)) : option value :=
  match fields with
  | [] => None
  | (k, v) :: rest => if String.eqb k key then Some v else get key rest
  end.

End Json.

Abbreviation JsonObject := (gmap string Json.value).

(** What the account handlers leave to the JavaScript runtime and to Mongoose
    when a field is not a string:
    - [js_less x n], the comparison [x < n] of a JSON value with a number,
      with the conversions of the language, which can throw;
    - [cast_filter v], Mongoose's reading of [{ email: v }] in a filter: the
      test it makes of a stored e-mail (equality after a cast, or a query
      operator such as [{ $gt: ... }]), or a [CastError];
    - [cast_string v], Mongoose's cast of [v] for a path of type String of a
      new document, or the [CastError] it records for [save()].
    A string is compared and stored as it is. *)
Class Casts := {
  js_less : Json.value -> Z -> Error + bool;
  cast_filter : Json.value -> Error + (string -> bool);
  cast_filter_Str (s : string) :
    exists test, cast_filter (Json.Str s) = inr test
                 /\ forall x, test x = bool_decide (x = s);
  cast_string : Json.value -> Error + string;
  cast_string_Str (s : string) : cast_string (Json.Str s) = inr s
}.

Section JsonHandlers.

Context {jwtlib : JwtLib} {bcryptlib : BcryptLib} {casts : Casts}.
Variable env : Env.

Local Open Scope handler_scope.

(** [User.findOne({ email })] *)
Definition User_findOne_filter (email : Json.value)
  : M World (option User.t) :=
  test <- lift (cast_filter email) ;;
  gets (fun w => find (fun u => test (User.email u)) (users w)).

(** [password.length < 8].  A string has its number of UTF-16 code units and
    an array its number of items; a number and a boolean have no [length],
    and [undefined < 8] is false; of an object the own property [length], if
    any, is compared; [null.length] throws. *)
Definition too_short (password : Json.value) : Error + bool :=
  match password with
  | Json.Str s => inr (Nat.ltb (Js.length s) 8)
  | Json.Arr items => inr (Nat.ltb (List.length items) 8)
  | Json.Obj fields =>
      match Json.get "length" fields with
      | Some x => js_less x 8
      | None => inr false
      end
  | Json.Num _ => inr false
  | Json.Bool _ => inr false
  | Json.Null =>
      inl (mkError "TypeError"
                   "Cannot read properties of null (reading 'length')")
  end.

(** The error of [bcryptjs] for an argument that is not a string. *)
Definition illegal_arguments (s other : string) : Error :=
  mkError "Error" ("Illegal arguments: " ++ s ++ ", " ++ other).

(** [bcrypt.hash(password, 10)] *)
Definition hash (password : Json.value) : Error + string :=
  match password with
  | Json.Str s => inr (bcrypt_hash s 10)
  | _ => inl (illegal_arguments (Json.typeof password) "number")
  end.

(** [bcrypt.compare(password, hash)] *)
Definition compare (password : Json.value) (hashed : string) : Error + bool :=
  match password with
  | Json.Str s => inr (bcrypt_compare s hashed)
  | _ => inl (illegal_arguments (Json.typeof password) "string")
  end.

(** The error of [save()] for a document with a path that could not be
    cast. *)
Definition CastFailed (model : string) (failed : list (string * Error))
  : Error :=
  mkError "ValidationError"
          (model ++ " validation failed: "
           ++ String.concat ", "
                (map (fun f => fst f ++ ": " ++ err_message (snd f)) failed)).

Definition cast_failures (fields : list (string * (Error + string)))
  : list (string * Error) :=
  flat_map (fun f => match snd f with
                     | inl e => [(fst f, e)]
                     | inr _ => []
                     end) fields.

(** [POST /api/register] *)
Definition post_register_json (now : Z) (body : JsonObject)
  : M World Response :=
  let name := body !! "name" in
  let email := body !! "email" in
  let password := body !! "password" in
  try_catch
    (match Json.truthy_value name, Json.truthy_value email,
           Json.truthy_value password with
     | Some name, Some email, Some password =>
         short <- lift (too_short password) ;;
         if (short : bool) then
           ret (json 400 (Message "Password must be at least 8 characters"))
         else
           existingUser <- User_findOne_filter email ;;
           match existingUser with
           | Some _ => ret (json 400 (Message "Email already in use"))
           | None =>
               hashedPassword <- lift (hash password) ;;
               userCount <- User_countDocuments ;;
               let role := if Nat.eqb userCount 0 then admin else student in
               id <- new_oid ;;
               (* [new User({...})] casts [name] and [email]; what could not
                  be cast fails [save()] *)
               match cast_string name, cast_string email with
               | inr name, inr email =>
                   let newUser :=
                     User.mk id name email hashedPassword role now [] in
                   User_save newUser ;;;
                   token <- lift (sign_access env now newUser) ;;
                   refreshToken <- lift (sign_refresh env now newUser) ;;
                   let newUser :=
                     User.push_refreshToken refreshToken newUser in
                   User_save newUser ;;;
                   ret (json 201
                          (Registered "User registered successfully"
                                      (User.role newUser) token refreshToken
                                      (public newUser)))
               | name, email =>
                   throw (CastFailed "UserAdmin"
                            (cast_failures [("name", name); ("email", email)]))
               end
           end
     | _, _, _ => ret (json 400 (Message "All fields are required"))
     end)
    (fun error =>
       ret (json 500 (MessageError "Registration failed" (err_message error)))).

(** [POST /api/login] *)
Definition post_login_json (now : Z) (body : JsonObject) : M World Response :=
  let email := body !! "email" in
  let password := body !! "password" in
  try_catch
    (match Json.truthy_value email, Json.truthy_value password with
     | Some email, Some password =>
         user <- User_findOne_filter email ;;
         match user with
         | None => ret (json 401 (Message "Invalid email or password"))
         | Some user =>
             isPasswordValid <- lift (compare password (User.password user)) ;;
             if negb isPasswordValid then
               ret (json 401 (Message "Invalid email or password"))
             else
               token <- lift (sign_access env now user) ;;
               refreshToken <- lift (sign_refresh env now user) ;;
               let user := User.push_refreshToken refreshToken user in
               User_save user ;;;
               ret (json 200
                      (LoggedIn "Login successful" token refreshToken
                                (public user)))
         end
     | _, _ => ret (json 400 (Message "Email and password required"))
     end)
    (fun error =>
       ret (json 500 (MessageError "Login failed" (err_message error)))).

End JsonHandlers.

(** ** The notification service ([t.js] and its second copy) *)

Module TransactionEmail.
Record t := mk {
  wallet : string;
  amount : string;
  email : string;
  date : string;
  time : string;
  status : string
}.
End TransactionEmail.

Global Instance TransactionEmail_eq_dec : EqDecision TransactionEmail.t.
Proof. solve_decision. Defined.

(** The object the handler passes to the template. *)
Record TemplateContext := mkContext {
  ctx_amount : string;
  ctx_network : option string;
  ctx_walletAddress : option string;
  ctx_date : string;
  ctx_prettyDate : string;
  ctx_localcurrency : option string;
  ctx_transaction_fee : option string;
  ctx_cashapp_tag : option string;
  ctx_transaction_id : option string;
  ctx_senderName : option string;
  ctx_recipient_name : option string;
  ctx_warning : option string
}.

(** The value of [html]: the string a template returns, or, for the inherited
    [templates.constructor] (which is [Object] and returns its argument), the
    context object itself. *)
Inductive Html :=
| HtmlString (s : string)
| HtmlObject (context : TemplateContext).

Record Mail := mkMail {
  mail_from : string;
  mail_to : option string;
  mail_subject : string;
  mail_html : Html
}.

(** What the service did, in order: documents saved and messages handed to the
    relay, with the relay's verdict. *)
Inductive Event :=
| Saved (r : TransactionEmail.t)
| Dispatched (m : Mail) (delivered : bool).

Record MailWorld := mkMailWorld {
  transactions : list TransactionEmail.t;
  events : list Event
}.

(** The renderings of [new Date()] the handler computes before its [try]:
    [date], [time], [dateTime] and [prettyFormat]. *)
Record Clock := mkClock {
  date : string;
  time : string;
  dateTime : string;
  prettyFormat : string
}.

(** The own keys of [templates]. *)
Definition template_names : list string :=
  ["binance"; "coinbase"; "bybit"; "cashapp"; "paypal"; "luno"; "zelle";
   "okx"; "roqqu"; "bitso"].

(** What [templates[templateName]] evaluates to: a compiled template, a
    property inherited from [Object.prototype], or [undefined].  Of the
    inherited names only [constructor] and [__proto__] can be the result of
    [toLowerCase()]; the first is a function, the second is not. *)
Inductive TemplateSlot :=
| Compiled (name : string)
| ObjectConstructor
| ObjectPrototype
| Undefined.

Definition templates (templateName : string) : TemplateSlot :=
  if bool_decide (templateName ∈ template_names) then Compiled templateName
  else if String.eqb templateName "constructor" then ObjectConstructor
  else if String.eqb templateName "__proto__" then ObjectPrototype
  else Undefined.

Section Notification.

(** The name the model is registered under (['Transaction'] in one copy of the
    service, ['TransactionEmail'] in the other), the compiled handlebars
    template of a provider, [String.prototype.toLowerCase], the relay behind
    [transporter.sendMail] ([None] when it accepts the message) and
    [process.env.GMAIL_USER]. *)
Variable model : string.
Variable render : string -> TemplateContext -> string.
Variable toLowerCase : string -> string.
Variable relay : Mail -> option Error.
Variable GMAIL_USER : option string.

Local Open Scope handler_scope.

(** [new TransactionEmail({...}).save()]: [wallet], [amount], [email], [date]
    and [time] are required. *)
Definition TransactionEmail_save (wallet : option string) (amount : string)
  (email : option string) (date time status : string)
  : M MailWorld TransactionEmail.t :=
  let paths := [("wallet", wallet); ("amount", Some amount); ("email", email);
                ("date", Some date); ("time", Some time)] in
  wallet <- lift (required model paths wallet) ;;
  amount <- lift (required model paths (Some amount)) ;;
  email <- lift (required model paths email) ;;
  date <- lift (required model paths (Some date)) ;;
  time <- lift (required model paths (Some time)) ;;
  let doc := TransactionEmail.mk wallet amount email date time status in
  modify (fun w => mkMailWorld (transactions w ++ [doc])%list
                               (events w ++ [Saved doc])%list) ;;;
  ret doc.

(** [templates[templateName]({...})] *)
Definition call_template (templateName : string) (context : TemplateContext)
  : Error + Html :=
  match templates templateName with
  | Compiled name => inr (HtmlString (render name context))
  | ObjectConstructor => inr (HtmlObject context)
  | ObjectPrototype | Undefined =>
      inl (mkError "TypeError" "templates[templateName] is not a function")
  end.

(** [transporter.sendMail(mail)] *)
Definition sendMail (mail : Mail) : M MailWorld unit :=
  match relay mail with
  | None =>
      modify (fun w => mkMailWorld (transactions w)
                                   (events w ++ [Dispatched mail true])%list)
  | Some e =>
      modify (fun w => mkMailWorld (transactions w)
                                   (events w ++ [Dispatched mail false])%list) ;;;
      throw e
  end.

(** The handler of the three [send-email] routes; they differ in the subject
    line only. *)
Definition send_email (subject : string -> option string -> string)
  (now : Clock) (body : JsonBody) : M MailWorld Response :=
  let wallet := body !! "wallet" in
  let amount := body !! "amount" in
  let email := body !! "email" in
  let coin := body !! "coin" in
  let warning := body !! "warning" in
  let message := body !! "message" in
  let recipient_name := body !! "recipient_name" in
  try_catch
    (newTransaction <-
       TransactionEmail_save wallet
         (Js.interpolate amount ++ " " ++ Js.interpolate coin)
         email (date now) (time now) "Sent" ;;
     (* past [save()], [wallet] is the string that was stored *)
     let wallet := TransactionEmail.wallet newTransaction in
     let templateName := toLowerCase wallet in
     html <- lift (call_template templateName
       (mkContext
          (Js.interpolate amount ++ " " ++ Js.interpolate coin)
          (body !! "network")
          (body !! "walletAddress")
          (dateTime now)
          (prettyFormat now)
          (body !! "localcurrency")
          (body !! "transaction_fee")
          (body !! "cashapp_tag")
          (body !! "transaction_id")
          (body !! "senderName")
          recipient_name
          (if Js.truthy warning then message else None))) ;;
     sendMail
       (mkMail (Js.dquote ++ wallet ++ Js.dquote ++ " <"
                  ++ Js.interpolate GMAIL_USER ++ ">")
               email
               (subject wallet recipient_name)
               html) ;;;
     ret (json 200 (Message "Email sent successfully")))
    (fun error => ret (json 500 (Message (err_message error)))).

(** [POST /api/send-email] *)
Definition post_send_email : Clock -> JsonBody -> M MailWorld Response :=
  send_email (fun wallet _ => wallet ++ " Transaction Confirmation").

(** [POST /api/send-email-bitso-spanish] *)
Definition post_send_email_bitso_spanish
  : Clock -> JsonBody -> M MailWorld Response :=
  send_email (fun _ recipient_name =>
                "¡Recibiste un depósito de " ++ Js.interpolate recipient_name).

(** [POST /api/send-email-bitso-portugusse] *)
Definition post_send_email_bitso_portugusse
  : Clock -> JsonBody -> M MailWorld Response :=
  send_email (fun _ recipient_name =>
                "¡Você recebeu um depósito de " ++ Js.interpolate recipient_name).

End Notification.

(** ** The read routes of the catalog *)

(** A course as [GET /api/courses] returns it, with its lessons and
    assignments inline. *)
Module Populated.
Record t := mk {
  _id : ObjectId;
  name : string;
  code : string;
  lessons : list Lesson.t;
  assignments : list Assignment.t;
  createdBy : option ObjectId
}.
End Populated.

Inductive ReadBody :=
| Courses (l : list Populated.t)
| OneCourse (c : Populated.t)
| ReadMessage (message : string).

Record ReadResponse := read_json { read_status : nat; read_body : ReadBody }.

Section ReadRoutes.

Local Open Scope handler_scope.

Definition Lesson_findById (i : ObjectId) (w : World) : option Lesson.t :=
  find (fun l => bool_decide (Lesson._id l = i)) (lessons w).

Definition Assignment_findById (i : ObjectId) (w : World)
  : option Assignment.t :=
  find (fun a => bool_decide (Assignment._id a = i)) (assignments w).

(** [.populate('lessons assignments')]: every id of the two lists is replaced
    by the document that has it, in the order of the list; an id that no
    document has is dropped. *)
Definition populate (w : World) (c : Course.t) : Populated.t :=
  Populated.mk (Course._id c) (Course.name c) (Course.code c)
    (omap (fun i => Lesson_findById i w) (Course.lessons c))
    (omap (fun i => Assignment_findById i w) (Course.assignments c))
    (Course.createdBy c).

(** [GET /api/courses] *)
Definition get_courses : M World ReadResponse :=
  courses <- gets (fun w => map (populate w) (courses w)) ;;
  ret (read_json 200 (Courses courses)).

(** [GET /api/courses/:id] *)
Definition get_course (id : jsval) : M World ReadResponse :=
  i <- lift (cast_oid id) ;;
  course <- gets (fun w => option_map (populate w) (Course_findById i w)) ;;
  match course with
  | None => ret (read_json 404 (ReadMessage "Course not found"))
  | Some course => ret (read_json 200 (OneCourse course))
  end.

End ReadRoutes.

(** ** The vocabulary of the specification *)

(** The failure modes of the middleware (section 7 of the specification). *)
Definition TOKEN_MISSING : Response :=
  json 401 (MessageCode "Authorization token required" "TOKEN_MISSING").
Definition EMAIL_MISSING : Response :=
  json 401 (MessageCode "User email required" "EMAIL_MISSING").
Definition TOKEN_EXPIRED : Response :=
  json 401 (MessageCode "Token expired" "TOKEN_EXPIRED").
Definition INVALID_TOKEN : Response :=
  json 403 (MessageCode "Invalid token" "INVALID_TOKEN").
Definition INVALID_CREDENTIALS : Response :=
  json 403 (MessageCode "Invalid credentials" "INVALID_CREDENTIALS").
Definition TOKEN_INVALIDATED : Response :=
  json 403 (MessageCode "Token invalidated" "TOKEN_INVALIDATED").
Definition AUTH_FAILED : Response :=
  json 500 (MessageCode "Authentication failed" "AUTH_FAILED").

(** The generic answer of [/api/login] to a failed login. *)
Definition INVALID_LOGIN : Response :=
  json 401 (Message "Invalid email or password").

(** The role a registration response announces. *)
Definition registered_role (r : Response) : option Role :=
  match body r with
  | Registered _ role _ _ _ => Some role
  | _ => None
  end.

(** The roles of the first [n] registrants: an admin, then students. *)
Definition bootstrap_roles (n : nat) : list Role :=
  match n with
  | O => []
  | S k => admin :: repeat student k
  end.

(** Every stored user's [_id] was drawn before the next one. *)
Definition ids_fresh (w : World) : Prop :=
  Forall (fun u => (User._id u < next_oid w)%N) (users w).

(** The world after [new Model(...)] drew an [_id]. *)
Definition drawn (w : World) : World :=
  mkWorld (users w) (courses w) (lessons w) (assignments w)
          (N.succ (next_oid w)).

(** The token pair and public user view a response carries. *)
Definition issued (r : Response) : option (string * string * PublicUser) :=
  match body r with
  | Registered _ _ token refreshToken user => Some (token, refreshToken, user)
  | LoggedIn _ token refreshToken user => Some (token, refreshToken, user)
  | _ => None
  end.

(** The document [send-email] stores for a request. *)
Definition record_of (now : Clock) (req : JsonBody) (wallet email : string)
  : TransactionEmail.t :=
  TransactionEmail.mk wallet
    (Js.interpolate (req !! "amount") ++ " " ++ Js.interpolate (req !! "coin"))
    email (date now) (time now) "Sent".

(** The template lookup fails: [templates[templateName]] is nothing that can
    be called. *)
Definition lookup_fails (templateName : string) : Prop :=
  match templates templateName with
  | Compiled _ => False
  | ObjectConstructor => False
  | ObjectPrototype => True
  | Undefined => True
  end.

(** The store after [doc] was saved. *)
Definition saved (doc : TransactionEmail.t) (w : MailWorld) : MailWorld :=
  mkMailWorld (transactions w ++ [doc])%list (events w ++ [Saved doc])%list.

(** The store after [mail] was handed to the relay. *)
Definition dispatched (mail : Mail) (delivered : bool) (w : MailWorld)
  : MailWorld :=
  mkMailWorld (transactions w) (events w ++ [Dispatched mail delivered])%list.

(** A refresh token is live for a decoded access token when it verifies under
    the refresh secret at this time and carries the same [userId]. *)
Definition live_refresh_token {jwtlib : JwtLib} (env : Env) (now : Z)
  (decoded : Payload) (t : string) : Prop :=
  exists rt, jwt_verify t (JWT_REFRESH_SECRET env) now = inr rt
             /\ rt !! "userId" = decoded !! "userId".

(** ** Store invariants and header shapes *)

(** No space occurs in the string. *)
Fixpoint no_space (s : string) : bool :=
  match s with
  | EmptyString => true
  | String a r => negb (Ascii.eqb a " "%char) && no_space r
  end.

(** The user collection as the handlers keep it: ids drawn in order, no two
    users with one [_id], no two users with one e-mail. *)
Definition users_ok (w : World) : Prop :=
  ids_fresh w
  /\ List.NoDup (map User._id (users w))
  /\ List.NoDup (map User.email (users w)).

(** The context object and the message [send-email] builds for a request. *)
Definition context_of (now : Clock) (req : JsonBody) : TemplateContext :=
  mkContext
    (Js.interpolate (req !! "amount") ++ " " ++ Js.interpolate (req !! "coin"))
    (req !! "network") (req !! "walletAddress") (dateTime now)
    (prettyFormat now) (req !! "localcurrency") (req !! "transaction_fee")
    (req !! "cashapp_tag") (req !! "transaction_id") (req !! "senderName")
    (req !! "recipient_name")
    (if Js.truthy (req !! "warning") then req !! "message" else None).

Definition mail_of (GMAIL_USER : option string)
  (subject : string -> option string -> string) (req : JsonBody)
  (wallet : string) (html : Html) : Mail :=
  mkMail (Js.dquote ++ wallet ++ Js.dquote ++ " <"
          ++ Js.interpolate GMAIL_USER ++ ">")
         (req !! "email")
         (subject wallet (req !! "recipient_name"))
         html.

(** ** Concrete libraries and data for the examples *)

Module Example.

Fixpoint parse_N_go (acc : N) (s : string) : option N :=
  match s with
  | EmptyString => Some acc
  | String c r =>
      let d := N_of_ascii c in
      if ((48 <=? d) && (d <=? 57))%N then parse_N_go (10 * acc + (d - 48))%N r
      else None
  end.

Definition parse_N (s : string) : option N :=
  match s with
  | EmptyString => None
  | _ => parse_N_go 0%N s
  end.

Definition seconds (expiresIn : string) : Z :=
  if String.eqb expiresIn "15m" then 900
  else if String.eqb expiresIn "7d" then 604800
  else 3600.

Definition jwt_error (message : string) : Error :=
  mkError "JsonWebTokenError" message.

(** A symbolic token: [exp.userId.role.key], where the last part stands for
    the signature under [key]. *)
Definition sign (payload : Payload) (secret : option string)
  (expiresIn : string) (now : Z) : Error + string :=
  match Js.truthy_value secret with
  | None => inl (mkError "Error" "secretOrPrivateKey must have a value")
  | Some key =>
      inr (pretty (Z.to_N (now + seconds expiresIn)) ++ "."
           ++ match payload !! "userId" with
              | Some (JOid i) => pretty i
              | _ => ""
              end ++ "."
           ++ match payload !! "role" with
              | Some (JStr r) => r
              | _ => ""
              end ++ "."
           ++ key)
  end.

Definition decode (userId role : string) : Payload :=
  let p : Payload :=
    match parse_N userId with
    | Some i => {[ "userId" := JOid i ]}
    | None => ∅
    end in
  if String.eqb role "" then p else <["role" := JStr role]> p.

Definition verify (token : string) (secret : option string) (now : Z)
  : Error + Payload :=
  match Js.truthy_value secret with
  | None => inl (jwt_error "secret or public key must be provided")
  | Some key =>
      match Js.split "."%char token with
      | [exp; userId; role; signature] =>
          match parse_N exp with
          | None => inl (jwt_error "jwt malformed")
          | Some exp =>
              if negb (String.eqb signature key) then
                inl (jwt_error "invalid signature")
              else if (Z.of_N exp <=? now) then
                inl (mkError "TokenExpiredError" "jwt expired")
              else inr (decode userId role)
          end
      | _ => inl (jwt_error "jwt malformed")
      end
  end.

#[local] Instance jwt : JwtLib := {| jwt_sign := sign; jwt_verify := verify |}.

#[local] Instance bcrypt : BcryptLib := {|
  bcrypt_hash := fun password _ => "$2a$10$" ++ password;
  bcrypt_compare := fun password hash => String.eqb hash ("$2a$10$" ++ password)
|}.

Definition env : Env :=
  mkEnv (Some "access-key") (Some "refresh-key") None None.

(** Both tokens under one secret. *)
Definition env_one_secret : Env := mkEnv (Some "key") (Some "key") None None.

Definition alice : JsonBody :=
  {[ "name" := "Alice"; "email" := "first@x.com"; "password" := "correct horse" ]}.

Definition bob : JsonBody :=
  {[ "name" := "Bob"; "email" := "second@x.com"; "password" := "battery staple" ]}.

Definition world_of {A} (r : Outcome A * World) : World := snd r.

(** Alice registers at time 100, Bob at 110; Alice logs in again at 200 and
    Bob at 210. *)
Definition w_alice : World := world_of (post_register env 100 alice empty_world).
Definition w_both : World := world_of (post_register env 110 bob w_alice).

(** Alice registers where one secret is configured for both tokens. *)
Definition w_one_secret : World :=
  world_of (post_register env_one_secret 100 alice empty_world).
Definition w_alice2 : World :=
  world_of (post_login env 200
              {[ "email" := "first@x.com"; "password" := "correct horse" ]}
              w_both).
Definition w_login : World :=
  world_of (post_login env 210
              {[ "email" := "second@x.com"; "password" := "battery staple" ]}
              w_alice2).

(** The token pair of Alice's registration, and of her later login. *)
Definition alice_access : string := "1000.0.admin.access-key".
Definition alice_refresh : string := "604900.0..refresh-key".
Definition alice_refresh2 : string := "605000.0..refresh-key".

(** Bob's access token from his login. *)
Definition bob_access : string := "1110.1.student.access-key".

(** The store after the refresh token of Alice's first session was removed
    from her [refreshTokens]. *)
Definition revoke (tok : string) (u : User.t) : User.t :=
  User.mk (User._id u) (User.name u) (User.email u) (User.password u)
          (User.role u) (User.createdAt u)
          (filter (fun t => t ≠ tok) (User.refreshTokens u)).

Definition w_revoked : World :=
  set_users (update_first (fun u => bool_decide (User.email u = "first@x.com"))
                          (revoke alice_refresh))
            w_login.

Definition bearer (token email : string) : Headers :=
  {[ "authorization" := "Bearer " ++ token; "email" := email ]}.

(** The stored users of [w_login], and Alice after the removal. *)
Definition alice_user : User.t :=
  User.mk 0%N "Alice" "first@x.com" "$2a$10$correct horse" admin 100
          [alice_refresh; alice_refresh2].

Definition alice_revoked : User.t :=
  User.mk 0%N "Alice" "first@x.com" "$2a$10$correct horse" admin 100
          [alice_refresh2].

Definition bob_user : User.t :=
  User.mk 1%N "Bob" "second@x.com" "$2a$10$battery staple" student 110
          ["604910.1..refresh-key"; "605010.1..refresh-key"].

Definition logic_course : JsonBody := {[ "name" := "Logic"; "code" := "LOG101" ]}.

(** Bob, a student, sends his own token and e-mail, and [role: admin]. *)
Definition bob_claims_admin : Headers :=
  <["role" := "admin"]> (bearer bob_access "second@x.com").

(** The course his request creates. *)
Definition bobs_course : Course.t :=
  Course.mk 2%N "Logic" "LOG101" [] [] (Some 1%N).

(** Alice, the admin, sends her token and e-mail and no [role] header. *)
Definition alice_headers : Headers := bearer alice_access "first@x.com".

(** The answers to the two registrations. *)
Definition alice_registered : Response :=
  json 201 (Registered "User registered successfully" admin alice_access
                       alice_refresh
                       (mkPublicUser 0%N "Alice" "first@x.com" admin)).

Definition bob_registered : Response :=
  json 201 (Registered "User registered successfully" student
                       "1010.1.student.access-key" "604910.1..refresh-key"
                       (mkPublicUser 1%N "Bob" "second@x.com" student)).

(** The store after every refresh token of Alice was removed. *)
Definition alice_logged_out : User.t :=
  User.mk 0%N "Alice" "first@x.com" "$2a$10$correct horse" admin 100 [].

Definition w_logged_out : World :=
  set_users (update_first (fun u => bool_decide (User.email u = "first@x.com"))
                          (fun _ => alice_logged_out))
            w_login.

(** A login with Alice's e-mail and a wrong password. *)
Definition wrong_password : JsonBody :=
  {[ "email" := "first@x.com"; "password" := "incorrect horse" ]}.

(** A login with an e-mail nobody registered. *)
Definition unknown_email : JsonBody :=
  {[ "email" := "nobody@x.com"; "password" := "incorrect horse" ]}.


(** A catalog with one course, and an admin session in [w_login]. *)
Definition w_course : World :=
  world_of (post_courses env 300
              (<["role" := "admin"]> (bearer alice_access "first@x.com"))
              logic_course
              w_login).

(** Alice adds a lesson to the course of [w_course]. *)
Definition intro_request : JsonBody :=
  {[ "title" := "Introduction"; "youtubeLink" := "https://youtu.be/intro" ]}.

Definition logic : Course.t :=
  Course.mk 2%N "Logic" "LOG101" [] [] (Some 0%N).

Definition intro_lesson : Lesson.t :=
  Lesson.mk 3%N "Introduction" "https://youtu.be/intro" (Some 2%N).

Definition w_lesson : World :=
  world_of (post_course_lessons env 400 alice_headers (JOid 2%N) intro_request
                                w_course).

(** The notification service: a renderer, a relay that accepts everything and
    one that is down. *)
Definition render (name : string) (context : TemplateContext) : string :=
  "<html>" ++ name ++ ": " ++ ctx_amount context ++ "</html>".

Definition relay_up (m : Mail) : option Error := None.

Definition relay_down (m : Mail) : option Error :=
  Some (mkError "Error" "connect ECONNREFUSED").

Definition clock : Clock :=
  mkClock "Aug 18, 2025" "12:59 PM" "2025-08-18 12:59:07"
          "Mon, Aug 18 2025 at 12:59 PM".

Definition binance_request : JsonBody :=
  {[ "wallet" := "Binance"; "amount" := "0.5"; "coin" := "BTC";
     "email" := "a@b.com" ]}.

(** An unknown provider, with and without the recipient's address. *)
Definition unknown_request : JsonBody :=
  {[ "wallet" := "Kraken"; "amount" := "1"; "coin" := "ETH";
     "email" := "a@b.com" ]}.

Definition unknown_no_email : JsonBody :=
  {[ "wallet" := "Kraken"; "amount" := "1"; "coin" := "ETH" ]}.

Definition mail_empty : MailWorld := mkMailWorld [] [].

(** A library whose tokens are not active before time 50. *)
Definition verify_nbf (token : string) (secret : option string) (now : Z)
  : Error + Payload :=
  if now <? 50 then inl (mkError "NotBeforeError" "jwt not active")
  else verify token secret now.

Definition jwt_nbf : JwtLib := {| jwt_sign := sign; jwt_verify := verify_nbf |}.

(** A deployment without [JWT_SECRET]. *)
Definition env_no_secret : Env := mkEnv None (Some "refresh-key") None None.

(** A token under the access key that carries Alice's id and the role
    student. *)
Definition alice_as_student : string := "1000.0.student.access-key".

Definition alice_login : JsonBody :=
  {[ "email" := "first@x.com"; "password" := "correct horse" ]}.

(** The token pair of Alice's login at time 200. *)
Definition alice_access2 : string := "1100.0.admin.access-key".

Definition alice_logged_in : Response :=
  json 200 (LoggedIn "Login successful" alice_access2 alice_refresh2
                     (mkPublicUser 0%N "Alice" "first@x.com" admin)).

(** Alice as stored after her registration. *)
Definition alice_new : User.t :=
  User.mk 0%N "Alice" "first@x.com" "$2a$10$correct horse" admin 100
          [alice_refresh].

(** Alice adds an assignment to the course of [w_course]. *)
Definition essay_request : JsonBody :=
  {[ "title" := "Essay"; "link" := "https://x.com/essay" ]}.

Definition essay : Assignment.t :=
  Assignment.mk 3%N "Essay" "https://x.com/essay" (Some 2%N).

Definition w_essay : World :=
  world_of (post_course_assignments env 400 alice_headers (JOid 2%N)
                                    essay_request w_course).

(** A notification request without [amount] and [coin]. *)
Definition no_amount_request : JsonBody :=
  {[ "wallet" := "Binance"; "email" := "a@b.com" ]}.

(** Alice adds a second lesson to the course of [w_lesson]. *)
Definition proofs_request : JsonBody :=
  {[ "title" := "Proofs"; "youtubeLink" := "https://youtu.be/proofs" ]}.

Definition proofs_lesson : Lesson.t :=
  Lesson.mk 4%N "Proofs" "https://youtu.be/proofs" (Some 2%N).

Definition w_lesson2 : World :=
  world_of (post_course_lessons env 450 alice_headers (JOid 2%N)
                                proofs_request w_lesson).

(** Alice sets the lessons of the course of [w_course], which has none, to
    the list of the id 3, and then creates the first lesson. *)
Definition list_3 : Course.patch :=
  Course.mkPatch None None (Some [3%N]) None None.

Definition logic_listed : Course.t :=
  Course.mk 2%N "Logic" "LOG101" [3%N] [] (Some 0%N).

Definition logic_twice : Course.t :=
  Course.mk 2%N "Logic" "LOG101" [3%N; 3%N] [] (Some 0%N).

Definition w_listed : World :=
  world_of (put_course env 350 alice_headers (JOid 2%N) list_3 w_course).

Definition w_twice : World :=
  world_of (post_course_lessons env 400 alice_headers (JOid 2%N)
                                intro_request w_listed).

(** The casts for the examples.  A string is taken as it is; a number (the
    examples use small integers) and a boolean are cast to the string the
    language prints for them; arrays and objects, which the examples do not
    send, are refused.  Numbers are compared as the language compares them
    and anything else as [NaN], which is below nothing. *)
Definition cast_error : Error :=
  mkError "CastError" "Cast to string failed".

Definition to_string (v : Json.value) : Error + string :=
  match v with
  | Json.Str s => inr s
  | Json.Num n => inr (pretty n)
  | Json.Bool b => inr (if b then "true" else "false")
  | _ => inl cast_error
  end.

#[local] Instance casts : Casts.
Proof.
  refine {|
    js_less := fun x n =>
      match x with
      | Json.Num m => inr (m <? n)
      | _ => inr false
      end;
    cast_filter := fun v =>
      match to_string v with
      | inr s => inr (fun x => bool_decide (x = s))
      | inl e => inl e
      end;
    cast_string := to_string
  |}.
  - intros s. eexists. split; reflexivity.
  - reflexivity.
Defined.

(** A login with Alice's e-mail and one with an e-mail nobody registered,
    both with the number 1 for a password. *)
Definition alice_numeric : JsonObject :=
  {[ "email" := Json.Str "first@x.com"; "password" := Json.Num 1 ]}.

Definition nobody_numeric : JsonObject :=
  {[ "email" := Json.Str "nobody@x.com"; "password" := Json.Num 1 ]}.

(** A registration with the number 1234567 for a password, under a new
    e-mail and under Alice's. *)
Definition carol_numeric : JsonObject :=
  {[ "name" := Json.Str "Carol"; "email" := Json.Str "third@x.com";
     "password" := Json.Num 1234567 ]}.

Definition carol_numeric_taken : JsonObject :=
  {[ "name" := Json.Str "Carol"; "email" := Json.Str "first@x.com";
     "password" := Json.Num 1234567 ]}.

End Example.

(** ** Properties *)

(** *** Truthiness *)

Lemma truthy_value_Some (x : option string) (s : string) :
  Js.truthy_value x = Some s -> x = Some s /\ s <> "".
Proof.
  destruct x as [s'|]; simpl; [|discriminate].
  destruct (String.eqb_spec s' ""); [discriminate|].
  intros [= ->]. split; [reflexivity|assumption].
Qed.

(** *** The middleware *)

Section Middleware.

Context {jwtlib : JwtLib}.
Variable env : Env.

(** A database read leaves the database as it is. *)
Lemma User_findOne_world (id : option jsval) (mail : option string) (w : World) :
  snd (User_findOne id mail w) = w.
Proof.
  unfold User_findOne. destruct id as [[s|i]|]; reflexivity.
Qed.

(** A userId that is an [ObjectId] and a claimed e-mail resolve to no stored
    user exactly when no user has both. *)
Lemma User_findOne_unresolved (i : ObjectId) (mail : string) (w : World) :
  User_findOne (Some (JOid i)) (Some mail) w = (Ok None, w)
  <-> Forall (fun u => ~ (User._id u = i /\ User.email u = mail)) (users w).
Proof.
  unfold User_findOne, bind, lift, gets. simpl.
  induction (users w) as [|u l IH]; simpl.
  - split; [constructor|reflexivity].
  - unfold User_matches at 1.
    destruct (bool_decide_reflect (User._id u = i)) as [Hi|Hi];
      destruct (bool_decide_reflect (User.email u = mail)) as [Hm|Hm]; simpl.
    + split; [discriminate|]. intros Hall. inversion Hall; subst. tauto.
    + rewrite IH. split; [constructor; tauto|]. intros Hall. now inversion Hall.
    + rewrite IH. split; [constructor; tauto|]. intros Hall. now inversion Hall.
    + rewrite IH. split; [constructor; tauto|]. intros Hall. now inversion Hall.
Qed.

Lemma authenticateToken_world (now : Z) (headers : Headers) (w : World) :
  snd (authenticateToken env now headers w) = w.
Proof.
  unfold authenticateToken, try_catch.
  destruct (Js.truthy_value (bearer_token headers)) as [token|]; [|reflexivity].
  destruct (Js.truthy_value (headers !! "email")) as [mail|]; [|reflexivity].
  unfold bind, lift.
  destruct (jwt_verify token (JWT_SECRET env) now) as [e|decoded]; simpl.
  - destruct (String.eqb _ _); [reflexivity|].
    destruct (String.eqb _ _); reflexivity.
  - pose proof (User_findOne_world (decoded !! "userId") (Some mail) w) as Hw.
    destruct (User_findOne (decoded !! "userId") (Some mail) w) as [[[u|]|e] w'];
      simpl in Hw; subst w'.
    + destruct (negb _); reflexivity.
    + reflexivity.
    + destruct (String.eqb _ _); [reflexivity|].
      destruct (String.eqb _ _); reflexivity.
Qed.

(** The outcome of the middleware once the token verified and the lookup
    returned. *)
Lemma authenticateToken_verified (now : Z) (headers : Headers) (w : World)
  (token userEmail : string) (decoded : Payload) (found : option User.t) :
  Js.truthy_value (bearer_token headers) = Some token ->
  Js.truthy_value (headers !! "email") = Some userEmail ->
  jwt_verify token (JWT_SECRET env) now = inr decoded ->
  User_findOne (decoded !! "userId") (Some userEmail) w = (Ok found, w) ->
  authenticateToken env now headers w =
    match found with
    | None => (Ok (Responded INVALID_CREDENTIALS), w)
    | Some user =>
        if existsb (refresh_matches env now decoded) (User.refreshTokens user)
        then (Ok (Next user), w)
        else (Ok (Responded TOKEN_INVALIDATED), w)
    end.
Proof.
  intros Ht Hm Hv Hf. unfold authenticateToken, try_catch.
  rewrite Ht, Hm. unfold bind at 1. unfold lift at 1. rewrite Hv.
  unfold ret at 1. unfold bind. rewrite Hf.
  destruct found as [user|]; [|reflexivity].
  destruct (existsb _ _); reflexivity.
Qed.


End Middleware.

(** *** The refresh-token scan *)

Section RefreshScan.

Context {jwtlib : JwtLib}.
Variable env : Env.

Lemma refresh_matches_live (now : Z) (decoded : Payload) (t : string) :
  refresh_matches env now decoded t = true <-> live_refresh_token env now decoded t.
Proof.
  unfold refresh_matches, live_refresh_token.
  destruct (jwt_verify t (JWT_REFRESH_SECRET env) now) as [e|rt].
  - split; [discriminate|]. intros (rt & Hrt & _). discriminate.
  - rewrite bool_decide_eq_true. split.
    + intros Heq. exists rt. split; [reflexivity|assumption].
    + intros (rt' & [= <-] & Heq). assumption.
Qed.

Lemma scan_live (now : Z) (decoded : Payload) (l : list string) :
  existsb (refresh_matches env now decoded) l = true
  <-> exists t, In t l /\ live_refresh_token env now decoded t.
Proof.
  rewrite existsb_exists. split; intros (t & Hin & Ht); exists t;
    (split; [assumption|]); now apply refresh_matches_live.
Qed.

(** C2, as the code has it.  For a request whose access token verifies and
    whose userId and claimed e-mail resolve to the user: when none of the
    user's stored refresh tokens is live for the access token (it verifies
    under the refresh secret, is unexpired and carries the same userId), in
    particular when the collection is empty, the request is rejected with 403
    TOKEN_INVALIDATED, whatever the expiry of the access token; when at least
    one stored refresh token is live, the request passes the scan and the
    user is attached. *)
Theorem refresh_scan_decides (now : Z) (headers : Headers) (w : World)
  (token userEmail : string) (decoded : Payload) (user : User.t) :
  Js.truthy_value (bearer_token headers) = Some token ->
  Js.truthy_value (headers !! "email") = Some userEmail ->
  jwt_verify token (JWT_SECRET env) now = inr decoded ->
  User_findOne (decoded !! "userId") (Some userEmail) w = (Ok (Some user), w) ->
  ((forall t, In t (User.refreshTokens user) ->
              ~ live_refresh_token env now decoded t) ->
   authenticateToken env now headers w = (Ok (Responded TOKEN_INVALIDATED), w))
  /\ (User.refreshTokens user = [] ->
      authenticateToken env now headers w = (Ok (Responded TOKEN_INVALIDATED), w))
  /\ ((exists t, In t (User.refreshTokens user)
                 /\ live_refresh_token env now decoded t) ->
      authenticateToken env now headers w = (Ok (Next user), w)).
Proof.
  intros Ht Hm Hv Hf.
  rewrite (authenticateToken_verified env _ _ _ _ _ _ _ Ht Hm Hv Hf).
  assert (Hnone : (forall t, In t (User.refreshTokens user) ->
                             ~ live_refresh_token env now decoded t) ->
                  existsb (refresh_matches env now decoded)
                          (User.refreshTokens user) = false).
  { intros Hall. apply not_true_is_false. intros Hex.
    apply scan_live in Hex. destruct Hex as (t & Hin & Hlive).
    exact (Hall t Hin Hlive). }
  split; [|split].
  - intros Hall. now rewrite (Hnone Hall).
  - intros Hnil. rewrite Hnone; [reflexivity|].
    rewrite Hnil. intros t [].
  - intros Hex. apply scan_live in Hex. now rewrite Hex.
Qed.

End RefreshScan.

(** *** Registration and login *)

Section Accounts.

Context {jwtlib : JwtLib} {bcryptlib : BcryptLib}.
Variable env : Env.

Lemma find_email_None (mail : string) (l : list User.t) :
  find (User_matches None (Some mail)) l = None <->
  Forall (fun u => User.email u <> mail) l.
Proof.
  induction l as [|u l IH]; simpl.
  - split; [constructor|reflexivity].
  - unfold User_matches at 1. simpl. case_bool_decide as Hu.
    + split; [discriminate|]. intros Hall. inversion Hall; subst. contradiction.
    + rewrite IH. split.
      * intros Hall. constructor; assumption.
      * intros Hall. now inversion Hall.
Qed.

Lemma User_save_spec (u : User.t) (w : World) :
  User_save u w =
    if negb (User_valid u) then
      (Throw (ValidationError "UserAdmin" (failing (User_paths u))), w)
    else if existsb (fun x => bool_decide (User._id x = User._id u)) (users w)
    then (Ok tt,
          set_users (update_first (fun x => bool_decide (User._id x = User._id u))
                                  (fun _ => u)) w)
    else if existsb (fun x => bool_decide (User.email x = User.email u))
                    (users w)
    then (Throw DuplicateKey, w)
    else (Ok tt, set_users (fun l => (l ++ [u])%list) w).
Proof.
  unfold User_save. destruct (negb (User_valid u)); [reflexivity|].
  unfold bind, gets.
  destruct (existsb _ (users w)); [reflexivity|].
  destruct (existsb _ (users w)); reflexivity.
Qed.

(** X28. On a body whose fields are strings, [POST /api/register] rejects
    with status 400, without creating a user, a request in which [name],
    [email] or [password] is missing; then one whose password has fewer than
    8 UTF-16 code units ([password.length]); then one whose e-mail is that of
    a stored user.  The three checks run in this order. *)
Theorem register_rejections_in_order (now : Z) (body : JsonBody) (w : World) :
  (Js.truthy_value (body !! "name") = None
   \/ Js.truthy_value (body !! "email") = None
   \/ Js.truthy_value (body !! "password") = None ->
   post_register env now body w
   = (Ok (json 400 (Message "All fields are required")), w))
  /\ (forall name email password,
        Js.truthy_value (body !! "name") = Some name ->
        Js.truthy_value (body !! "email") = Some email ->
        Js.truthy_value (body !! "password") = Some password ->
        ((Js.length password < 8)%nat ->
         post_register env now body w
         = (Ok (json 400 (Message "Password must be at least 8 characters")), w))
        /\ ((8 <= Js.length password)%nat ->
            (exists u, In u (users w) /\ User.email u = email) ->
            post_register env now body w
            = (Ok (json 400 (Message "Email already in use")), w))).
Proof.
  split.
  - intros Hmiss. unfold post_register, try_catch.
    destruct (Js.truthy_value (body !! "name")) as [n|];
      destruct (Js.truthy_value (body !! "email")) as [e|];
      destruct (Js.truthy_value (body !! "password")) as [p|];
      try reflexivity.
    destruct Hmiss as [Hm|[Hm|Hm]]; discriminate.
  - intros name email password Hn He Hp. split.
    + intros Hlen. unfold post_register, try_catch. rewrite Hn, He, Hp.
      apply Nat.ltb_lt in Hlen. now rewrite Hlen.
    + intros Hlen (u & Hin & Hu). unfold post_register, try_catch.
      rewrite Hn, He, Hp.
      destruct (Nat.ltb_spec (Js.length password) 8) as [Hlt|_]; [lia|].
      unfold bind at 1. unfold User_findOne_email, gets.
      destruct (find (User_matches None (Some email)) (users w)) as [x|] eqn:Hf;
        [reflexivity|].
      apply find_email_None in Hf. rewrite List.Forall_forall in Hf.
      exfalso. exact (Hf u Hin Hu).
Qed.

(** What [post_register] can answer: a refusal or a failure, which carry no
    tokens, or the answer to a created user. *)
Lemma post_register_cases (now : Z) (req : JsonBody) (w w' : World)
  (r : Response) :
  post_register env now req w = (Ok r, w') ->
  (status r <> 201%nat /\ issued r = None)
  \/ exists name email password token refreshToken w1,
      let role := if Nat.eqb (length (users w)) 0 then admin else student in
      let u0 := User.mk (next_oid w) name email (bcrypt_hash password 10) role
                        now [] in
      let u1 := User.push_refreshToken refreshToken u0 in
      Js.truthy_value (req !! "name") = Some name
      /\ Js.truthy_value (req !! "email") = Some email
      /\ Js.truthy_value (req !! "password") = Some password
      /\ find (User_matches None (Some email)) (users w) = None
      /\ sign_access env now u0 = inr token
      /\ sign_refresh env now u0 = inr refreshToken
      /\ User_save u0 (drawn w) = (Ok tt, w1)
      /\ User_save u1 w1 = (Ok tt, w')
      /\ r = json 201 (Registered "User registered successfully" role token
                                  refreshToken (public u1)).
Proof.
  intros Hrun. unfold post_register, try_catch in Hrun.
  destruct (Js.truthy_value (req !! "name")) as [name|];
    destruct (Js.truthy_value (req !! "email")) as [email|];
    destruct (Js.truthy_value (req !! "password")) as [password|];
    try (simpl in Hrun; injection Hrun as <- <-; left; split;
         [discriminate|reflexivity]).
  destruct (Js.length password <? 8)%nat;
    [simpl in Hrun; injection Hrun as <- <-; left; split;
     [discriminate|reflexivity]|].
  unfold bind at 1 in Hrun. unfold User_findOne_email, gets in Hrun.
  destruct (find (User_matches None (Some email)) (users w)) eqn:Hfind;
    [simpl in Hrun; injection Hrun as <- <-; left; split;
     [discriminate|reflexivity]|].
  unfold bind at 1 in Hrun. unfold User_countDocuments, gets in Hrun.
  unfold bind at 1 in Hrun. unfold new_oid in Hrun. fold (drawn w) in Hrun.
  set (role := if Nat.eqb (length (users w)) 0 then admin else student) in *.
  set (u0 := User.mk (next_oid w) name email (bcrypt_hash password 10) role
                     now []) in *.
  unfold bind at 1 in Hrun.
  destruct (User_save u0 (drawn w)) as [[[]|e] w1] eqn:Hs1;
    [|simpl in Hrun; injection Hrun as <- <-; left; split;
      [discriminate|reflexivity]].
  unfold bind at 1 in Hrun. unfold lift at 1 in Hrun.
  destruct (sign_access env now u0) as [e|token] eqn:Ha;
    [simpl in Hrun; injection Hrun as <- <-; left; split;
     [discriminate|reflexivity]|].
  unfold ret at 1 in Hrun.
  unfold bind at 1 in Hrun. unfold lift at 1 in Hrun.
  destruct (sign_refresh env now u0) as [e|refreshToken] eqn:Hr;
    [simpl in Hrun; injection Hrun as <- <-; left; split;
     [discriminate|reflexivity]|].
  unfold ret at 1 in Hrun.
  unfold bind at 1 in Hrun.
  destruct (User_save (User.push_refreshToken refreshToken u0) w1)
    as [[[]|e] w2] eqn:Hs2;
    [|simpl in Hrun; injection Hrun as <- <-; left; split;
      [discriminate|reflexivity]].
  simpl in Hrun. injection Hrun as <- <-. right.
  exists name, email, password, token, refreshToken, w1.
  repeat split; assumption || reflexivity.
Qed.

(** What [post_login] can answer. *)
Lemma post_login_cases (now : Z) (req : JsonBody) (w w' : World)
  (r : Response) :
  post_login env now req w = (Ok r, w') ->
  (status r <> 200%nat /\ issued r = None)
  \/ exists email password user token refreshToken,
      Js.truthy_value (req !! "email") = Some email
      /\ Js.truthy_value (req !! "password") = Some password
      /\ find (User_matches None (Some email)) (users w) = Some user
      /\ bcrypt_compare password (User.password user) = true
      /\ sign_access env now user = inr token
      /\ sign_refresh env now user = inr refreshToken
      /\ User_save (User.push_refreshToken refreshToken user) w = (Ok tt, w')
      /\ r = json 200 (LoggedIn "Login successful" token refreshToken
                                (public (User.push_refreshToken refreshToken
                                                                user))).
Proof.
  intros Hrun. unfold post_login, try_catch in Hrun.
  destruct (Js.truthy_value (req !! "email")) as [email|];
    destruct (Js.truthy_value (req !! "password")) as [password|];
    try (simpl in Hrun; injection Hrun as <- <-; left; split;
         [discriminate|reflexivity]).
  unfold bind at 1 in Hrun. unfold User_findOne_email, gets in Hrun.
  destruct (find (User_matches None (Some email)) (users w)) as [user|]
    eqn:Hfind;
    [|simpl in Hrun; injection Hrun as <- <-; left; split;
      [discriminate|reflexivity]].
  destruct (bcrypt_compare password (User.password user)) eqn:Hpw;
    [|simpl in Hrun; injection Hrun as <- <-; left; split;
      [discriminate|reflexivity]].
  cbn [negb] in Hrun. cbv iota in Hrun.
  unfold bind at 1 in Hrun. unfold lift at 1 in Hrun.
  destruct (sign_access env now user) as [e|token] eqn:Ha;
    [simpl in Hrun; injection Hrun as <- <-; left; split;
     [discriminate|reflexivity]|].
  unfold ret at 1 in Hrun.
  unfold bind at 1 in Hrun. unfold lift at 1 in Hrun.
  destruct (sign_refresh env now user) as [e|refreshToken] eqn:Hr;
    [simpl in Hrun; injection Hrun as <- <-; left; split;
     [discriminate|reflexivity]|].
  unfold ret at 1 in Hrun.
  unfold bind at 1 in Hrun.
  destruct (User_save (User.push_refreshToken refreshToken user) w)
    as [[[]|e] w2] eqn:Hs2;
    [|simpl in Hrun; injection Hrun as <- <-; left; split;
      [discriminate|reflexivity]].
  simpl in Hrun. injection Hrun as <- <-. right.
  exists email, password, user, token, refreshToken.
  repeat split; assumption || reflexivity.
Qed.

Lemma existsb_id_fresh (n : ObjectId) (l : list User.t) :
  Forall (fun u => (User._id u < n)%N) l ->
  existsb (fun x => bool_decide (User._id x = n)) l = false.
Proof.
  induction 1 as [|u l Hu _ IH]; simpl; [reflexivity|].
  rewrite IH, orb_false_r. apply bool_decide_eq_false. lia.
Qed.

Lemma update_first_last {A} (p : A -> bool) (f : A -> A) (l : list A) (a : A) :
  existsb p l = false -> p a = true ->
  update_first p f (l ++ [a]) = (l ++ [f a])%list.
Proof.
  intros Hl Ha. induction l as [|x l IH]; simpl in *.
  - now rewrite Ha.
  - apply orb_false_elim in Hl. destruct Hl as [Hx Hl].
    rewrite Hx. now rewrite IH.
Qed.

Lemma post_register_total (now : Z) (body : JsonBody) (w : World) :
  exists r w', post_register env now body w = (Ok r, w').
Proof.
  unfold post_register, try_catch.
  match goal with
  | |- context [match ?m w with _ => _ end] => destruct (m w) as [[r|e] w']
  end; eexists; eexists; reflexivity.
Qed.

(** A successful registration appends one user, whose role the number of
    users stored before it decides, and answers with that role. *)
Lemma post_register_appends (now : Z) (req : JsonBody) (w w' : World)
  (r : Response) :
  ids_fresh w ->
  post_register env now req w = (Ok r, w') ->
  status r = 201%nat ->
  exists u token refreshToken,
    users w' = (users w ++ [u])%list
    /\ User.role u = (if Nat.eqb (length (users w)) 0 then admin else student)
    /\ body r = Registered "User registered successfully" (User.role u) token
                           refreshToken (public u)
    /\ ids_fresh w'.
Proof.
  intros Hfresh Hrun H201.
  destruct (post_register_cases _ _ _ _ _ Hrun)
    as [[Hno _]|(name & email & password & token & refreshToken & w1 & H)];
    [contradiction|].
  cbv zeta in H.
  set (role := if Nat.eqb (length (users w)) 0 then admin else student) in *.
  set (u0 := User.mk (next_oid w) name email (bcrypt_hash password 10) role
                     now []) in *.
  destruct H as (_ & _ & _ & _ & _ & _ & Hs1 & Hs2 & ->).
  assert (Hnew : existsb (fun x => bool_decide (User._id x = next_oid w))
                         (users w) = false)
    by (apply existsb_id_fresh, Hfresh).
  rewrite User_save_spec in Hs1.
  destruct (negb (User_valid u0)); [discriminate|].
  change (users (drawn w)) with (users w) in Hs1.
  change (User._id u0) with (next_oid w) in Hs1.
  rewrite Hnew in Hs1.
  destruct (existsb _ (users w)); [discriminate|].
  injection Hs1 as <-.
  rewrite User_save_spec in Hs2.
  destruct (negb (User_valid _)); [discriminate|].
  change (User._id (User.push_refreshToken refreshToken u0))
    with (next_oid w) in Hs2.
  change (users (set_users (fun l => (l ++ [u0])%list) (drawn w)))
    with (users w ++ [u0])%list in Hs2.
  rewrite existsb_app in Hs2. simpl in Hs2.
  rewrite bool_decide_eq_true_2 in Hs2 by reflexivity.
  rewrite orb_true_r in Hs2. injection Hs2 as <-.
  exists (User.push_refreshToken refreshToken u0), token, refreshToken.
  split; [|split; [|split]].
  - simpl. rewrite update_first_last;
      [reflexivity|assumption|now apply bool_decide_eq_true_2].
  - reflexivity.
  - reflexivity.
  - unfold ids_fresh. simpl.
    rewrite update_first_last;
      [|assumption|now apply bool_decide_eq_true_2].
    apply Forall_app. split.
    + eapply List.Forall_impl; [|exact Hfresh]. simpl. intros x Hx. lia.
    + constructor; [simpl; lia|constructor].
Qed.

Lemma register_all_total (reqs : list (Z * JsonBody)) (w : World) :
  exists rs w', register_all env reqs w = (Ok rs, w')
                /\ length rs = length reqs.
Proof.
  revert w. induction reqs as [|[now req] rest IH]; intros w; simpl.
  - exists [], w. split; reflexivity.
  - destruct (post_register_total now req w) as (r & w1 & Hr).
    destruct (IH w1) as (rs & w' & Hrs & Hlen).
    exists (r :: rs), w'. unfold bind. rewrite Hr, Hrs. simpl.
    split; [reflexivity|now rewrite Hlen].
Qed.

(** Successful registrations served in sequence, from any well-formed
    store. *)
Lemma register_all_appends (reqs : list (Z * JsonBody)) :
  forall (w w' : World) (rs : list Response),
    ids_fresh w ->
    register_all env reqs w = (Ok rs, w') ->
    Forall (fun r => status r = 201%nat) rs ->
    exists new,
      users w' = (users w ++ new)%list
      /\ Forall2 (fun r u =>
                    exists token refreshToken,
                      body r = Registered "User registered successfully"
                                          (User.role u) token refreshToken
                                          (public u))
                 rs new
      /\ map User.role new =
           match users w with
           | [] => bootstrap_roles (length reqs)
           | _ => repeat student (length reqs)
           end.
Proof.
  induction reqs as [|[now req] rest IH]; intros w w' rs Hfresh Hrun Hall.
  - simpl in Hrun. injection Hrun as <- <-. exists [].
    split; [now rewrite app_nil_r|]. split; [constructor|].
    destruct (users w); reflexivity.
  - simpl in Hrun. unfold bind at 1 in Hrun.
    destruct (post_register env now req w) as [[r|e] w1] eqn:Hr;
      [|discriminate].
    unfold bind at 1 in Hrun.
    destruct (register_all env rest w1) as [[rs'|e] w2] eqn:Hrs;
      [|discriminate].
    injection Hrun as <- <-.
    inversion Hall as [|? ? H201 Hall']; subst.
    destruct (post_register_appends _ _ _ _ _ Hfresh Hr H201)
      as (u & token & refreshToken & Hus & Hrole & Hbody & Hfresh1).
    destruct (IH _ _ _ Hfresh1 Hrs Hall') as (new & Hus' & Hrel & Hroles).
    exists (u :: new). split; [|split].
    + rewrite Hus', Hus, <- app_assoc. reflexivity.
    + constructor; [|assumption]. exists token, refreshToken. assumption.
    + simpl. rewrite Hroles, Hus, Hrole.
      destruct (users w) as [|x l]; simpl.
      * reflexivity.
      * destruct (l ++ [u])%list eqn:E; [|reflexivity].
        now apply app_eq_nil in E as [_ E].
Qed.

(** C4. Registrations served one after the other on an empty user store, all
    of them successful: the first registrant, and no other, gets role admin,
    the later ones get role student; each response announces the role that is
    stored on the user record it created. *)
Theorem first_registrant_is_admin (reqs : list (Z * JsonBody))
  (rs : list Response) (w' : World) :
  register_all env reqs empty_world = (Ok rs, w') ->
  Forall (fun r => status r = 201%nat) rs ->
  map User.role (users w') = bootstrap_roles (length reqs)
  /\ map registered_role rs = map Some (bootstrap_roles (length reqs))
  /\ Forall2 (fun r u =>
                exists token refreshToken,
                  body r = Registered "User registered successfully"
                                      (User.role u) token refreshToken
                                      (public u))
             rs (users w').
Proof.
  intros Hrun Hall.
  assert (Hfresh : ids_fresh empty_world) by constructor.
  destruct (register_all_appends reqs _ _ _ Hfresh Hrun Hall)
    as (new & Hus & Hrel & Hroles).
  simpl in Hus, Hroles. subst new. split; [assumption|]. split; [|assumption].
  rewrite <- Hroles. clear Hroles Hrun Hall.
  induction Hrel as [|r u rs us (token & refreshToken & Hb) _ IH]; simpl;
    [reflexivity|].
  f_equal; [|assumption]. unfold registered_role. now rewrite Hb.
Qed.

Lemma truthy_spec (x : option string) :
  match Js.truthy_value x with
  | Some s => x = Some s /\ Js.truthy x = true
  | None => Js.truthy x = false
  end.
Proof.
  destruct x as [s|]; simpl; [|reflexivity].
  destruct (String.eqb s ""); simpl; [reflexivity|]. split; reflexivity.
Qed.

(** X29. On bodies whose fields are strings a login fails with the same
    response whether the submitted e-mail is unknown or the password does not
    match the stored hash.  Take a request whose e-mail no stored user has,
    and a request whose e-mail a stored user has but whose password fails the
    hash comparison (on the same store or on another one), both with the same
    fields filled in: status and message of the two answers coincide, they
    are the generic 401 whenever e-mail and password are both present, and
    neither store changes. *)
Theorem login_failures_indistinguishable (now1 now2 : Z)
  (req1 req2 : JsonBody) (w1 w2 : World) (u : User.t) :
  (forall e, req1 !! "email" = Some e ->
             Forall (fun x => User.email x <> e) (users w1)) ->
  (exists e, req2 !! "email" = Some e
             /\ find (User_matches None (Some e)) (users w2) = Some u) ->
  (forall p, req2 !! "password" = Some p ->
             bcrypt_compare p (User.password u) = false) ->
  Js.truthy (req1 !! "email") = Js.truthy (req2 !! "email") ->
  Js.truthy (req1 !! "password") = Js.truthy (req2 !! "password") ->
  exists r,
    post_login env now1 req1 w1 = (Ok r, w1)
    /\ post_login env now2 req2 w2 = (Ok r, w2)
    /\ (r = json 400 (Message "Email and password required")
        \/ r = INVALID_LOGIN)
    /\ (Js.truthy (req2 !! "email") = true ->
        Js.truthy (req2 !! "password") = true ->
        r = INVALID_LOGIN).
Proof.
  intros Hunknown (e & He & Hfound) Hwrong Hsame_e Hsame_p.
  unfold post_login, try_catch.
  pose proof (truthy_spec (req1 !! "email")) as T1e.
  pose proof (truthy_spec (req2 !! "email")) as T2e.
  pose proof (truthy_spec (req1 !! "password")) as T1p.
  pose proof (truthy_spec (req2 !! "password")) as T2p.
  destruct (Js.truthy_value (req1 !! "email")) as [e1|];
    destruct (Js.truthy_value (req2 !! "email")) as [e2|];
    try (exfalso; clear T1p T2p; intuition congruence).
  2:{ exists (json 400 (Message "Email and password required")).
      repeat split; try reflexivity; [now left|]. congruence. }
  destruct (Js.truthy_value (req1 !! "password")) as [p1|];
    destruct (Js.truthy_value (req2 !! "password")) as [p2|];
    try (exfalso; intuition congruence).
  2:{ exists (json 400 (Message "Email and password required")).
      repeat split; try reflexivity; [now left|]. congruence. }
  destruct T1e as [E1 _], T2e as [E2 _], T2p as [P2 _].
  exists INVALID_LOGIN.
  unfold bind at 1. unfold User_findOne_email, gets.
  specialize (Hunknown e1 E1). apply find_email_None in Hunknown.
  rewrite Hunknown.
  unfold bind at 1.
  assert (e2 = e) as -> by congruence.
  rewrite Hfound, (Hwrong _ P2).
  repeat split; try reflexivity. now right.
Qed.

(** C7, as the code has it.  The token pair of a registration or a login:
    the access token is the signature of the payload { userId, role } of the
    user under [JWT_SECRET], the refresh token that of { userId } alone, with
    no role, under [JWT_REFRESH_SECRET]; each with its configured lifetime,
    15 minutes and 7 days when none is configured. *)
Theorem token_pair_payloads (now : Z) (req : JsonBody) (w w' : World)
  (r : Response) (token refreshToken : string) (user : PublicUser) :
  post_register env now req w = (Ok r, w')
  \/ post_login env now req w = (Ok r, w') ->
  issued r = Some (token, refreshToken, user) ->
  let access : Payload :=
    {[ "userId" := JOid (pu_id user);
       "role" := JStr (role_name (pu_role user)) ]} in
  let refresh : Payload := {[ "userId" := JOid (pu_id user) ]} in
  jwt_sign access (JWT_SECRET env)
           (Js.or_else (JWT_ACCESS_EXPIRES_IN env) "15m") now = inr token
  /\ jwt_sign refresh (JWT_REFRESH_SECRET env)
              (Js.or_else (JWT_REFRESH_EXPIRES_IN env) "7d") now
     = inr refreshToken
  /\ dom access = {[ "userId"; "role" ]}
  /\ dom refresh = {[ "userId" ]}
  /\ refresh !! "role" = None.
Proof.
  intros Hrun Hissued access refresh.
  assert (Hdom : dom access = {[ "userId"; "role" ]}
                 /\ dom refresh = {[ "userId" ]}
                 /\ refresh !! "role" = None).
  { subst access refresh. rewrite dom_insert_L, !dom_singleton_L.
    repeat split; reflexivity. }
  destruct Hrun as [Hrun|Hrun].
  - destruct (post_register_cases _ _ _ _ _ Hrun)
      as [[_ Hno]|(name & email & password & tok & rt & w1 & H)];
      [congruence|].
    cbv zeta in H. destruct H as (_ & _ & _ & _ & Ha & Hr & _ & _ & ->).
    simpl in Hissued. injection Hissued as <- <- <-.
    split; [exact Ha|]. split; [exact Hr|]. exact Hdom.
  - destruct (post_login_cases _ _ _ _ _ Hrun)
      as [[_ Hno]|(email & password & u & tok & rt & H)];
      [congruence|].
    destruct H as (_ & _ & _ & _ & Ha & Hr & _ & ->).
    simpl in Hissued. injection Hissued as <- <- <-.
    split; [exact Ha|]. split; [exact Hr|]. exact Hdom.
Qed.

End Accounts.

(** *** The catalog *)

Section Catalog.

Context {jwtlib : JwtLib}.
Variable env : Env.

(** The middleware answers with one of its seven failure responses or calls
    the next handler. *)
Lemma authenticateToken_outcomes (now : Z) (headers : Headers) (w : World) :
  (exists user, authenticateToken env now headers w = (Ok (Next user), w))
  \/ (exists r, authenticateToken env now headers w = (Ok (Responded r), w)
                 /\ In r [TOKEN_MISSING; EMAIL_MISSING; TOKEN_EXPIRED;
                          INVALID_TOKEN; INVALID_CREDENTIALS;
                          TOKEN_INVALIDATED; AUTH_FAILED]).
Proof.
  unfold authenticateToken, try_catch.
  destruct (Js.truthy_value (bearer_token headers)) as [token|];
    [|right; eexists; split; [reflexivity|simpl; tauto]].
  destruct (Js.truthy_value (headers !! "email")) as [mail|];
    [|right; eexists; split; [reflexivity|simpl; tauto]].
  unfold bind, lift.
  destruct (jwt_verify token (JWT_SECRET env) now) as [e|decoded]; simpl.
  { destruct (String.eqb (err_name e) "TokenExpiredError");
      [|destruct (String.eqb (err_name e) "JsonWebTokenError")];
      right; eexists; (split; [reflexivity|simpl; tauto]). }
  pose proof (User_findOne_world (decoded !! "userId") (Some mail) w) as Hw.
  destruct (User_findOne (decoded !! "userId") (Some mail) w)
    as [[[u|]|e] w0]; simpl in Hw; subst w0.
  - destruct (negb _).
    + right; eexists; split; [reflexivity|simpl; tauto].
    + left. eexists. reflexivity.
  - right; eexists; split; [reflexivity|simpl; tauto].
  - destruct (String.eqb (err_name e) "TokenExpiredError");
      [|destruct (String.eqb (err_name e) "JsonWebTokenError")];
      right; eexists; (split; [reflexivity|simpl; tauto]).
Qed.

Lemma protected_next (now : Z) (headers : Headers) (w : World) (user : User.t)
  (handler : User.t -> M World Response) :
  authenticateToken env now headers w = (Ok (Next user), w) ->
  protected env now headers handler w = handler user w.
Proof. intros E. unfold protected, bind. now rewrite E. Qed.

Lemma protected_responded (now : Z) (headers : Headers) (w : World)
  (r : Response) (handler : User.t -> M World Response) :
  authenticateToken env now headers w = (Ok (Responded r), w) ->
  protected env now headers handler w = (Ok r, w).
Proof. intros E. unfold protected, bind. now rewrite E. Qed.

(** X14. Eight of the nine mutating routes compare the role of the stored
    user the middleware attached: a caller who is not an admin gets 403 and
    nothing changes. *)
Lemma catalog_gate_on_stored_role (now : Z) (headers : Headers) (w : World)
  (user : User.t) (m : Mutation) :
  (forall b, m <> PostCourse b) ->
  authenticateToken env now headers w = (Ok (Next user), w) ->
  User.role user <> admin ->
  mutate env now headers m w = (Ok Forbidden, w).
Proof.
  intros Hm Hauth Hrole.
  destruct m; simpl; try (exfalso; eapply Hm; reflexivity);
    unfold put_course, delete_course, post_course_lessons, put_lesson,
      delete_lesson, post_course_assignments, put_assignment,
      delete_assignment;
    rewrite (protected_next _ _ _ _ _ Hauth);
    rewrite bool_decide_eq_false_2 by assumption; reflexivity.
Qed.

(** [POST /api/courses] compares the [role] header instead: without the
    header an authenticated caller gets 403 and nothing changes, whatever
    the role of the stored user. *)
Lemma post_courses_gate_on_header (now : Z) (headers : Headers) (w : World)
  (user : User.t) (req : JsonBody) :
  authenticateToken env now headers w = (Ok (Next user), w) ->
  headers !! "role" <> Some "admin" ->
  post_courses env now headers req w = (Ok Forbidden, w).
Proof.
  intros Hauth Hrole. unfold post_courses.
  rewrite (protected_next _ _ _ _ _ Hauth).
  rewrite bool_decide_eq_false_2 by assumption. reflexivity.
Qed.

Lemma find_update_first {A} (p : A -> bool) (f : A -> A) (l : list A) (x : A) :
  find p l = Some x -> p (f x) = true ->
  find p (update_first p f l) = Some (f x).
Proof.
  intros Hf Hp. induction l as [|y l IH]; simpl in *; [discriminate|].
  destruct (p y) eqn:Hy.
  - injection Hf as ->. simpl. now rewrite Hp.
  - simpl. rewrite Hy. now apply IH.
Qed.

Lemma count_occ_fresh (n : N) (l : list N) :
  Forall (fun i => (i < n)%N) l ->
  count_occ N.eq_dec (l ++ [n]) n = 1%nat.
Proof.
  intros Hl. rewrite count_occ_app.
  assert (H0 : count_occ N.eq_dec l n = 0%nat).
  { apply count_occ_not_In. intros Hin. rewrite List.Forall_forall in Hl.
    specialize (Hl n Hin). lia. }
  rewrite H0. cbn [count_occ].
  destruct (N.eq_dec n n) as [_|Hn]; [reflexivity|contradiction].
Qed.

Lemma count_occ_pushed (n : N) (l : list N) :
  count_occ N.eq_dec (l ++ [n]) n = S (count_occ N.eq_dec l n).
Proof.
  rewrite count_occ_app. cbn [count_occ].
  destruct (N.eq_dec n n) as [_|Hn]; [lia|contradiction].
Qed.

Lemma Lesson_create_spec (title link : option string) (c : ObjectId)
  (w : World) :
  Lesson_create title link (JOid c) w =
    match required "Lesson" [("title", title); ("youtubeLink", link)] title,
          required "Lesson" [("title", title); ("youtubeLink", link)] link with
    | inr t, inr l =>
        let lesson := Lesson.mk (next_oid w) t l (Some c) in
        (Ok lesson, set_lessons (fun x => (x ++ [lesson])%list) (drawn w))
    | inl e, _ => (Throw e, drawn w)
    | inr _, inl e => (Throw e, drawn w)
    end.
Proof.
  unfold Lesson_create, bind, new_oid, lift. simpl.
  destruct (required _ _ title); [reflexivity|].
  destruct (required _ _ link); reflexivity.
Qed.

Lemma Course_push_lesson_spec (c i : ObjectId) (C : Course.t) (w : World) :
  Course_findById c w = Some C ->
  Course_findByIdAndUpdate (JOid c) (Course.push_lesson i) w =
    (Ok (Some (Course.push_lesson i C)),
     set_courses (update_first (fun x => bool_decide (Course._id x = c))
                               (Course.push_lesson i)) w).
Proof.
  intros HC. unfold Course_findByIdAndUpdate, bind, lift, gets. simpl.
  rewrite HC. simpl. now rewrite String.eqb_refl.
Qed.

(** C8, as the code has it.  A create-lesson request under an existing course
    [c] that is answered 201: the lesson is stored and references [c] as its
    course, and [c]'s list of lessons is the former list with the new
    lesson's id appended once.  The id occurs in it once more than in the
    former list: exactly once when the former list did not hold it. *)
Theorem create_lesson_referenced_once (now : Z) (headers : Headers)
  (c : ObjectId) (req : JsonBody) (w w' : World) (r : Response)
  (C : Course.t) :
  post_course_lessons env now headers (JOid c) req w = (Ok r, w') ->
  status r = 201%nat ->
  Course_findById c w = Some C ->
  exists lesson C',
    body r = LessonDoc (Some lesson)
    /\ In lesson (lessons w')
    /\ Lesson.course lesson = Some c
    /\ Course_findById c w' = Some C'
    /\ Course.lessons C' = (Course.lessons C ++ [Lesson._id lesson])%list
    /\ count_occ N.eq_dec (Course.lessons C') (Lesson._id lesson)
       = S (count_occ N.eq_dec (Course.lessons C) (Lesson._id lesson))
    /\ (~ In (Lesson._id lesson) (Course.lessons C) ->
        count_occ N.eq_dec (Course.lessons C') (Lesson._id lesson) = 1%nat).
Proof.
  intros Hrun H201 HC. unfold post_course_lessons in Hrun.
  destruct (authenticateToken_outcomes now headers w)
    as [(user & Hauth)|(r0 & Hauth & Hin)].
  2:{ rewrite (protected_responded _ _ _ _ _ Hauth) in Hrun.
      injection Hrun as <- <-. simpl in Hin.
      repeat (destruct Hin as [<-|Hin]; [discriminate|]). contradiction. }
  rewrite (protected_next _ _ _ _ _ Hauth) in Hrun.
  destruct (negb (bool_decide (User.role user = admin)));
    [injection Hrun as <- <-; discriminate|].
  unfold bind in Hrun. rewrite Lesson_create_spec in Hrun.
  destruct (required _ _ (req !! "title")) as [e|title]; [discriminate|].
  destruct (required _ _ (req !! "youtubeLink")) as [e|link]; [discriminate|].
  cbv beta iota zeta in Hrun.
  set (lesson := Lesson.mk (next_oid w) title link (Some c)) in *.
  rewrite (Course_push_lesson_spec c _ C) in Hrun by exact HC.
  unfold ret in Hrun. injection Hrun as <- <-.
  exists lesson, (Course.push_lesson (next_oid w) C).
  split; [reflexivity|]. split; [simpl; apply in_or_app; right; now left|].
  split; [reflexivity|]. split; [|split; [|split]].
  - unfold Course_findById. simpl.
    apply find_update_first; [assumption|].
    apply find_some in HC. destruct HC as [_ HC]. exact HC.
  - reflexivity.
  - simpl. apply count_occ_pushed.
  - intros Hnew. simpl. rewrite count_occ_pushed.
    apply (count_occ_not_In N.eq_dec) in Hnew. simpl in Hnew.
    now rewrite Hnew.
Qed.

End Catalog.

(** *** The notification service *)

Section NotificationProperties.

Variable model : string.
Variable render : string -> TemplateContext -> string.
Variable toLowerCase : string -> string.
Variable relay : Mail -> option Error.
Variable GMAIL_USER : option string.

Lemma required_Some (paths : list (string * option string))
  (x : option string) (s : string) :
  Js.truthy_value x = Some s -> required model paths x = inr s.
Proof. intros E. unfold required. now rewrite E. Qed.

Lemma amount_not_empty (a c : string) : (a ++ " " ++ c)%string <> "".
Proof. destruct a; discriminate. Qed.

Lemma truthy_value_nonempty (s : string) :
  s <> "" -> Js.truthy_value (Some s) = Some s.
Proof.
  intros Hs. simpl. destruct (String.eqb_spec s ""); [contradiction|reflexivity].
Qed.

(** [save()] stores the document, or throws and stores nothing. *)
Lemma TransactionEmail_save_cases (wallet : option string) (amount : string)
  (email : option string) (date time status : string) (w : MailWorld) :
  (exists e, TransactionEmail_save model wallet amount email date time status w
             = (Throw e, w))
  \/ (exists wl em,
        wallet = Some wl /\ email = Some em
        /\ TransactionEmail_save model wallet amount email date time status w
           = (Ok (TransactionEmail.mk wl amount em date time status),
              saved (TransactionEmail.mk wl amount em date time status) w)).
Proof.
  unfold TransactionEmail_save, required, bind, lift.
  destruct (Js.truthy_value wallet) as [wl|] eqn:Hw;
    [|left; eexists; reflexivity].
  destruct (Js.truthy_value (Some amount)) as [am|] eqn:Ha;
    [|left; eexists; reflexivity].
  destruct (Js.truthy_value email) as [em|] eqn:He;
    [|left; eexists; reflexivity].
  destruct (Js.truthy_value (Some date)) as [d|] eqn:Hd;
    [|left; eexists; reflexivity].
  destruct (Js.truthy_value (Some time)) as [tm|] eqn:Ht;
    [|left; eexists; reflexivity].
  apply truthy_value_Some in Hw as [-> _]. apply truthy_value_Some in He as [-> _].
  apply truthy_value_Some in Ha as [[= <-] _].
  apply truthy_value_Some in Hd as [[= <-] _].
  apply truthy_value_Some in Ht as [[= <-] _].
  right. exists wl, em. repeat split; reflexivity.
Qed.

Lemma TransactionEmail_save_valid (wallet : option string) (amount : string)
  (email : option string) (date time status wl em : string) (w : MailWorld) :
  Js.truthy_value wallet = Some wl -> Js.truthy_value email = Some em ->
  amount <> "" -> date <> "" -> time <> "" ->
  TransactionEmail_save model wallet amount email date time status w
  = (Ok (TransactionEmail.mk wl amount em date time status),
     saved (TransactionEmail.mk wl amount em date time status) w).
Proof.
  intros Hw He Ha Hd Ht. unfold TransactionEmail_save, bind, lift.
  rewrite (required_Some _ _ _ Hw), (required_Some _ _ _ He).
  rewrite !(required_Some _ _ _ (truthy_value_nonempty _ Ha)).
  rewrite !(required_Some _ _ _ (truthy_value_nonempty _ Hd)).
  rewrite !(required_Some _ _ _ (truthy_value_nonempty _ Ht)).
  reflexivity.
Qed.


(** The lookup of a name that is none of the ten provider keys fails, unless
    the name is one the [templates] object inherits as a function. *)
Lemma lookup_fails_unless_inherited (templateName : string) :
  templateName ∉ template_names -> templateName <> "constructor" ->
  lookup_fails templateName.
Proof.
  intros Hunknown Hc. unfold lookup_fails, templates.
  rewrite bool_decide_eq_false_2 by exact Hunknown.
  apply String.eqb_neq in Hc. rewrite Hc.
  now destruct (String.eqb templateName "__proto__").
Qed.

(** C10, as the code has it.  A [POST /api/send-email] request whose document
    passes validation (wallet and e-mail present, date and time rendered) and
    whose lowercased wallet is not one of the ten provider keys: the
    Notification Record is stored with status Sent before the template is
    looked up and stays stored; when the lookup then fails, the answer is 500
    with the store changed. *)
Theorem unknown_wallet_leaves_record (now : Clock) (req : JsonBody)
  (w : MailWorld) (wallet email : string) :
  Js.truthy_value (req !! "wallet") = Some wallet ->
  Js.truthy_value (req !! "email") = Some email ->
  date now <> "" -> time now <> "" ->
  toLowerCase wallet ∉ template_names ->
  exists r w',
    post_send_email model render toLowerCase relay GMAIL_USER now req w
    = (Ok r, w')
    /\ transactions w'
       = (transactions w ++ [record_of now req wallet email])%list
    /\ TransactionEmail.status (record_of now req wallet email) = "Sent"
    /\ w' <> w
    /\ (lookup_fails (toLowerCase wallet) ->
        r = json 500 (Message "templates[templateName] is not a function")
        /\ w' = saved (record_of now req wallet email) w).
Proof.
  intros Hw He Hd Ht Hunknown.
  assert (Hne : forall (l : list TransactionEmail.t) x, (l ++ [x])%list <> l).
  { intros l x E. apply (f_equal (@length _)) in E.
    rewrite length_app in E. simpl in E. lia. }
  unfold post_send_email, send_email, try_catch.
  unfold bind at 1.
  rewrite (TransactionEmail_save_valid _ _ _ _ _ _ _ _ _ Hw He
             (amount_not_empty _ _) Hd Ht).
  fold (record_of now req wallet email).
  change (TransactionEmail.wallet (record_of now req wallet email)) with wallet.
  unfold lookup_fails, call_template, templates.
  rewrite bool_decide_eq_false_2 by exact Hunknown.
  destruct (String.eqb_spec (toLowerCase wallet) "constructor") as [Hc|Hc].
  - cbv [bind ret lift throw sendMail modify]. cbv beta iota.
    match goal with
    | |- context [relay ?m] => destruct (relay m) as [e|]
    end; (eexists; eexists; split; [reflexivity|]); simpl;
      (split; [reflexivity|]); (split; [reflexivity|]);
      (split; [|intros []]);
      intros E; apply (f_equal transactions) in E; simpl in E;
      exact (Hne _ _ E).
  - cbv [bind ret lift throw sendMail modify].
    destruct (String.eqb (toLowerCase wallet) "__proto__"); cbv beta iota;
      (eexists; eexists; split; [reflexivity|]); simpl;
      (split; [reflexivity|]); (split; [reflexivity|]);
      (split; [|intros _; split; reflexivity]);
      intros E; apply (f_equal transactions) in E; simpl in E;
      exact (Hne _ _ E).
Qed.

End NotificationProperties.

(** *** The middleware, further *)

Section MiddlewareMore.

Context {jwtlib : JwtLib}.
Variable env : Env.

(** The middleware reads two things of the headers: the second word of
    [authorization] and [email]. *)
Lemma authenticateToken_headers (now : Z) (h1 h2 : Headers) (w : World) :
  bearer_token h1 = bearer_token h2 ->
  h1 !! "email" = h2 !! "email" ->
  authenticateToken env now h1 w = authenticateToken env now h2 w.
Proof.
  intros Ht Hm. unfold authenticateToken. now rewrite Ht, Hm.
Qed.

Lemma split_no_space (s : string) :
  no_space s = true -> Js.split " " s = [s].
Proof.
  induction s as [|a r IH]; simpl; [reflexivity|].
  intros H. apply andb_prop in H. destruct H as [Ha Hr].
  apply negb_true_iff in Ha. rewrite Ha, (IH Hr). reflexivity.
Qed.

Lemma split_first_word (a b : string) :
  no_space a = true ->
  Js.split " " (a ++ " " ++ b) = a :: Js.split " " b.
Proof.
  induction a as [|c r IH]; simpl; intros H; [reflexivity|].
  apply andb_prop in H. destruct H as [Hc Hr].
  apply negb_true_iff in Hc. rewrite Hc. simpl in IH. now rewrite (IH Hr).
Qed.

Lemma bearer_token_second_word (headers : Headers) (scheme token : string) :
  no_space scheme = true -> no_space token = true ->
  bearer_token (<["authorization" := scheme ++ " " ++ token]> headers)
  = Some token.
Proof.
  intros Hs Ht. unfold bearer_token. rewrite lookup_insert_eq. unfold Js.and_then.
  destruct (String.eqb_spec (scheme ++ " " ++ token) "") as [E|_].
  { destruct scheme; discriminate. }
  now rewrite (split_first_word _ _ Hs), (split_no_space _ Ht).
Qed.

(** X1. The middleware never throws and never writes: every request is
    either answered, with status 401, 403 or 500, or passed on with a user,
    and the store is the same afterwards. *)
Theorem authenticateToken_answers_or_passes (now : Z) (headers : Headers)
  (w : World) :
  exists res,
    authenticateToken env now headers w = (Ok res, w)
    /\ forall r, res = Responded r ->
                 status r = 401%nat \/ status r = 403%nat \/ status r = 500%nat.
Proof.
  destruct (authenticateToken_outcomes env now headers w)
    as [(user & E)|(r0 & E & Hin)]; rewrite E; eexists; (split; [reflexivity|]).
  - intros r [=].
  - intros r [= <-]. simpl in Hin.
    repeat (destruct Hin as [<-|Hin]; [simpl; tauto|]). contradiction.
Qed.

(** X2. An error of [jwt.verify] that is neither a TokenExpiredError nor a
    JsonWebTokenError (a NotBeforeError, say) is answered 500 AUTH_FAILED. *)
Theorem other_verify_errors_are_auth_failed (now : Z) (headers : Headers)
  (w : World) (token userEmail : string) (e : Error) :
  Js.truthy_value (bearer_token headers) = Some token ->
  Js.truthy_value (headers !! "email") = Some userEmail ->
  jwt_verify token (JWT_SECRET env) now = inl e ->
  err_name e <> "TokenExpiredError" ->
  err_name e <> "JsonWebTokenError" ->
  authenticateToken env now headers w = (Ok (Responded AUTH_FAILED), w).
Proof.
  intros Ht Hm Hv H1 H2. unfold authenticateToken, try_catch.
  rewrite Ht, Hm. unfold bind, lift. rewrite Hv. unfold throw.
  apply String.eqb_neq in H1, H2. now rewrite H1, H2.
Qed.

(** X3. The scheme word of the [authorization] header is not looked at: the
    token is the second space-separated word, whatever the first one is. *)
Theorem authorization_scheme_is_ignored (now : Z) (headers : Headers)
  (w : World) (scheme token : string) :
  no_space scheme = true -> no_space token = true ->
  authenticateToken env now
    (<["authorization" := scheme ++ " " ++ token]> headers) w
  = authenticateToken env now
      (<["authorization" := "Bearer " ++ token]> headers) w.
Proof.
  intros Hs Ht. apply authenticateToken_headers.
  - rewrite (bearer_token_second_word _ _ _ Hs Ht).
    now rewrite (bearer_token_second_word _ "Bearer" _ eq_refl Ht).
  - now rewrite !lookup_insert_ne by discriminate.
Qed.

(** X4. An [authorization] header that is one word, a token sent without a
    scheme, is answered 401 TOKEN_MISSING, whatever the token. *)
Theorem bare_token_is_token_missing (now : Z) (headers : Headers) (w : World)
  (value : string) :
  headers !! "authorization" = Some value ->
  no_space value = true ->
  authenticateToken env now headers w = (Ok (Responded TOKEN_MISSING), w).
Proof.
  intros Hh Hv.
  assert (Ht : Js.truthy_value (bearer_token headers) = None).
  { unfold bearer_token. rewrite Hh. unfold Js.and_then.
    destruct (String.eqb_spec value "") as [->|_]; [reflexivity|].
    now rewrite (split_no_space _ Hv). }
  unfold authenticateToken, try_catch. now rewrite Ht.
Qed.

(** X5. Of the payload of the access token the middleware uses the userId
    and nothing else: two tokens that verify to payloads with the same
    userId, sent with the same e-mail, get the same outcome, whatever role
    or other claims they carry. *)
Theorem only_userId_of_the_token_counts (now : Z) (h1 h2 : Headers) (w : World)
  (token1 token2 : string) (d1 d2 : Payload) :
  Js.truthy_value (bearer_token h1) = Some token1 ->
  Js.truthy_value (bearer_token h2) = Some token2 ->
  h1 !! "email" = h2 !! "email" ->
  jwt_verify token1 (JWT_SECRET env) now = inr d1 ->
  jwt_verify token2 (JWT_SECRET env) now = inr d2 ->
  d1 !! "userId" = d2 !! "userId" ->
  authenticateToken env now h1 w = authenticateToken env now h2 w.
Proof.
  intros Ht1 Ht2 Hm Hv1 Hv2 Hid. unfold authenticateToken, try_catch.
  rewrite Ht1, Ht2, Hm.
  destruct (Js.truthy_value (h2 !! "email")) as [mail|]; [|reflexivity].
  unfold bind, lift. rewrite Hv1, Hv2. unfold ret. rewrite Hid.
  assert (Hscan : forall l, existsb (refresh_matches env now d1) l
                            = existsb (refresh_matches env now d2) l).
  { intros l. induction l as [|t l IH]; simpl; [reflexivity|].
    rewrite IH. unfold refresh_matches. now rewrite Hid. }
  destruct (User_findOne (d2 !! "userId") (Some mail) w) as [[[u|]|e] w0];
    [|reflexivity|reflexivity].
  now rewrite Hscan.
Qed.

End MiddlewareMore.

(** *** Registration and login, further *)

Section AccountsMore.

Context {jwtlib : JwtLib} {bcryptlib : BcryptLib}.
Variable env : Env.

Lemma existsb_email_None (mail : string) (l : list User.t) :
  find (User_matches None (Some mail)) l = None ->
  existsb (fun x => bool_decide (User.email x = mail)) l = false.
Proof.
  induction l as [|u l IH]; simpl; [reflexivity|].
  unfold User_matches at 1. simpl.
  destruct (bool_decide (User.email u = mail)); [discriminate|]. exact IH.
Qed.

Lemma existsb_email_not_in (mail : string) (l : list User.t) :
  existsb (fun x => bool_decide (User.email x = mail)) l = false ->
  ~ In mail (map User.email l).
Proof.
  induction l as [|u l IH]; simpl; [tauto|].
  intros H. apply orb_false_elim in H. destruct H as [Hu Hl].
  apply bool_decide_eq_false in Hu. intros [E|Hin]; [contradiction|].
  exact (IH Hl Hin).
Qed.

Lemma existsb_id_not_in (i : ObjectId) (l : list User.t) :
  existsb (fun x => bool_decide (User._id x = i)) l = false ->
  ~ In i (map User._id l).
Proof.
  induction l as [|u l IH]; simpl; [tauto|].
  intros H. apply orb_false_elim in H. destruct H as [Hu Hl].
  apply bool_decide_eq_false in Hu. intros [E|Hin]; [contradiction|].
  exact (IH Hl Hin).
Qed.

(** [update_first] rewrites the first element that satisfies [p]. *)
Lemma update_first_split {A} (p : A -> bool) (f : A -> A) (l : list A) :
  existsb p l = true ->
  exists l1 x l2,
    l = (l1 ++ x :: l2)%list /\ existsb p l1 = false /\ p x = true
    /\ update_first p f l = (l1 ++ f x :: l2)%list.
Proof.
  induction l as [|y l IH]; simpl; [discriminate|].
  destruct (p y) eqn:Hy.
  - intros _. exists [], y, l. repeat split; assumption || reflexivity.
  - simpl. intros H. destruct (IH H) as (l1 & x & l2 & -> & H1 & Hx & E).
    exists (y :: l1), x, l2. simpl. rewrite Hy, E.
    repeat split; assumption || reflexivity.
Qed.

Lemma same_id_same_user (l : list User.t) (x y : User.t) :
  List.NoDup (map User._id l) -> In x l -> In y l -> User._id x = User._id y ->
  x = y.
Proof.
  induction l as [|u l IH]; simpl; [tauto|].
  intros Hnd [->|Hx] [->|Hy] E; inversion Hnd as [|? ? Hnot Hnd']; subst.
  - reflexivity.
  - exfalso. apply Hnot. rewrite E. now apply in_map.
  - exfalso. apply Hnot. rewrite <- E. now apply in_map.
  - now apply IH.
Qed.

Lemma User_save_throws_nothing_written (u : User.t) (w w' : World) (e : Error) :
  User_save u w = (Throw e, w') -> w' = w.
Proof.
  rewrite User_save_spec.
  destruct (negb (User_valid u)); [now intros [= _ <-]|].
  destruct (existsb _ (users w)); [discriminate|].
  destruct (existsb _ (users w)); [now intros [= _ <-]|discriminate].
Qed.

(** Saving a pushed refresh token on a stored user rewrites that user in
    place. *)
Lemma User_save_push (user : User.t) (rt : string) (w w' : World) :
  List.NoDup (map User._id (users w)) ->
  In user (users w) ->
  User_save (User.push_refreshToken rt user) w = (Ok tt, w') ->
  exists l1 l2,
    users w = (l1 ++ user :: l2)%list
    /\ w' = mkWorld (l1 ++ User.push_refreshToken rt user :: l2)%list
                    (courses w) (lessons w) (assignments w) (next_oid w).
Proof.
  intros Hnd Hin Hs. rewrite User_save_spec in Hs.
  destruct (negb (User_valid _)); [discriminate|].
  change (User._id (User.push_refreshToken rt user)) with (User._id user) in Hs.
  assert (Hex : existsb (fun x => bool_decide (User._id x = User._id user))
                        (users w) = true).
  { apply existsb_exists. exists user. split; [assumption|].
    now apply bool_decide_eq_true_2. }
  rewrite Hex in Hs. injection Hs as <-.
  destruct (update_first_split _ (fun _ => User.push_refreshToken rt user)
              _ Hex) as (l1 & x & l2 & Hl & _ & Hx & Hup).
  apply bool_decide_eq_true in Hx.
  assert (x = user) as ->.
  { apply (same_id_same_user (users w)); try assumption.
    rewrite Hl. apply in_or_app. right. now left. }
  exists l1, l2. split; [assumption|]. unfold set_users. now rewrite Hup.
Qed.

(** What a registration or a login does to the user collection: nothing, or
    one refresh token pushed on one user, or one user appended. *)
Lemma accounts_step (now : Z) (req : JsonBody) (w w' : World) (r : Response) :
  users_ok w ->
  post_register env now req w = (Ok r, w')
  \/ post_login env now req w = (Ok r, w') ->
  courses w' = courses w /\ lessons w' = lessons w
  /\ assignments w' = assignments w
  /\ (next_oid w' = next_oid w \/ next_oid w' = N.succ (next_oid w))
  /\ (users w' = users w
      \/ (exists l1 user l2 rt,
            users w = (l1 ++ user :: l2)%list
            /\ users w' = (l1 ++ User.push_refreshToken rt user :: l2)%list
            /\ next_oid w' = next_oid w)
      \/ (exists u,
            users w' = (users w ++ [u])%list
            /\ User._id u = next_oid w
            /\ next_oid w' = N.succ (next_oid w)
            /\ ~ In (User.email u) (map User.email (users w))
            /\ User.role u
               = if Nat.eqb (length (users w)) 0 then admin else student)).
Proof.
  intros (Hfresh & Hids & Hmails) [Hrun|Hrun].
  - unfold post_register, try_catch in Hrun.
    destruct (Js.truthy_value (req !! "name")) as [name|];
      destruct (Js.truthy_value (req !! "email")) as [email|];
      destruct (Js.truthy_value (req !! "password")) as [password|];
      try (simpl in Hrun; injection Hrun as <- <-; repeat split; tauto).
    destruct (Js.length password <? 8)%nat;
      [simpl in Hrun; injection Hrun as <- <-; repeat split; tauto|].
    unfold bind at 1 in Hrun. unfold User_findOne_email, gets in Hrun.
    destruct (find (User_matches None (Some email)) (users w)) eqn:Hfind;
      [simpl in Hrun; injection Hrun as <- <-; repeat split; tauto|].
    unfold bind at 1 in Hrun. unfold User_countDocuments, gets in Hrun.
    unfold bind at 1 in Hrun. unfold new_oid in Hrun. fold (drawn w) in Hrun.
    set (role := if Nat.eqb (length (users w)) 0 then admin else student) in *.
    set (u0 := User.mk (next_oid w) name email (bcrypt_hash password 10) role
                       now []) in *.
    assert (Hnew : existsb (fun x => bool_decide (User._id x = next_oid w))
                           (users w) = false)
      by (apply existsb_id_fresh, Hfresh).
    pose proof (existsb_email_None _ _ Hfind) as Hmail.
    unfold bind at 1 in Hrun. rewrite User_save_spec in Hrun.
    change (users (drawn w)) with (users w) in Hrun.
    change (User._id u0) with (next_oid w) in Hrun.
    change (User.email u0) with email in Hrun.
    rewrite Hnew, Hmail in Hrun.
    destruct (negb (User_valid u0)) eqn:Hvalid;
      [simpl in Hrun; injection Hrun as <- <-; simpl; repeat split; tauto|].
    assert (Happ : forall u, User._id u = next_oid w -> User.email u = email ->
                             User.role u = role ->
              exists u', (users w ++ [u])%list = (users w ++ [u'])%list
                         /\ User._id u' = next_oid w
                         /\ ~ In (User.email u') (map User.email (users w))
                         /\ User.role u' = role).
    { intros u Hi He Hr. exists u. repeat split; try assumption.
      rewrite He. now apply existsb_email_not_in. }
    unfold bind at 1 in Hrun. unfold lift at 1 in Hrun.
    destruct (sign_access env now u0) as [e|token].
    { simpl in Hrun. injection Hrun as <- <-. simpl.
      repeat split; try tauto. right. right.
      destruct (Happ u0 eq_refl eq_refl eq_refl) as (u' & E & H1 & H2 & H3).
      exists u'. repeat split; assumption. }
    unfold ret at 1 in Hrun.
    unfold bind at 1 in Hrun. unfold lift at 1 in Hrun.
    destruct (sign_refresh env now u0) as [e|refreshToken].
    { simpl in Hrun. injection Hrun as <- <-. simpl.
      repeat split; try tauto. right. right.
      destruct (Happ u0 eq_refl eq_refl eq_refl) as (u' & E & H1 & H2 & H3).
      exists u'. repeat split; assumption. }
    unfold ret at 1 in Hrun.
    unfold bind at 1 in Hrun. rewrite User_save_spec in Hrun.
    change (User_valid (User.push_refreshToken refreshToken u0))
      with (User_valid u0) in Hrun.
    rewrite Hvalid in Hrun.
    change (User._id (User.push_refreshToken refreshToken u0))
      with (next_oid w) in Hrun.
    change (users (set_users (fun l => (l ++ [u0])%list) (drawn w)))
      with (users w ++ [u0])%list in Hrun.
    rewrite existsb_app in Hrun. simpl existsb in Hrun.
    rewrite bool_decide_eq_true_2 in Hrun by reflexivity.
    rewrite orb_true_r in Hrun. simpl in Hrun. injection Hrun as <- <-.
    simpl. repeat split; try tauto. right. right.
    exists (User.push_refreshToken refreshToken u0).
    rewrite update_first_last;
      [|assumption|now apply bool_decide_eq_true_2].
    repeat split; try reflexivity.
    simpl. now apply existsb_email_not_in.
  - unfold post_login, try_catch in Hrun.
    destruct (Js.truthy_value (req !! "email")) as [email|];
      destruct (Js.truthy_value (req !! "password")) as [password|];
      try (simpl in Hrun; injection Hrun as <- <-; repeat split; tauto).
    unfold bind at 1 in Hrun. unfold User_findOne_email, gets in Hrun.
    destruct (find (User_matches None (Some email)) (users w)) as [user|]
      eqn:Hfind;
      [|simpl in Hrun; injection Hrun as <- <-; repeat split; tauto].
    destruct (bcrypt_compare password (User.password user));
      [|simpl in Hrun; injection Hrun as <- <-; repeat split; tauto].
    cbn [negb] in Hrun. cbv iota in Hrun.
    unfold bind at 1 in Hrun. unfold lift at 1 in Hrun.
    destruct (sign_access env now user) as [e|token];
      [simpl in Hrun; injection Hrun as <- <-; repeat split; tauto|].
    unfold ret at 1 in Hrun.
    unfold bind at 1 in Hrun. unfold lift at 1 in Hrun.
    destruct (sign_refresh env now user) as [e|refreshToken];
      [simpl in Hrun; injection Hrun as <- <-; repeat split; tauto|].
    unfold ret at 1 in Hrun.
    unfold bind at 1 in Hrun.
    destruct (User_save (User.push_refreshToken refreshToken user) w)
      as [[[]|e] w2] eqn:Hs.
    + simpl in Hrun. injection Hrun as <- <-.
      apply find_some in Hfind. destruct Hfind as [Hin _].
      destruct (User_save_push _ _ _ _ Hids Hin Hs) as (l1 & l2 & Hl & ->).
      simpl. repeat split; try tauto. right. left.
      exists l1, user, l2, refreshToken. repeat split; assumption || reflexivity.
    + apply User_save_throws_nothing_written in Hs. subst w2.
      simpl in Hrun. injection Hrun as <- <-. repeat split; tauto.
Qed.

Lemma find_app_None {A} (p : A -> bool) (l l' : list A) :
  find p l = None -> find p (l ++ l') = find p l'.
Proof.
  induction l as [|x l IH]; simpl; [reflexivity|].
  destruct (p x); [discriminate|exact IH].
Qed.

Lemma find_app_Some {A} (p : A -> bool) (l l' : list A) (x : A) :
  find p l = Some x -> find p (l ++ l') = Some x.
Proof.
  induction l as [|y l IH]; simpl; [discriminate|].
  destruct (p y); [tauto|exact IH].
Qed.

Lemma NoDup_app_iff_tail {A} (l : list A) (x : A) :
  List.NoDup l -> ~ In x l -> List.NoDup (l ++ [x]).
Proof.
  intros Hl Hx. apply NoDup_rev in Hl. rewrite <- (rev_involutive (l ++ [x])).
  apply NoDup_rev. rewrite rev_app_distr. simpl. constructor; [|assumption].
  now rewrite <- in_rev.
Qed.

Lemma push_keeps_ids (l1 l2 : list User.t) (user : User.t) (rt : string) :
  map User._id (l1 ++ User.push_refreshToken rt user :: l2)
  = map User._id (l1 ++ user :: l2).
Proof. now rewrite !map_app. Qed.

Lemma push_keeps_emails (l1 l2 : list User.t) (user : User.t) (rt : string) :
  map User.email (l1 ++ User.push_refreshToken rt user :: l2)
  = map User.email (l1 ++ user :: l2).
Proof. now rewrite !map_app. Qed.

Lemma push_keeps_roles (l1 l2 : list User.t) (user : User.t) (rt : string) :
  map User.role (l1 ++ User.push_refreshToken rt user :: l2)
  = map User.role (l1 ++ user :: l2).
Proof. now rewrite !map_app. Qed.

Lemma ids_fresh_map (w : World) :
  ids_fresh w <-> Forall (fun i => (i < next_oid w)%N) (map User._id (users w)).
Proof. unfold ids_fresh. now rewrite List.Forall_map. Qed.

(** X6. Registration and login keep the user collection well formed,
    whatever they answer: ids stay older than the next id to draw, no two
    users share an [_id] and no two users share an e-mail. *)
Theorem accounts_keep_users_ok (now : Z) (req : JsonBody) (w w' : World)
  (r : Response) :
  users_ok w ->
  post_register env now req w = (Ok r, w')
  \/ post_login env now req w = (Ok r, w') ->
  users_ok w'.
Proof.
  intros Hok Hrun.
  destruct (accounts_step now req w w' r Hok Hrun)
    as (_ & _ & _ & Hnext & Hcase).
  destruct Hok as (Hfresh & Hids & Hmails).
  apply ids_fresh_map in Hfresh.
  unfold users_ok. rewrite ids_fresh_map.
  destruct Hcase as [E|[(l1 & user & l2 & rt & E & E' & En)|
                        (u & E & Hid & En & Hmail & _)]].
  - rewrite E. repeat split; try assumption.
    eapply List.Forall_impl; [|exact Hfresh]. simpl. intros i Hi.
    destruct Hnext as [->| ->]; lia.
  - rewrite E'. rewrite push_keeps_ids, push_keeps_emails, <- E, En.
    repeat split; assumption.
  - rewrite E, En, !map_app. simpl. rewrite Hid. repeat split.
    + apply Forall_app. split.
      * eapply List.Forall_impl; [|exact Hfresh]. simpl. intros i Hi. lia.
      * constructor; [lia|constructor].
    + apply NoDup_app_iff_tail; [assumption|].
      intros Hin. rewrite List.Forall_forall in Hfresh.
      specialize (Hfresh _ Hin). lia.
    + apply NoDup_app_iff_tail; assumption.
Qed.

(** X7. Neither registration nor login rewrites the role of a stored user:
    the roles of the users are the same afterwards, in the same order, with
    at most one role appended, which is admin exactly when the collection was
    empty. *)
Theorem roles_are_never_rewritten (now : Z) (req : JsonBody) (w w' : World)
  (r : Response) :
  users_ok w ->
  post_register env now req w = (Ok r, w')
  \/ post_login env now req w = (Ok r, w') ->
  map User.role (users w') = map User.role (users w)
  \/ map User.role (users w')
     = (map User.role (users w)
        ++ [if Nat.eqb (length (users w)) 0 then admin else student])%list.
Proof.
  intros Hok Hrun.
  destruct (accounts_step now req w w' r Hok Hrun)
    as (_ & _ & _ & _ & Hcase).
  destruct Hcase as [E|[(l1 & user & l2 & rt & E & E' & _)|
                        (u & E & _ & _ & _ & Hrole)]].
  - left. now rewrite E.
  - left. now rewrite E', E, push_keeps_roles.
  - right. rewrite E, map_app. simpl. now rewrite Hrole.
Qed.


(** X9. A login that is not answered 200 leaves the store as it was. *)
Theorem failed_login_changes_nothing (now : Z) (req : JsonBody) (w w' : World)
  (r : Response) :
  post_login env now req w = (Ok r, w') ->
  status r <> 200%nat ->
  w' = w.
Proof.
  intros Hrun Hno. unfold post_login, try_catch in Hrun.
  destruct (Js.truthy_value (req !! "email")) as [email|];
    destruct (Js.truthy_value (req !! "password")) as [password|];
    try (simpl in Hrun; now injection Hrun as _ <-).
  unfold bind at 1 in Hrun. unfold User_findOne_email, gets in Hrun.
  destruct (find (User_matches None (Some email)) (users w)) as [user|];
    [|simpl in Hrun; now injection Hrun as _ <-].
  destruct (bcrypt_compare password (User.password user));
    [|simpl in Hrun; now injection Hrun as _ <-].
  cbn [negb] in Hrun. cbv iota in Hrun.
  unfold bind at 1 in Hrun. unfold lift at 1 in Hrun.
  destruct (sign_access env now user) as [e|token];
    [simpl in Hrun; now injection Hrun as _ <-|].
  unfold ret at 1 in Hrun.
  unfold bind at 1 in Hrun. unfold lift at 1 in Hrun.
  destruct (sign_refresh env now user) as [e|refreshToken];
    [simpl in Hrun; now injection Hrun as _ <-|].
  unfold ret at 1 in Hrun.
  unfold bind at 1 in Hrun.
  destruct (User_save (User.push_refreshToken refreshToken user) w)
    as [[[]|e] w2] eqn:Hs.
  - simpl in Hrun. injection Hrun as <- _. simpl in Hno. contradiction.
  - apply User_save_throws_nothing_written in Hs. subst w2.
    simpl in Hrun. now injection Hrun as _ <-.
Qed.

(** X10. Registration is not atomic: the user is saved before the tokens are
    signed, so when [jwt.sign] throws (no secret configured, say) the request
    is answered 500 and the user is stored all the same, without a refresh
    token; the same registration sent again is refused with 400, the e-mail
    being in use. *)
Theorem register_stores_user_before_signing (now : Z) (req : JsonBody)
  (w : World) (name email password : string) (e : Error) :
  ids_fresh w ->
  Js.truthy_value (req !! "name") = Some name ->
  Js.truthy_value (req !! "email") = Some email ->
  Js.truthy_value (req !! "password") = Some password ->
  (8 <= Js.length password)%nat ->
  find (User_matches None (Some email)) (users w) = None ->
  bcrypt_hash password 10 <> "" ->
  let u0 := User.mk (next_oid w) name email (bcrypt_hash password 10)
                    (if Nat.eqb (length (users w)) 0 then admin else student)
                    now [] in
  sign_access env now u0 = inl e
  \/ ((exists token, sign_access env now u0 = inr token)
      /\ sign_refresh env now u0 = inl e) ->
  exists w',
    post_register env now req w
    = (Ok (json 500 (MessageError "Registration failed" (err_message e))), w')
    /\ users w' = (users w ++ [u0])%list
    /\ forall now',
         post_register env now' req w'
         = (Ok (json 400 (Message "Email already in use")), w').
Proof.
  intros Hfresh Hn He Hp Hlen Hfind Hhash u0 Hsign.
  pose proof (truthy_value_Some _ _ Hn) as [_ Hn0].
  pose proof (truthy_value_Some _ _ He) as [_ He0].
  assert (Hsave : User_save u0 (drawn w)
                  = (Ok tt, set_users (fun l => (l ++ [u0])%list) (drawn w))).
  { rewrite User_save_spec.
    change (users (drawn w)) with (users w).
    change (User._id u0) with (next_oid w).
    change (User.email u0) with email.
    rewrite (existsb_id_fresh _ _ Hfresh), (existsb_email_None _ _ Hfind).
    unfold User_valid. simpl.
    apply String.eqb_neq in Hn0, He0, Hhash. now rewrite Hn0, He0, Hhash. }
  exists (set_users (fun l => (l ++ [u0])%list) (drawn w)).
  split; [|split; [reflexivity|]].
  - unfold post_register, try_catch. rewrite Hn, He, Hp.
    destruct (Nat.ltb_spec (Js.length password) 8) as [Hlt|_]; [lia|].
    unfold bind at 1. unfold User_findOne_email, gets. rewrite Hfind.
    unfold bind at 1. unfold User_countDocuments, gets.
    unfold bind at 1. unfold new_oid. fold (drawn w). fold u0.
    unfold bind at 1. rewrite Hsave.
    unfold bind at 1. unfold lift at 1.
    destruct Hsign as [Ha|[(token & Ha) Hr]]; rewrite Ha; [reflexivity|].
    unfold ret at 1. unfold bind at 1. unfold lift at 1. now rewrite Hr.
  - intros now'. unfold post_register, try_catch. rewrite Hn, He, Hp.
    destruct (Nat.ltb_spec (Js.length password) 8) as [Hlt|_]; [lia|].
    unfold bind at 1. unfold User_findOne_email, gets.
    change (users (set_users (fun l => (l ++ [u0])%list) (drawn w)))
      with (users w ++ [u0])%list.
    rewrite (find_app_None _ _ _ Hfind). simpl. unfold User_matches. simpl.
    now rewrite bool_decide_eq_true_2.
Qed.

(** The user a successful registration stores. *)
Lemma post_register_created (now : Z) (req : JsonBody) (w w' : World)
  (r : Response) (token refreshToken : string) (user : PublicUser) :
  ids_fresh w ->
  post_register env now req w = (Ok r, w') ->
  issued r = Some (token, refreshToken, user) ->
  exists u,
    users w' = (users w ++ [u])%list
    /\ public u = user
    /\ User._id u = next_oid w
    /\ User.email u <> ""
    /\ User.refreshTokens u = [refreshToken].
Proof.
  intros Hfresh Hrun Hissued.
  destruct (post_register_cases env _ _ _ _ _ Hrun)
    as [[_ Hno]|(name & email & password & tok & rt & w1 & H)];
    [congruence|].
  cbv zeta in H.
  set (role := if Nat.eqb (length (users w)) 0 then admin else student) in *.
  set (u0 := User.mk (next_oid w) name email (bcrypt_hash password 10) role
                     now []) in *.
  destruct H as (_ & He & _ & _ & _ & _ & Hs1 & Hs2 & ->).
  simpl in Hissued. injection Hissued as <- <- <-.
  apply truthy_value_Some in He as [_ He].
  rewrite User_save_spec in Hs1.
  destruct (negb (User_valid u0)); [discriminate|].
  change (users (drawn w)) with (users w) in Hs1.
  change (User._id u0) with (next_oid w) in Hs1.
  rewrite (existsb_id_fresh _ _ Hfresh) in Hs1.
  destruct (existsb _ (users w)); [discriminate|].
  injection Hs1 as <-.
  rewrite User_save_spec in Hs2.
  destruct (negb (User_valid _)); [discriminate|].
  change (User._id (User.push_refreshToken rt u0)) with (next_oid w) in Hs2.
  change (users (set_users (fun l => (l ++ [u0])%list) (drawn w)))
    with (users w ++ [u0])%list in Hs2.
  rewrite existsb_app in Hs2. simpl in Hs2.
  rewrite bool_decide_eq_true_2 in Hs2 by reflexivity.
  rewrite orb_true_r in Hs2. injection Hs2 as <-.
  exists (User.push_refreshToken rt u0). simpl.
  rewrite update_first_last;
    [|apply existsb_id_fresh, Hfresh|now apply bool_decide_eq_true_2].
  repeat split; assumption || reflexivity.
Qed.

(** The store a successful login leaves. *)
Lemma post_login_created (now : Z) (req : JsonBody) (w w' : World)
  (r : Response) (token refreshToken : string) (pu : PublicUser) :
  List.NoDup (map User._id (users w)) ->
  post_login env now req w = (Ok r, w') ->
  issued r = Some (token, refreshToken, pu) ->
  exists l1 user l2,
    users w = (l1 ++ user :: l2)%list
    /\ req !! "email" = Some (User.email user)
    /\ User.email user <> ""
    /\ public user = pu
    /\ status r = 200%nat
    /\ w' = mkWorld (l1 ++ User.push_refreshToken refreshToken user :: l2)%list
                    (courses w) (lessons w) (assignments w) (next_oid w).
Proof.
  intros Hids Hrun Hissued.
  destruct (post_login_cases env _ _ _ _ _ Hrun)
    as [[_ Hno]|(email & password & user & tok & rt & He & _ & Hfind & _
                 & _ & _ & Hsave & ->)]; [congruence|].
  simpl in Hissued. injection Hissued as <- <- <-.
  apply truthy_value_Some in He as [He He0].
  pose proof (find_some _ _ Hfind) as [Hin Hm].
  unfold User_matches in Hm. simpl in Hm. apply bool_decide_eq_true in Hm.
  destruct (User_save_push _ _ _ _ Hids Hin Hsave) as (l1 & l2 & Hl & ->).
  exists l1, user, l2. rewrite Hm.
  repeat split; assumption || reflexivity.
Qed.

Lemma find_id_fresh (n : ObjectId) (mail : option string) (l : list User.t) :
  Forall (fun u => (User._id u < n)%N) l ->
  find (User_matches (Some n) mail) l = None.
Proof.
  induction 1 as [|u l Hu _ IH]; simpl; [reflexivity|].
  unfold User_matches at 1.
  rewrite bool_decide_eq_false_2 by lia. exact IH.
Qed.

Lemma find_id_not_in (i : ObjectId) (mail : option string) (l : list User.t) :
  ~ In i (map User._id l) ->
  find (User_matches (Some i) mail) l = None.
Proof.
  induction l as [|u l IH]; simpl; [reflexivity|]. intros Hn.
  unfold User_matches at 1.
  rewrite bool_decide_eq_false_2 by tauto. apply IH. tauto.
Qed.

(** X11. The tokens of a registration work at once: while the library
    verifies the pair it signed, a request with the new access token and the
    registered e-mail passes the middleware, which attaches the user just
    stored; the refresh token was pushed on the right user before the answer
    was sent. *)
Theorem registered_tokens_are_accepted (now now' : Z) (req : JsonBody)
  (w w' : World) (r : Response) (token refreshToken : string)
  (user : PublicUser) (headers : Headers) (d d' : Payload) :
  ids_fresh w ->
  post_register env now req w = (Ok r, w') ->
  issued r = Some (token, refreshToken, user) ->
  jwt_verify token (JWT_SECRET env) now' = inr d ->
  d !! "userId" = Some (JOid (pu_id user)) ->
  jwt_verify refreshToken (JWT_REFRESH_SECRET env) now' = inr d' ->
  d' !! "userId" = Some (JOid (pu_id user)) ->
  Js.truthy_value (bearer_token headers) = Some token ->
  headers !! "email" = Some (pu_email user) ->
  exists u,
    authenticateToken env now' headers w' = (Ok (Next u), w')
    /\ public u = user
    /\ In u (users w').
Proof.
  intros Hfresh Hrun Hissued Hv Hd Hv' Hd' Ht Hm.
  destruct (post_register_created _ _ _ _ _ _ _ _ Hfresh Hrun Hissued)
    as (u & Hus & Hpub & Hid & Hmail & Hrts).
  exists u. split; [|split; [assumption|]].
  2:{ rewrite Hus. apply in_or_app. right. now left. }
  assert (Hpid : pu_id user = User._id u) by (now rewrite <- Hpub).
  assert (Hpm : pu_email user = User.email u) by (now rewrite <- Hpub).
  rewrite (authenticateToken_verified env now' headers w' token
             (User.email u) d (Some u) Ht).
  - rewrite Hrts. simpl. unfold refresh_matches. rewrite Hv', Hd', Hd.
    now rewrite bool_decide_eq_true_2.
  - rewrite Hm, Hpm. now apply truthy_value_nonempty.
  - exact Hv.
  - rewrite Hd. unfold User_findOne, bind, lift, gets. simpl.
    rewrite Hus, Hpid, Hid.
    rewrite (find_app_None _ _ _ (find_id_fresh _ _ _ Hfresh)). simpl.
    unfold User_matches. simpl.
    now rewrite Hid, !bool_decide_eq_true_2.
Qed.

(** X12. The tokens of a login work at once, in the same sense. *)
Theorem login_tokens_are_accepted (now now' : Z) (req : JsonBody)
  (w w' : World) (r : Response) (token refreshToken : string)
  (user : PublicUser) (headers : Headers) (d d' : Payload) :
  List.NoDup (map User._id (users w)) ->
  post_login env now req w = (Ok r, w') ->
  issued r = Some (token, refreshToken, user) ->
  jwt_verify token (JWT_SECRET env) now' = inr d ->
  d !! "userId" = Some (JOid (pu_id user)) ->
  jwt_verify refreshToken (JWT_REFRESH_SECRET env) now' = inr d' ->
  d' !! "userId" = Some (JOid (pu_id user)) ->
  Js.truthy_value (bearer_token headers) = Some token ->
  headers !! "email" = Some (pu_email user) ->
  exists u,
    authenticateToken env now' headers w' = (Ok (Next u), w')
    /\ public u = user
    /\ In u (users w').
Proof.
  intros Hids Hrun Hissued Hv Hd Hv' Hd' Ht Hm.
  destruct (post_login_created _ _ _ _ _ _ _ _ Hids Hrun Hissued)
    as (l1 & u & l2 & Hus & _ & Hmail & Hpub & _ & ->).
  exists (User.push_refreshToken refreshToken u).
  split; [|split; [assumption|]].
  2:{ simpl. apply in_or_app. right. now left. }
  assert (Hpid : pu_id user = User._id u) by (now rewrite <- Hpub).
  assert (Hpm : pu_email user = User.email u) by (now rewrite <- Hpub).
  rewrite (authenticateToken_verified env now' headers _ token
             (User.email u) d (Some (User.push_refreshToken refreshToken u))
             Ht).
  - simpl. rewrite existsb_app. simpl. unfold refresh_matches at 2.
    rewrite Hv', Hd', Hd. rewrite bool_decide_eq_true_2 by reflexivity.
    now rewrite orb_true_r.
  - rewrite Hm, Hpm. now apply truthy_value_nonempty.
  - exact Hv.
  - rewrite Hd. unfold User_findOne, bind, lift, gets. simpl.
    rewrite Hpid.
    rewrite Hus, map_app in Hids. simpl in Hids.
    apply NoDup_remove_2 in Hids.
    rewrite find_app_None.
    + simpl. unfold User_matches. simpl. now rewrite !bool_decide_eq_true_2.
    + apply find_id_not_in. intros Hin. apply Hids.
      apply in_or_app. now left.
Qed.

(** A request that passed the middleware passed each of its checks. *)
Lemma authenticateToken_next_inv (now : Z) (headers : Headers) (w : World)
  (u : User.t) :
  authenticateToken env now headers w = (Ok (Next u), w) ->
  exists token mail decoded,
    Js.truthy_value (bearer_token headers) = Some token
    /\ Js.truthy_value (headers !! "email") = Some mail
    /\ jwt_verify token (JWT_SECRET env) now = inr decoded
    /\ User_findOne (decoded !! "userId") (Some mail) w = (Ok (Some u), w)
    /\ existsb (refresh_matches env now decoded) (User.refreshTokens u) = true.
Proof.
  intros Hr. unfold authenticateToken, try_catch in Hr.
  destruct (Js.truthy_value (bearer_token headers)) as [token|] eqn:Ht;
    [|discriminate].
  destruct (Js.truthy_value (headers !! "email")) as [mail|] eqn:Hm;
    [|discriminate].
  unfold bind, lift in Hr.
  destruct (jwt_verify token (JWT_SECRET env) now) as [e|decoded] eqn:Hv;
    simpl in Hr.
  { destruct (String.eqb (err_name e) "TokenExpiredError");
      [|destruct (String.eqb (err_name e) "JsonWebTokenError")];
      discriminate. }
  pose proof (User_findOne_world (decoded !! "userId") (Some mail) w) as Hw.
  destruct (User_findOne (decoded !! "userId") (Some mail) w)
    as [[[x|]|e] w0] eqn:Hf; simpl in Hw; subst w0.
  - destruct (existsb (refresh_matches env now decoded) (User.refreshTokens x))
      eqn:Hscan; simpl in Hr; [|discriminate].
    injection Hr as <-. exists token, mail, decoded.
    repeat split; assumption || reflexivity.
  - discriminate.
  - destruct (String.eqb (err_name e) "TokenExpiredError");
      [|destruct (String.eqb (err_name e) "JsonWebTokenError")];
      discriminate.
Qed.

(** A lookup by [_id] and e-mail finds the same user, or that user with the
    pushed token, after a push. *)
Lemma find_after_push (oid : option ObjectId) (mail : option string)
  (l1 l2 : list User.t) (user u : User.t) (rt : string) :
  find (User_matches oid mail) (l1 ++ user :: l2) = Some u ->
  exists u',
    find (User_matches oid mail)
         (l1 ++ User.push_refreshToken rt user :: l2) = Some u'
    /\ User._id u' = User._id u
    /\ (forall t, In t (User.refreshTokens u) -> In t (User.refreshTokens u')).
Proof.
  induction l1 as [|x l1 IH]; simpl.
  - change (User_matches oid mail (User.push_refreshToken rt user))
      with (User_matches oid mail user).
    destruct (User_matches oid mail user).
    + intros [= <-]. eexists. split; [reflexivity|]. split; [reflexivity|].
      intros t Hin. simpl. apply in_or_app. now left.
    + intros Hf. exists u. repeat split; tauto.
  - destruct (User_matches oid mail x).
    + intros [= <-]. exists x. repeat split; tauto.
    + exact IH.
Qed.

Lemma scan_monotone (now : Z) (decoded : Payload) (l l' : list string) :
  (forall t, In t l -> In t l') ->
  existsb (refresh_matches env now decoded) l = true ->
  existsb (refresh_matches env now decoded) l' = true.
Proof.
  intros Hsub H. apply existsb_exists in H. destruct H as (t & Hin & Ht).
  apply existsb_exists. exists t. split; [now apply Hsub|assumption].
Qed.

(** X13. Registrations and logins never end a session: a request that passes
    the middleware still passes it, for the same user, after any registration
    or login, whoever made it and whatever it was answered. *)
Theorem sessions_survive_registrations_and_logins (now t : Z)
  (req : JsonBody) (w w' : World) (r : Response) (headers : Headers)
  (u : User.t) :
  users_ok w ->
  post_register env now req w = (Ok r, w')
  \/ post_login env now req w = (Ok r, w') ->
  authenticateToken env t headers w = (Ok (Next u), w) ->
  exists u',
    authenticateToken env t headers w' = (Ok (Next u'), w')
    /\ User._id u' = User._id u.
Proof.
  intros Hok Hrun Hnext.
  destruct (authenticateToken_next_inv _ _ _ _ Hnext)
    as (token & mail & decoded & Ht & Hm & Hv & Hf & Hscan).
  destruct (accounts_step now req w w' r Hok Hrun)
    as (_ & _ & _ & _ & Hcase).
  assert (Hfind : exists oid,
             forall w0, User_findOne (decoded !! "userId") (Some mail) w0
                        = (Ok (find (User_matches oid (Some mail)) (users w0)),
                           w0)).
  { unfold User_findOne in *.
    destruct (decoded !! "userId") as [[s|i]|].
    - discriminate.
    - exists (Some i). reflexivity.
    - discriminate. }
  destruct Hfind as (oid & Hfind).
  rewrite Hfind in Hf. injection Hf as Hf.
  assert (Hgoal : exists u',
             find (User_matches oid (Some mail)) (users w') = Some u'
             /\ User._id u' = User._id u
             /\ (forall x, In x (User.refreshTokens u) ->
                           In x (User.refreshTokens u'))).
  { destruct Hcase as [E|[(l1 & user & l2 & rt & E & E' & _)|
                          (x & E & _)]].
    - rewrite E. exists u. repeat split; tauto.
    - rewrite E'. rewrite E in Hf. now apply find_after_push.
    - rewrite E. exists u. rewrite (find_app_Some _ _ _ _ Hf).
      repeat split; tauto. }
  destruct Hgoal as (u' & Hf' & Hid & Hsub).
  exists u'. split; [|assumption].
  rewrite (authenticateToken_verified env t headers w' token mail decoded
             (Some u') Ht Hm Hv).
  - now rewrite (scan_monotone _ _ _ _ Hsub Hscan).
  - now rewrite Hfind, Hf'.
Qed.

End AccountsMore.

(** *** The catalog, further *)

Section CatalogMore.

Context {jwtlib : JwtLib}.
Variable env : Env.

Lemma remove_first_none {A} (p : A -> bool) (l : list A) :
  find p l = None -> remove_first p l = l.
Proof.
  induction l as [|x l IH]; simpl; [reflexivity|].
  destruct (p x); [discriminate|]. intros H. now rewrite (IH H).
Qed.

(** The middleware looks at the user collection only. *)
Lemma authenticateToken_users (now : Z) (headers : Headers) (w w1 : World)
  (res : AuthResult) :
  users w1 = users w ->
  authenticateToken env now headers w = (Ok res, w) ->
  authenticateToken env now headers w1 = (Ok res, w1).
Proof.
  intros Hus. unfold authenticateToken, try_catch.
  destruct (Js.truthy_value (bearer_token headers)) as [token|];
    [|now intros [= <-]].
  destruct (Js.truthy_value (headers !! "email")) as [mail|];
    [|now intros [= <-]].
  unfold bind, lift.
  destruct (jwt_verify token (JWT_SECRET env) now) as [e|decoded]; simpl.
  { destruct (String.eqb (err_name e) "TokenExpiredError");
      [|destruct (String.eqb (err_name e) "JsonWebTokenError")];
      now intros [= <-]. }
  unfold User_findOne, bind, lift, gets.
  destruct (decoded !! "userId") as [[s|i]|]; simpl; try rewrite Hus.
  - now intros [= <-].
  - destruct (find _ (users w)) as [u|]; [|now intros [= <-]].
    destruct (negb _); now intros [= <-].
  - now intros [= <-].
Qed.

Lemma admin_passes_gate (user : User.t) :
  User.role user = admin -> negb (bool_decide (User.role user = admin)) = false.
Proof. intros H. now rewrite bool_decide_eq_true_2. Qed.

(** X15. Without passing the middleware nothing is mutated: on each of the
    nine mutating routes a request the middleware answers gets that answer,
    and the store is unchanged. *)
Theorem rejected_requests_mutate_nothing (now : Z) (headers : Headers)
  (w : World) (r : Response) (m : Mutation) :
  authenticateToken env now headers w = (Ok (Responded r), w) ->
  mutate env now headers m w = (Ok r, w).
Proof.
  intros Hauth.
  destruct m; simpl;
    unfold post_courses, put_course, delete_course, post_course_lessons,
      put_lesson, delete_lesson, post_course_assignments, put_assignment,
      delete_assignment;
    apply protected_responded; exact Hauth.
Qed.

Lemma Course_findByIdAndUpdate_none (c : ObjectId) (f : Course.t -> Course.t)
  (w : World) :
  Course_findById c w = None ->
  Course_findByIdAndUpdate (JOid c) f w = (Ok None, w).
Proof.
  intros HC. unfold Course_findByIdAndUpdate, bind, lift, gets. simpl.
  now rewrite HC.
Qed.

(** What [POST /api/courses/:courseId/lessons] does for an admin who sends a
    title and a link. *)
Lemma post_course_lessons_run (now : Z) (headers : Headers) (c : ObjectId)
  (req : JsonBody) (w : World) (user : User.t) (title link : string) :
  authenticateToken env now headers w = (Ok (Next user), w) ->
  User.role user = admin ->
  Js.truthy_value (req !! "title") = Some title ->
  Js.truthy_value (req !! "youtubeLink") = Some link ->
  let lesson := Lesson.mk (next_oid w) title link (Some c) in
  let w1 := set_lessons (fun l => (l ++ [lesson])%list) (drawn w) in
  post_course_lessons env now headers (JOid c) req w
  = (Ok (json 201 (LessonDoc (Some lesson))),
     match Course_findById c w with
     | Some _ =>
         set_courses (update_first (fun x => bool_decide (Course._id x = c))
                                   (Course.push_lesson (next_oid w))) w1
     | None => w1
     end).
Proof.
  intros Hauth Hadmin Ht Hl lesson w1. unfold post_course_lessons.
  rewrite (protected_next _ _ _ _ _ _ Hauth), (admin_passes_gate _ Hadmin).
  unfold bind. rewrite Lesson_create_spec. unfold required. rewrite Ht, Hl.
  cbv beta iota zeta. fold lesson. fold w1.
  destruct (Course_findById c w) as [C|] eqn:HC.
  - rewrite (Course_push_lesson_spec c _ C) by exact HC. reflexivity.
  - rewrite Course_findByIdAndUpdate_none by exact HC. reflexivity.
Qed.

(** X16. A lesson created under an id that no course has is stored all the
    same and answered 201: it references a course that does not exist, and
    no course is created or changed; where no course listed the id of the
    new lesson before the request, none lists it afterwards. *)
Theorem lesson_under_missing_course_is_orphaned (now : Z) (headers : Headers)
  (c : ObjectId) (req : JsonBody) (w : World) (user : User.t)
  (title link : string) :
  authenticateToken env now headers w = (Ok (Next user), w) ->
  User.role user = admin ->
  Js.truthy_value (req !! "title") = Some title ->
  Js.truthy_value (req !! "youtubeLink") = Some link ->
  Course_findById c w = None ->
  exists w',
    post_course_lessons env now headers (JOid c) req w
    = (Ok (json 201 (LessonDoc
                       (Some (Lesson.mk (next_oid w) title link (Some c))))),
       w')
    /\ lessons w'
       = (lessons w ++ [Lesson.mk (next_oid w) title link (Some c)])%list
    /\ courses w' = courses w
    /\ Course_findById c w' = None
    /\ (Forall (fun C => ~ In (next_oid w) (Course.lessons C)) (courses w) ->
        Forall (fun C => ~ In (next_oid w) (Course.lessons C)) (courses w')).
Proof.
  intros Hauth Hadmin Ht Hl HC.
  pose proof (post_course_lessons_run now headers c req w user title link
                Hauth Hadmin Ht Hl) as Hrun.
  cbv zeta in Hrun. rewrite HC in Hrun.
  eexists. split; [exact Hrun|]. repeat split; [exact HC|].
  intros H. exact H.
Qed.

(** X17. Deleting a course does not cascade: an admin's
    [DELETE /api/courses/:id] is answered 200 whether or not a course has the
    id, removes at most that course, and leaves every lesson and assignment,
    also those of the deleted course, in the store. *)
Theorem delete_course_does_not_cascade (now : Z) (headers : Headers)
  (c : ObjectId) (w : World) (user : User.t) :
  authenticateToken env now headers w = (Ok (Next user), w) ->
  User.role user = admin ->
  exists w',
    delete_course env now headers (JOid c) w
    = (Ok (json 200 (Message "Course deleted")), w')
    /\ lessons w' = lessons w
    /\ assignments w' = assignments w
    /\ users w' = users w
    /\ courses w'
       = remove_first (fun x => bool_decide (Course._id x = c)) (courses w)
    /\ (Course_findById c w = None -> w' = w).
Proof.
  intros Hauth Hadmin. unfold delete_course.
  rewrite (protected_next _ _ _ _ _ _ Hauth), (admin_passes_gate _ Hadmin).
  eexists. split; [reflexivity|]. simpl. repeat split.
  intros HC. unfold Course_findById in HC. unfold set_courses.
  rewrite (remove_first_none _ _ HC). now destruct w.
Qed.

(** X18. Deleting a lesson leaves the reference to it: after an admin created
    a lesson under a course and deleted it again, no lesson has its id, and
    the course still lists the id. *)
Theorem deleted_lesson_stays_referenced (now now' : Z)
  (headers headers' : Headers) (c : ObjectId) (req : JsonBody) (w : World)
  (user user' : User.t) (title link : string) (C : Course.t) :
  authenticateToken env now headers w = (Ok (Next user), w) ->
  User.role user = admin ->
  Js.truthy_value (req !! "title") = Some title ->
  Js.truthy_value (req !! "youtubeLink") = Some link ->
  Course_findById c w = Some C ->
  Forall (fun l => (Lesson._id l < next_oid w)%N) (lessons w) ->
  authenticateToken env now' headers' w = (Ok (Next user'), w) ->
  User.role user' = admin ->
  exists w1 w2 C',
    post_course_lessons env now headers (JOid c) req w
    = (Ok (json 201 (LessonDoc
                       (Some (Lesson.mk (next_oid w) title link (Some c))))),
       w1)
    /\ delete_lesson env now' headers' (JOid (next_oid w)) w1
       = (Ok (json 200 (Message "Lesson deleted")), w2)
    /\ find (fun l => bool_decide (Lesson._id l = next_oid w)) (lessons w2)
       = None
    /\ lessons w2 = lessons w
    /\ Course_findById c w2 = Some C'
    /\ In (next_oid w) (Course.lessons C').
Proof.
  intros Hauth Hadmin Ht Hl HC Hfresh Hauth' Hadmin'.
  pose proof (post_course_lessons_run now headers c req w user title link
                Hauth Hadmin Ht Hl) as Hrun.
  cbv zeta in Hrun. rewrite HC in Hrun.
  set (lesson := Lesson.mk (next_oid w) title link (Some c)) in *.
  match type of Hrun with _ = (_, ?x) => set (w1 := x) in * end.
  exists w1. eexists. exists (Course.push_lesson (next_oid w) C).
  split; [exact Hrun|]. unfold delete_lesson.
  rewrite (protected_next _ _ _ _ _ _
             (authenticateToken_users _ _ w w1 _ eq_refl Hauth')),
    (admin_passes_gate _ Hadmin').
  split; [reflexivity|]. simpl.
  assert (Hold : find (fun l => bool_decide (Lesson._id l = next_oid w))
                      (lessons w) = None).
  { clear -Hfresh. induction Hfresh as [|l ls Hl _ IH]; simpl; [reflexivity|].
    rewrite bool_decide_eq_false_2 by lia. exact IH. }
  assert (Hrem : remove_first (fun l => bool_decide (Lesson._id l = next_oid w))
                              (lessons w ++ [lesson]) = lessons w).
  { clear -Hold. induction (lessons w) as [|l ls IH]; simpl in *.
    - now rewrite bool_decide_eq_true_2.
    - destruct (bool_decide (Lesson._id l = next_oid w)); [discriminate|].
      now rewrite (IH Hold). }
  rewrite Hrem. split; [exact Hold|]. split; [reflexivity|]. split.
  - unfold Course_findById. simpl. unfold Course_findById in HC.
    apply find_update_first; [assumption|].
    apply find_some in HC. destruct HC as [_ HC]. exact HC.
  - simpl. apply in_or_app. right. now left.
Qed.

(** X19. An update of an id that nothing has is not an error: an admin's PUT
    on a course, lesson or assignment id that is not in the store is
    answered 200 with a null document, and the store is unchanged. *)
Theorem update_of_unknown_id_is_a_noop (now : Z) (headers : Headers)
  (i : ObjectId) (w : World) (user : User.t) :
  authenticateToken env now headers w = (Ok (Next user), w) ->
  User.role user = admin ->
  (forall b, Course_findById i w = None ->
             put_course env now headers (JOid i) b w
             = (Ok (json 200 (CourseDoc None)), w))
  /\ (forall b, find (fun l => bool_decide (Lesson._id l = i)) (lessons w) = None ->
                put_lesson env now headers (JOid i) b w
                = (Ok (json 200 (LessonDoc None)), w))
  /\ (forall b, find (fun a => bool_decide (Assignment._id a = i))
                     (assignments w) = None ->
                put_assignment env now headers (JOid i) b w
                = (Ok (json 200 (AssignmentDoc None)), w)).
Proof.
  intros Hauth Hadmin. split; [|split]; intros b Hnone.
  - unfold put_course.
    rewrite (protected_next _ _ _ _ _ _ Hauth), (admin_passes_gate _ Hadmin).
    unfold bind. now rewrite Course_findByIdAndUpdate_none.
  - unfold put_lesson.
    rewrite (protected_next _ _ _ _ _ _ Hauth), (admin_passes_gate _ Hadmin).
    unfold bind, Lesson_findByIdAndUpdate, bind, lift, gets. simpl.
    now rewrite Hnone.
  - unfold put_assignment.
    rewrite (protected_next _ _ _ _ _ _ Hauth), (admin_passes_gate _ Hadmin).
    unfold bind, Assignment_findByIdAndUpdate, bind, lift, gets. simpl.
    now rewrite Hnone.
Qed.

Lemma Assignment_create_spec (title link : option string) (c : ObjectId)
  (w : World) :
  Assignment_create title link (JOid c) w =
    match required "Assignment" [("title", title); ("link", link)] title,
          required "Assignment" [("title", title); ("link", link)] link with
    | inr t, inr l =>
        let assignment := Assignment.mk (next_oid w) t l (Some c) in
        (Ok assignment,
         set_assignments (fun x => (x ++ [assignment])%list) (drawn w))
    | inl e, _ => (Throw e, drawn w)
    | inr _, inl e => (Throw e, drawn w)
    end.
Proof.
  unfold Assignment_create, bind, new_oid, lift. simpl.
  destruct (required _ _ title); [reflexivity|].
  destruct (required _ _ link); reflexivity.
Qed.

Lemma Course_push_assignment_spec (c i : ObjectId) (C : Course.t) (w : World) :
  Course_findById c w = Some C ->
  Course_findByIdAndUpdate (JOid c) (Course.push_assignment i) w =
    (Ok (Some (Course.push_assignment i C)),
     set_courses (update_first (fun x => bool_decide (Course._id x = c))
                               (Course.push_assignment i)) w).
Proof.
  intros HC. unfold Course_findByIdAndUpdate, bind, lift, gets. simpl.
  rewrite HC. simpl. now rewrite String.eqb_refl.
Qed.

(** X20. A create-assignment request under an existing course that is
    answered 201: the assignment is stored and references the course, the
    course's list of assignments is the former list with the new id appended,
    the id occurs in it exactly once, and the course's lessons are as
    before.  The ids already in the list are ids the store has drawn
    before. *)
Theorem create_assignment_referenced_once (now : Z) (headers : Headers)
  (c : ObjectId) (req : JsonBody) (w w' : World) (r : Response)
  (C : Course.t) :
  post_course_assignments env now headers (JOid c) req w = (Ok r, w') ->
  status r = 201%nat ->
  Course_findById c w = Some C ->
  Forall (fun i => (i < next_oid w)%N) (Course.assignments C) ->
  exists assignment C',
    body r = AssignmentDoc (Some assignment)
    /\ In assignment (assignments w')
    /\ Assignment.course assignment = Some c
    /\ Course_findById c w' = Some C'
    /\ Course.assignments C'
       = (Course.assignments C ++ [Assignment._id assignment])%list
    /\ Course.lessons C' = Course.lessons C
    /\ count_occ N.eq_dec (Course.assignments C') (Assignment._id assignment)
       = 1%nat.
Proof.
  intros Hrun H201 HC Hids. unfold post_course_assignments in Hrun.
  destruct (authenticateToken_outcomes env now headers w)
    as [(user & Hauth)|(r0 & Hauth & Hin)].
  2:{ rewrite (protected_responded _ _ _ _ _ _ Hauth) in Hrun.
      injection Hrun as <- <-. simpl in Hin.
      repeat (destruct Hin as [<-|Hin]; [discriminate|]). contradiction. }
  rewrite (protected_next _ _ _ _ _ _ Hauth) in Hrun.
  destruct (negb (bool_decide (User.role user = admin)));
    [injection Hrun as <- <-; discriminate|].
  unfold bind in Hrun. rewrite Assignment_create_spec in Hrun.
  destruct (required _ _ (req !! "title")) as [e|title]; [discriminate|].
  destruct (required _ _ (req !! "link")) as [e|link]; [discriminate|].
  cbv beta iota zeta in Hrun.
  set (assignment := Assignment.mk (next_oid w) title link (Some c)) in *.
  rewrite (Course_push_assignment_spec c _ C) in Hrun by exact HC.
  unfold ret in Hrun. injection Hrun as <- <-.
  exists assignment, (Course.push_assignment (next_oid w) C).
  split; [reflexivity|]. split; [simpl; apply in_or_app; right; now left|].
  split; [reflexivity|]. split; [|split; [|split]].
  - unfold Course_findById. simpl.
    apply find_update_first; [assumption|].
    apply find_some in HC. destruct HC as [_ HC]. exact HC.
  - reflexivity.
  - reflexivity.
  - simpl. now apply count_occ_fresh.
Qed.

Lemma Course_create_spec (name code : option string) (by_user : ObjectId)
  (w : World) :
  Course_create name code by_user w =
    match required "Course" [("name", name); ("code", code)] name,
          required "Course" [("name", name); ("code", code)] code with
    | inr n, inr c =>
        let course := Course.mk (next_oid w) n c [] [] (Some by_user) in
        if code_taken (next_oid w) c (drawn w) then (Throw DuplicateKey, drawn w)
        else (Ok course, set_courses (fun l => (l ++ [course])%list) (drawn w))
    | inl e, _ => (Throw e, drawn w)
    | inr _, inl e => (Throw e, drawn w)
    end.
Proof.
  unfold Course_create, bind, new_oid, lift, gets. simpl.
  destruct (required _ _ name); [reflexivity|].
  destruct (required _ _ code) as [e|c]; [reflexivity|]. simpl.
  fold (drawn w). destruct (code_taken (next_oid w) c (drawn w)); reflexivity.
Qed.

(** X21. What [POST /api/courses] answers to a caller who passed the
    middleware and sent [role: admin]: without a name or without a code 500,
    and no course is stored; with a code that a stored course has 500, and no
    course is stored; otherwise 201, and one course is appended, with no
    lessons, no assignments and the authenticated user as its creator. *)
Theorem post_courses_outcomes (now : Z) (headers : Headers) (req : JsonBody)
  (w : World) (user : User.t) :
  authenticateToken env now headers w = (Ok (Next user), w) ->
  headers !! "role" = Some "admin" ->
  (Js.truthy_value (req !! "name") = None
   \/ Js.truthy_value (req !! "code") = None ->
   exists message,
     post_courses env now headers req w
     = (Ok (json 500 (MessageError "Error creating course" message)), drawn w))
  /\ (forall name code,
        Js.truthy_value (req !! "name") = Some name ->
        Js.truthy_value (req !! "code") = Some code ->
        ((exists C, In C (courses w) /\ Course.code C = code
                    /\ Course._id C <> next_oid w) ->
         post_courses env now headers req w
         = (Ok (json 500 (MessageError "Error creating course"
                                       (err_message DuplicateKey))),
            drawn w))
        /\ (Forall (fun C => Course.code C <> code) (courses w) ->
            post_courses env now headers req w
            = (Ok (json 201
                     (CourseDoc
                        (Some (Course.mk (next_oid w) name code [] []
                                         (Some (User._id user)))))),
               set_courses
                 (fun l => (l ++ [Course.mk (next_oid w) name code [] []
                                            (Some (User._id user))])%list)
                 (drawn w)))).
Proof.
  intros Hauth Hrole.
  assert (Hgate : negb (bool_decide (headers !! "role" = Some "admin")) = false)
    by now rewrite bool_decide_eq_true_2.
  assert (Hrun : post_courses env now headers req w
                 = match Course_create (req !! "name") (req !! "code")
                                       (User._id user) w with
                   | (Ok course, w') =>
                       (Ok (json 201 (CourseDoc (Some course))), w')
                   | (Throw e, w') =>
                       (Ok (json 500 (MessageError "Error creating course"
                                                   (err_message e))), w')
                   end).
  { unfold post_courses.
    rewrite (protected_next _ _ _ _ _ _ Hauth), Hgate.
    unfold try_catch, bind.
    destruct (Course_create _ _ _ w) as [[course|e] w']; reflexivity. }
  rewrite Hrun, Course_create_spec. unfold required. split.
  - intros Hmiss.
    destruct (Js.truthy_value (req !! "name")) as [name|].
    + destruct Hmiss as [Hm|Hm]; [discriminate|]. rewrite Hm.
      eexists. reflexivity.
    + eexists. reflexivity.
  - intros name code Hn Hc. rewrite Hn, Hc. cbv zeta. split.
    + intros (C & Hin & Hcode & Hid).
      assert (Htaken : code_taken (next_oid w) code (drawn w) = true).
      { unfold code_taken. apply existsb_exists. exists C.
        split; [exact Hin|].
        rewrite bool_decide_eq_true_2 by assumption.
        now rewrite bool_decide_eq_false_2. }
      now rewrite Htaken.
    + intros Hfree.
      assert (Htaken : code_taken (next_oid w) code (drawn w) = false).
      { unfold code_taken. simpl. clear -Hfree.
        induction Hfree as [|C l HC _ IH]; simpl; [reflexivity|].
        now rewrite bool_decide_eq_false_2. }
      now rewrite Htaken.
Qed.

Lemma find_app_None_list {A} (p : A -> bool) (l l' : list A) :
  find p l = None -> find p (l ++ l') = find p l'.
Proof.
  induction l as [|x l IH]; simpl; [reflexivity|].
  destruct (p x); [discriminate|exact IH].
Qed.

Lemma get_course_found (i : ObjectId) (w : World) (C : Course.t) :
  Course_findById i w = Some C ->
  get_course (JOid i) w = (Ok (read_json 200 (OneCourse (populate w C))), w).
Proof.
  intros H. unfold get_course, bind, lift, gets, ret. simpl. now rewrite H.
Qed.

Lemma find_lesson_old (i n : ObjectId) (ls : list Lesson.t) (new : Lesson.t) :
  Lesson._id new = n -> i <> n ->
  find (fun l => bool_decide (Lesson._id l = i)) (ls ++ [new])
  = find (fun l => bool_decide (Lesson._id l = i)) ls.
Proof.
  intros Hn Hi. induction ls as [|l ls IH]; simpl.
  - rewrite bool_decide_eq_false_2; [reflexivity|]. congruence.
  - destruct (bool_decide (Lesson._id l = i)); [reflexivity|exact IH].
Qed.

Lemma find_lesson_fresh (n : ObjectId) (ls : list Lesson.t) :
  Forall (fun l => (Lesson._id l < n)%N) ls ->
  find (fun l => bool_decide (Lesson._id l = n)) ls = None.
Proof.
  induction 1 as [|l ls Hl _ IH]; simpl; [reflexivity|].
  rewrite bool_decide_eq_false_2 by lia. exact IH.
Qed.

(** Populating old ids is the same before and after a lesson with a new id
    was appended. *)
Lemma populate_old_ids (ids : list ObjectId) (n : ObjectId)
  (ls : list Lesson.t) (new : Lesson.t) :
  Lesson._id new = n ->
  Forall (fun i => (i < n)%N) ids ->
  omap (fun i => find (fun l => bool_decide (Lesson._id l = i))
                      (ls ++ [new])) ids
  = omap (fun i => find (fun l => bool_decide (Lesson._id l = i)) ls) ids.
Proof.
  intros Hn. induction 1 as [|i ids Hi _ IH]; [reflexivity|].
  cbn [omap list_omap]. rewrite (find_lesson_old i n ls new Hn) by lia.
  fold (@omap list _ ObjectId Lesson.t). now rewrite IH.
Qed.

(** X26. What was created is read back: after an admin created a lesson under
    a course, [GET /api/courses/:id] returns the course with the lessons it
    showed before followed by the new lesson, and with the assignments it
    showed before. *)
Theorem created_lesson_is_read_back (now : Z) (headers : Headers)
  (c : ObjectId) (req : JsonBody) (w : World) (user : User.t)
  (title link : string) (C : Course.t) :
  authenticateToken env now headers w = (Ok (Next user), w) ->
  User.role user = admin ->
  Js.truthy_value (req !! "title") = Some title ->
  Js.truthy_value (req !! "youtubeLink") = Some link ->
  Course_findById c w = Some C ->
  Forall (fun l => (Lesson._id l < next_oid w)%N) (lessons w) ->
  Forall (fun i => (i < next_oid w)%N) (Course.lessons C) ->
  exists w1 P,
    post_course_lessons env now headers (JOid c) req w
    = (Ok (json 201 (LessonDoc
                       (Some (Lesson.mk (next_oid w) title link (Some c))))),
       w1)
    /\ get_course (JOid c) w1 = (Ok (read_json 200 (OneCourse P)), w1)
    /\ Populated.lessons P
       = (Populated.lessons (populate w C)
          ++ [Lesson.mk (next_oid w) title link (Some c)])%list
    /\ Populated.assignments P = Populated.assignments (populate w C).
Proof.
  intros Hauth Hadmin Ht Hl HC Hfresh Hids.
  pose proof (post_course_lessons_run now headers c req w user title link
                Hauth Hadmin Ht Hl) as Hrun.
  cbv zeta in Hrun. rewrite HC in Hrun.
  set (lesson := Lesson.mk (next_oid w) title link (Some c)) in *.
  match type of Hrun with _ = (_, ?x) => set (w1 := x) in * end.
  assert (HC1 : Course_findById c w1
                = Some (Course.push_lesson (next_oid w) C)).
  { unfold Course_findById. simpl. unfold Course_findById in HC.
    apply find_update_first; [assumption|].
    apply find_some in HC. destruct HC as [_ HC]. exact HC. }
  exists w1, (populate w1 (Course.push_lesson (next_oid w) C)).
  split; [exact Hrun|]. split; [|split].
  - now apply get_course_found.
  - unfold populate, Lesson_findById. simpl.
    rewrite omap_app. f_equal.
    + now apply (populate_old_ids _ (next_oid w)).
    + cbn [omap list_omap].
      rewrite (find_app_None_list _ _ _ (find_lesson_fresh _ _ Hfresh)).
      simpl. now rewrite bool_decide_eq_true_2.
  - reflexivity.
Qed.

(** X27. A deleted lesson is not read back, though its reference stays: after
    an admin created a lesson under a course and deleted it again,
    [GET /api/courses/:id] shows the lessons the course showed before the
    creation, while the stored course lists one id more. *)
Theorem deleted_lesson_is_not_read_back (now now' : Z)
  (headers headers' : Headers) (c : ObjectId) (req : JsonBody) (w : World)
  (user user' : User.t) (title link : string) (C : Course.t) :
  authenticateToken env now headers w = (Ok (Next user), w) ->
  User.role user = admin ->
  Js.truthy_value (req !! "title") = Some title ->
  Js.truthy_value (req !! "youtubeLink") = Some link ->
  Course_findById c w = Some C ->
  Forall (fun l => (Lesson._id l < next_oid w)%N) (lessons w) ->
  authenticateToken env now' headers' w = (Ok (Next user'), w) ->
  User.role user' = admin ->
  exists w1 w2 r P C',
    post_course_lessons env now headers (JOid c) req w = (Ok r, w1)
    /\ delete_lesson env now' headers' (JOid (next_oid w)) w1
       = (Ok (json 200 (Message "Lesson deleted")), w2)
    /\ get_course (JOid c) w2 = (Ok (read_json 200 (OneCourse P)), w2)
    /\ Populated.lessons P = Populated.lessons (populate w C)
    /\ Course_findById c w2 = Some C'
    /\ Course.lessons C' = (Course.lessons C ++ [next_oid w])%list.
Proof.
  intros Hauth Hadmin Ht Hl HC Hfresh Hauth' Hadmin'.
  pose proof (post_course_lessons_run now headers c req w user title link
                Hauth Hadmin Ht Hl) as Hrun.
  cbv zeta in Hrun. rewrite HC in Hrun.
  set (lesson := Lesson.mk (next_oid w) title link (Some c)) in *.
  match type of Hrun with _ = (_, ?x) => set (w1 := x) in * end.
  assert (Hold : find (fun l => bool_decide (Lesson._id l = next_oid w))
                      (lessons w) = None)
    by now apply find_lesson_fresh.
  assert (Hrem : remove_first (fun l => bool_decide (Lesson._id l = next_oid w))
                              (lessons w ++ [lesson]) = lessons w).
  { clear -Hold. induction (lessons w) as [|l ls IH]; simpl in *.
    - now rewrite bool_decide_eq_true_2.
    - destruct (bool_decide (Lesson._id l = next_oid w)); [discriminate|].
      now rewrite (IH Hold). }
  set (w2 := set_lessons
               (remove_first
                  (fun l => bool_decide (Lesson._id l = next_oid w))) w1).
  assert (HC2 : Course_findById c w2
                = Some (Course.push_lesson (next_oid w) C)).
  { unfold Course_findById. simpl. unfold Course_findById in HC.
    apply find_update_first; [assumption|].
    apply find_some in HC. destruct HC as [_ HC]. exact HC. }
  exists w1, w2. eexists.
  exists (populate w2 (Course.push_lesson (next_oid w) C)),
    (Course.push_lesson (next_oid w) C).
  split; [exact Hrun|]. split; [|split; [|split; [|split]]].
  - unfold delete_lesson.
    rewrite (protected_next _ _ _ _ _ _
               (authenticateToken_users _ _ w w1 _ eq_refl Hauth')),
      (admin_passes_gate _ Hadmin').
    reflexivity.
  - now apply get_course_found.
  - unfold populate, Lesson_findById. simpl. rewrite Hrem.
    rewrite omap_app. cbn [omap list_omap]. rewrite Hold.
    now rewrite app_nil_r.
  - exact HC2.
  - reflexivity.
Qed.

End CatalogMore.

(** *** The notification service, further *)

Section NotificationMore.

Variable model : string.
Variable render : string -> TemplateContext -> string.
Variable toLowerCase : string -> string.
Variable GMAIL_USER : option string.

(** The handler, step by step. *)
Lemma send_email_run (relay : Mail -> option Error)
  (subject : string -> option string -> string) (now : Clock)
  (req : JsonBody) (w : MailWorld) :
  send_email model render toLowerCase relay GMAIL_USER subject now req w =
    match TransactionEmail_save model (req !! "wallet")
            (Js.interpolate (req !! "amount") ++ " "
             ++ Js.interpolate (req !! "coin"))
            (req !! "email") (date now) (time now) "Sent" w with
    | (Throw e, w1) => (Ok (json 500 (Message (err_message e))), w1)
    | (Ok doc, w1) =>
        match call_template render
                (toLowerCase (TransactionEmail.wallet doc))
                (context_of now req) with
        | inl e => (Ok (json 500 (Message (err_message e))), w1)
        | inr html =>
            let mail :=
              mail_of GMAIL_USER subject req (TransactionEmail.wallet doc)
                      html in
            match relay mail with
            | None =>
                (Ok (json 200 (Message "Email sent successfully")),
                 dispatched mail true w1)
            | Some e =>
                (Ok (json 500 (Message (err_message e))),
                 dispatched mail false w1)
            end
        end
    end.
Proof.
  unfold send_email, try_catch. unfold bind at 1.
  destruct (TransactionEmail_save _ _ _ _ _ _ _ w) as [[doc|e] w1];
    [|reflexivity].
  fold (context_of now req). unfold bind at 1. unfold lift at 1.
  destruct (call_template _ _ _) as [e|html]; [reflexivity|].
  unfold ret at 1. unfold bind at 1, sendMail.
  fold (mail_of GMAIL_USER subject req (TransactionEmail.wallet doc) html).
  destruct (relay _) as [e|]; reflexivity.
Qed.

(** X22. The notification log is append-only: whatever the request, the
    subject line and the relay, the handler answers 200 or 500, never throws,
    keeps every stored record as it is and adds at most one record, with
    status Sent. *)
Theorem notification_log_is_append_only (relay : Mail -> option Error)
  (subject : string -> option string -> string) (now : Clock)
  (req : JsonBody) (w : MailWorld) :
  exists r w',
    send_email model render toLowerCase relay GMAIL_USER subject now req w
    = (Ok r, w')
    /\ (status r = 200%nat \/ status r = 500%nat)
    /\ (transactions w' = transactions w
        \/ exists doc, transactions w' = (transactions w ++ [doc])%list
                       /\ TransactionEmail.status doc = "Sent")
    /\ exists evs, events w' = (events w ++ evs)%list.
Proof.
  rewrite send_email_run.
  destruct (TransactionEmail_save_cases model (req !! "wallet")
              (Js.interpolate (req !! "amount") ++ " "
               ++ Js.interpolate (req !! "coin"))
              (req !! "email") (date now) (time now) "Sent" w)
    as [(e & ->)|(wl & em & _ & _ & ->)].
  { eexists; eexists. split; [reflexivity|]. split; [now right|].
    split; [now left|]. exists []. now rewrite app_nil_r. }
  destruct (call_template _ _ _) as [e|html].
  { eexists; eexists. split; [reflexivity|]. split; [now right|].
    split; [right; eexists; split; reflexivity|].
    eexists. reflexivity. }
  cbv zeta. destruct (relay _) as [e|];
    (eexists; eexists; split; [reflexivity|]);
    (split; [simpl; tauto|]);
    (split; [right; eexists; split; reflexivity|]);
    simpl; rewrite <- app_assoc; eexists; reflexivity.
Qed.

(** X23. The three [send-email] routes store the same thing: the records
    after a request do not depend on the subject line, so not on the route,
    and not on what the relay does with the message. *)
Theorem routes_store_the_same_record (relay1 relay2 : Mail -> option Error)
  (subject1 subject2 : string -> option string -> string) (now : Clock)
  (req : JsonBody) (w : MailWorld) :
  transactions
    (snd (send_email model render toLowerCase relay1 GMAIL_USER subject1
                     now req w))
  = transactions
      (snd (send_email model render toLowerCase relay2 GMAIL_USER subject2
                       now req w)).
Proof.
  rewrite !send_email_run.
  destruct (TransactionEmail_save _ _ _ _ _ _ _ w) as [[doc|e] w1];
    [|reflexivity].
  destruct (call_template _ _ _) as [e|html]; [reflexivity|].
  cbv zeta. destruct (relay1 _), (relay2 _); reflexivity.
Qed.

(** X24. An answer 200 means a message was delivered: the relay accepted one
    message, addressed to the e-mail of the request, with the subject of the
    route, after the record of the request was stored. *)
Theorem ok_means_delivered (relay : Mail -> option Error)
  (subject : string -> option string -> string) (now : Clock)
  (req : JsonBody) (w w' : MailWorld) (r : Response) :
  send_email model render toLowerCase relay GMAIL_USER subject now req w
  = (Ok r, w') ->
  status r = 200%nat ->
  exists wallet email mail,
    req !! "wallet" = Some wallet
    /\ req !! "email" = Some email
    /\ relay mail = None
    /\ mail_to mail = Some email
    /\ mail_subject mail = subject wallet (req !! "recipient_name")
    /\ transactions w'
       = (transactions w ++ [record_of now req wallet email])%list
    /\ events w'
       = (events w ++ [Saved (record_of now req wallet email);
                       Dispatched mail true])%list.
Proof.
  rewrite send_email_run. intros Hrun H200.
  destruct (TransactionEmail_save_cases model (req !! "wallet")
              (Js.interpolate (req !! "amount") ++ " "
               ++ Js.interpolate (req !! "coin"))
              (req !! "email") (date now) (time now) "Sent" w)
    as [(e & E)|(wl & em & Hw & He & E)]; rewrite E in Hrun.
  { injection Hrun as <- <-. discriminate. }
  fold (record_of now req wl em) in Hrun.
  destruct (call_template _ _ _) as [e|html].
  { injection Hrun as <- <-. discriminate. }
  cbv zeta in Hrun.
  change (TransactionEmail.wallet (record_of now req wl em)) with wl in Hrun.
  destruct (relay (mail_of GMAIL_USER subject req wl html)) as [e|] eqn:Hrelay.
  { injection Hrun as <- <-. discriminate. }
  injection Hrun as <- <-.
  exists wl, em, (mail_of GMAIL_USER subject req wl html).
  split; [exact Hw|]. split; [exact He|]. split; [exact Hrelay|].
  split; [exact He|]. split; [reflexivity|]. split; [reflexivity|].
  simpl. now rewrite <- app_assoc.
Qed.

(** X25. The amount is never the reason of a refusal: [amount] and [coin] are
    interpolated before the document is validated, so a request with a
    wallet and an e-mail passes validation without them, and what is missing
    is stored as the word undefined. *)
Theorem missing_amount_is_stored_as_undefined (relay : Mail -> option Error)
  (subject : string -> option string -> string) (now : Clock)
  (req : JsonBody) (w : MailWorld) (wallet email : string) :
  Js.truthy_value (req !! "wallet") = Some wallet ->
  Js.truthy_value (req !! "email") = Some email ->
  date now <> "" -> time now <> "" ->
  exists r w',
    send_email model render toLowerCase relay GMAIL_USER subject now req w
    = (Ok r, w')
    /\ transactions w'
       = (transactions w ++ [record_of now req wallet email])%list
    /\ (req !! "amount" = None -> req !! "coin" = None ->
        TransactionEmail.amount (record_of now req wallet email)
        = "undefined undefined")
    /\ (forall a, req !! "amount" = Some a -> req !! "coin" = None ->
                  TransactionEmail.amount (record_of now req wallet email)
                  = (a ++ " undefined")%string).
Proof.
  intros Hw He Hd Ht. rewrite send_email_run.
  rewrite (TransactionEmail_save_valid model _ _ _ _ _ _ _ _ w Hw He
             (amount_not_empty _ _) Hd Ht).
  fold (record_of now req wallet email).
  assert (Hfields :
            (req !! "amount" = None -> req !! "coin" = None ->
             TransactionEmail.amount (record_of now req wallet email)
             = "undefined undefined")
            /\ (forall a, req !! "amount" = Some a -> req !! "coin" = None ->
                          TransactionEmail.amount
                            (record_of now req wallet email)
                          = (a ++ " undefined")%string)).
  { split.
    - intros Ha Hc. unfold record_of. simpl. now rewrite Ha, Hc.
    - intros a Ha Hc. unfold record_of. simpl. now rewrite Ha, Hc. }
  destruct (call_template _ _ _) as [e|html].
  { eexists; eexists. split; [reflexivity|]. split; [reflexivity|].
    exact Hfields. }
  cbv zeta. destruct (relay _) as [e|];
    (eexists; eexists; split; [reflexivity|]; split; [reflexivity|]);
    exact Hfields.
Qed.

End NotificationMore.

(** *** The account handlers on bodies of any JSON type *)

Section JsonAccounts.

Context {jwtlib : JwtLib} {bcryptlib : BcryptLib} {casts : Casts}.
Variable env : Env.

Lemma truthy_value_Str (x : option string) :
  Json.truthy_value (Json.Str <$> x) = Json.Str <$> Js.truthy_value x.
Proof.
  destruct x as [s|]; simpl; [|reflexivity].
  destruct (String.eqb s ""); reflexivity.
Qed.

Lemma find_pointwise {A} (p q : A -> bool) (l : list A) :
  (forall x, p x = q x) -> find p l = find q l.
Proof.
  intros E. induction l as [|x l IH]; simpl; [reflexivity|].
  now rewrite E, IH.
Qed.

Lemma User_findOne_filter_Str (email : string) (w : World) :
  User_findOne_filter (Json.Str email) w = User_findOne_email email w.
Proof.
  unfold User_findOne_filter, User_findOne_email, bind, lift, gets.
  destruct (cast_filter_Str email) as (test & -> & Htest). simpl.
  f_equal. f_equal. apply find_pointwise. intros u. now rewrite Htest.
Qed.

(** On a body whose fields are strings the login handler is [post_login]. *)
Lemma post_login_json_strings (now : Z) (body : JsonBody) (w : World) :
  post_login_json env now (Json.Str <$> body) w = post_login env now body w.
Proof.
  unfold post_login_json, post_login, try_catch.
  rewrite !lookup_fmap, !truthy_value_Str.
  destruct (Js.truthy_value (body !! "email")) as [e|]; simpl; [|reflexivity].
  destruct (Js.truthy_value (body !! "password")) as [p|]; simpl;
    [|reflexivity].
  unfold bind. rewrite User_findOne_filter_Str.
  destruct (User_findOne_email e w) as [[[u|]|err] w1]; reflexivity.
Qed.

(** On a body whose fields are strings the registration handler is
    [post_register]. *)
Lemma post_register_json_strings (now : Z) (body : JsonBody) (w : World) :
  post_register_json env now (Json.Str <$> body) w
  = post_register env now body w.
Proof.
  unfold post_register_json, post_register, try_catch.
  rewrite !lookup_fmap, !truthy_value_Str.
  destruct (Js.truthy_value (body !! "name")) as [n|]; simpl; [|reflexivity].
  destruct (Js.truthy_value (body !! "email")) as [e|]; simpl; [|reflexivity].
  destruct (Js.truthy_value (body !! "password")) as [p|]; simpl;
    [|reflexivity].
  unfold bind. simpl.
  destruct (Nat.ltb (Js.length p) 8); [reflexivity|].
  rewrite User_findOne_filter_Str. unfold User_findOne_email, gets.
  destruct (find (User_matches None (Some e)) (users w)) as [u|];
    [reflexivity|].
  simpl. rewrite !cast_string_Str. reflexivity.
Qed.

(** A login whose e-mail is a string and whose password is truthy and not a
    string: [bcrypt.compare] is reached, and throws, exactly when a stored
    user has the e-mail. *)
Lemma login_with_nonstring_password (now : Z) (body : JsonObject) (w : World)
  (email : string) (password : Json.value) :
  body !! "email" = Some (Json.Str email) -> email <> "" ->
  Json.truthy_value (body !! "password") = Some password ->
  (forall s, password <> Json.Str s) ->
  post_login_json env now body w
  = match find (User_matches None (Some email)) (users w) with
    | Some _ =>
        (Ok (json 500
               (MessageError "Login failed"
                  ("Illegal arguments: " ++ Json.typeof password
                   ++ ", string"))), w)
    | None => (Ok INVALID_LOGIN, w)
    end.
Proof.
  intros He Hne Hp Hns. unfold post_login_json, try_catch.
  rewrite He, Hp. simpl.
  destruct (String.eqb_spec email "") as [E|_]; [contradiction|].
  unfold bind at 1. rewrite User_findOne_filter_Str.
  unfold User_findOne_email, gets.
  destruct (find (User_matches None (Some email)) (users w)) as [u|];
    [|reflexivity].
  unfold bind, compare.
  destruct password as [s| | | | |]; try reflexivity.
  exfalso. exact (Hns s eq_refl).
Qed.

(** A registration whose name is truthy, whose e-mail is a string and whose
    password is a number other than zero: the length guard lets it pass, and
    [bcrypt.hash] throws unless the e-mail is in use. *)
Lemma register_with_numeric_password (now : Z) (body : JsonObject) (w : World)
  (name : Json.value) (email : string) (n : Z) :
  Json.truthy_value (body !! "name") = Some name ->
  body !! "email" = Some (Json.Str email) -> email <> "" ->
  body !! "password" = Some (Json.Num n) -> n <> 0 ->
  post_register_json env now body w
  = match find (User_matches None (Some email)) (users w) with
    | Some _ => (Ok (json 400 (Message "Email already in use")), w)
    | None =>
        (Ok (json 500
               (MessageError "Registration failed"
                             "Illegal arguments: number, number")), w)
    end.
Proof.
  intros Hn He Hne Hp Hnz. unfold post_register_json, try_catch.
  rewrite Hn, He, Hp. simpl.
  destruct (String.eqb_spec email "") as [E|_]; [contradiction|].
  destruct (Z.eqb_spec n 0) as [E|_]; [contradiction|].
  unfold bind at 1. simpl.
  unfold bind at 1. rewrite User_findOne_filter_Str.
  unfold User_findOne_email, gets.
  destruct (find (User_matches None (Some email)) (users w)) as [u|];
    reflexivity.
Qed.

End JsonAccounts.

(** *** The properties at work on the example data *)

#[local] Existing Instance Example.jwt.
#[local] Existing Instance Example.bcrypt.
#[local] Existing Instance Example.casts.


(** The scan on the example store: with one live refresh token left Alice's
    request passes, with none it is rejected. *)
Lemma refresh_scan_decides_witness :
  authenticateToken Example.env 300 Example.alice_headers Example.w_revoked
  = (Ok (Next Example.alice_revoked), Example.w_revoked)
  /\ authenticateToken Example.env 300 Example.alice_headers
       Example.w_logged_out
     = (Ok (Responded TOKEN_INVALIDATED), Example.w_logged_out).
Proof.
  split.
  - destruct (refresh_scan_decides Example.env 300 Example.alice_headers
                Example.w_revoked Example.alice_access "first@x.com"
                (Example.decode "0" "admin") Example.alice_revoked
                ltac:(reflexivity) ltac:(reflexivity)
                ltac:(vm_compute; reflexivity)
                ltac:(vm_compute; reflexivity)) as (_ & _ & H).
    apply H. exists Example.alice_refresh2. split; [now left|].
    exists (Example.decode "0" ""). split; reflexivity.
  - destruct (refresh_scan_decides Example.env 300 Example.alice_headers
                Example.w_logged_out Example.alice_access "first@x.com"
                (Example.decode "0" "admin") Example.alice_logged_out
                ltac:(reflexivity) ltac:(reflexivity)
                ltac:(vm_compute; reflexivity)
                ltac:(vm_compute; reflexivity)) as (_ & H & _).
    exact (H eq_refl).
Defined.

(** Alice registered (access token [alice_access], refresh token
    [alice_refresh]) and later logged in again.  The refresh token of the
    first session was then removed from her [refreshTokens].  Her first
    access token, valid and unexpired, still passes the middleware: the
    refresh token of the second session is live for it. *)
Lemma revoked_session_still_authenticates :
  post_register Example.env 100 Example.alice empty_world
  = (Ok Example.alice_registered, Example.w_alice)
  /\ issued Example.alice_registered
     = Some (Example.alice_access, Example.alice_refresh,
             mkPublicUser 0%N "Alice" "first@x.com" admin)
  /\ jwt_verify Example.alice_access (JWT_SECRET Example.env) 300
     = inr (access_payload Example.alice_user)
  /\ Forall (fun u => ~ In Example.alice_refresh (User.refreshTokens u))
            (users Example.w_revoked)
  /\ authenticateToken Example.env 300 Example.alice_headers Example.w_revoked
     = (Ok (Next Example.alice_revoked), Example.w_revoked)
  /\ authenticateToken Example.env 300 Example.alice_headers Example.w_revoked
     <> (Ok (Responded TOKEN_INVALIDATED), Example.w_revoked).
Proof.
  split; [vm_compute; reflexivity|]. split; [reflexivity|].
  split; [vm_compute; reflexivity|]. split.
  - vm_compute. repeat constructor; intros H;
      repeat (destruct H as [H|H]; [discriminate|]); exact H.
  - assert (E : authenticateToken Example.env 300 Example.alice_headers
                  Example.w_revoked
                = (Ok (Next Example.alice_revoked), Example.w_revoked))
      by (vm_compute; reflexivity).
    split; [exact E|]. rewrite E. discriminate.
Qed.

(** C3. The admin gate does not hold on [POST /api/courses], which compares
    the [role] header the caller sends and not the role of the authenticated
    user, as the eight other mutating routes do.  Bob, a student, sends [role: admin]
    with his own token: the course is created.  The same headers on a
    sibling route are refused, and Alice, the admin, is refused on
    [POST /api/courses] when she sends no [role] header. *)
Theorem post_courses_trusts_role_header :
  authenticateToken Example.env 300 Example.bob_claims_admin Example.w_login
  = (Ok (Next Example.bob_user), Example.w_login)
  /\ User.role Example.bob_user = student
  /\ post_courses Example.env 300 Example.bob_claims_admin
       Example.logic_course Example.w_login
     = (Ok (json 201 (CourseDoc (Some Example.bobs_course))),
        set_courses (fun _ => [Example.bobs_course]) (drawn Example.w_login))
  /\ courses Example.w_login = []
  /\ mutate Example.env 300 Example.bob_claims_admin
       (PutCourse (JOid 2%N) (Course.mkPatch (Some "Renamed") None None None None))
       Example.w_login
     = (Ok Forbidden, Example.w_login)
  /\ User.role Example.alice_user = admin
  /\ post_courses Example.env 300 Example.alice_headers Example.logic_course
       Example.w_login
     = (Ok Forbidden, Example.w_login).
Proof.
  repeat split; vm_compute; reflexivity.
Qed.

(** Alice, then Bob, register on the empty store. *)
Lemma first_registrant_is_admin_witness :
  map User.role (users Example.w_both) = [admin; student]
  /\ map registered_role [Example.alice_registered; Example.bob_registered]
     = [Some admin; Some student].
Proof.
  destruct (first_registrant_is_admin Example.env
              [(100, Example.alice); (110, Example.bob)]
              [Example.alice_registered; Example.bob_registered]
              Example.w_both)
    as (H1 & H2 & _).
  - vm_compute. reflexivity.
  - repeat constructor.
  - split; [exact H1|exact H2].
Defined.

(** An unknown e-mail on the example store, and Alice's e-mail with a wrong
    password: the same answer. *)
Lemma login_failures_indistinguishable_witness :
  exists r,
    post_login Example.env 300 Example.unknown_email Example.w_login
    = (Ok r, Example.w_login)
    /\ post_login Example.env 300 Example.wrong_password Example.w_login
       = (Ok r, Example.w_login)
    /\ r = INVALID_LOGIN.
Proof.
  destruct (login_failures_indistinguishable Example.env 300 300
              Example.unknown_email Example.wrong_password
              Example.w_login Example.w_login Example.alice_user)
    as (r & H1 & H2 & _ & H3).
  - intros e He. vm_compute in He. injection He as <-.
    vm_compute. repeat constructor; discriminate.
  - exists "first@x.com". split; reflexivity.
  - intros p Hp. vm_compute in Hp. injection Hp as <-. reflexivity.
  - reflexivity.
  - reflexivity.
  - exists r. split; [exact H1|]. split; [exact H2|].
    apply H3; reflexivity.
Defined.

(** A registration without a name, one with a seven-character password, one
    with a password of seven characters that take eight bytes, and one with
    Alice's e-mail on the store that has her account. *)
Lemma register_rejections_in_order_witness :
  post_register Example.env 120
    {[ "email" := "third@x.com"; "password" := "short" ]} Example.w_alice
  = (Ok (json 400 (Message "All fields are required")), Example.w_alice)
  /\ post_register Example.env 120
       {[ "name" := "Carol"; "email" := "first@x.com"; "password" := "1234567" ]}
       Example.w_alice
     = (Ok (json 400 (Message "Password must be at least 8 characters")),
        Example.w_alice)
  /\ post_register Example.env 120
       {[ "name" := "Carol"; "email" := "first@x.com"; "password" := "pässwor" ]}
       Example.w_alice
     = (Ok (json 400 (Message "Password must be at least 8 characters")),
        Example.w_alice)
  /\ post_register Example.env 120
       {[ "name" := "Carol"; "email" := "first@x.com";
          "password" := "12345678" ]}
       Example.w_alice
     = (Ok (json 400 (Message "Email already in use")), Example.w_alice).
Proof.
  split; [|split; [|split]].
  - destruct (register_rejections_in_order Example.env 120
                {[ "email" := "third@x.com"; "password" := "short" ]}
                Example.w_alice) as (H & _).
    apply H. left. reflexivity.
  - destruct (register_rejections_in_order Example.env 120
                {[ "name" := "Carol"; "email" := "first@x.com";
                   "password" := "1234567" ]}
                Example.w_alice) as (_ & H).
    destruct (H "Carol" "first@x.com" "1234567" eq_refl eq_refl eq_refl)
      as (H1 & _).
    apply H1. simpl. lia.
  - destruct (register_rejections_in_order Example.env 120
                {[ "name" := "Carol"; "email" := "first@x.com";
                   "password" := "pässwor" ]}
                Example.w_alice) as (_ & H).
    destruct (H "Carol" "first@x.com" "pässwor" eq_refl eq_refl eq_refl)
      as (H1 & _).
    apply H1. vm_compute. lia.
  - destruct (register_rejections_in_order Example.env 120
                {[ "name" := "Carol"; "email" := "first@x.com";
                   "password" := "12345678" ]}
                Example.w_alice) as (_ & H).
    destruct (H "Carol" "first@x.com" "12345678" eq_refl eq_refl eq_refl)
      as (_ & H2).
    apply H2; [simpl; lia|].
    exists (User.mk 0%N "Alice" "first@x.com" "$2a$10$correct horse" admin 100
                    [Example.alice_refresh]).
    split; [vm_compute; now left|reflexivity].
Defined.

(** The token pair of Alice's registration. *)
Lemma token_pair_payloads_witness :
  jwt_sign {[ "userId" := JOid 0%N; "role" := JStr "admin" ]}
           (Some "access-key") "15m" 100
  = inr Example.alice_access
  /\ jwt_sign {[ "userId" := JOid 0%N ]} (Some "refresh-key") "7d" 100
     = inr Example.alice_refresh.
Proof.
  destruct (token_pair_payloads Example.env 100 Example.alice empty_world
              Example.w_alice Example.alice_registered Example.alice_access
              Example.alice_refresh
              (mkPublicUser 0%N "Alice" "first@x.com" admin))
    as (H1 & H2 & _).
  - left. vm_compute. reflexivity.
  - reflexivity.
  - split; [exact H1|exact H2].
Defined.

(** With one secret configured for both variables, the access and the refresh
    token of a registration are signed with the same secret, and the refresh
    token verifies where an access token is expected. *)
Lemma one_secret_signs_both_tokens :
  post_register Example.env_one_secret 100 Example.alice empty_world
  = (Ok (json 201 (Registered "User registered successfully" admin
                              "1000.0.admin.key" "604900.0..key"
                              (mkPublicUser 0%N "Alice" "first@x.com" admin))),
     Example.w_one_secret)
  /\ jwt_sign {[ "userId" := JOid 0%N; "role" := JStr "admin" ]}
              (Some "key") "15m" 100
     = inr "1000.0.admin.key"
  /\ jwt_sign {[ "userId" := JOid 0%N ]} (Some "key") "7d" 100
     = inr "604900.0..key"
  /\ JWT_SECRET Example.env_one_secret = Some "key"
  /\ JWT_REFRESH_SECRET Example.env_one_secret = Some "key"
  /\ jwt_verify "604900.0..key" (JWT_SECRET Example.env_one_secret) 300
     = inr {[ "userId" := JOid 0%N ]}.
Proof.
  repeat split; vm_compute; reflexivity.
Qed.

(** Alice adds a second lesson to the course Logic, which lists the
    lesson 3. *)
Lemma create_lesson_referenced_once_witness :
  exists C',
    In Example.proofs_lesson (lessons Example.w_lesson2)
    /\ Lesson.course Example.proofs_lesson = Some 2%N
    /\ Course_findById 2%N Example.w_lesson2 = Some C'
    /\ Course.lessons C' = [3%N; 4%N]
    /\ count_occ N.eq_dec (Course.lessons C') 4%N = 1%nat.
Proof.
  destruct (create_lesson_referenced_once Example.env 450
              Example.alice_headers 2%N Example.proofs_request
              Example.w_lesson Example.w_lesson2
              (json 201 (LessonDoc (Some Example.proofs_lesson)))
              (Course.mk 2%N "Logic" "LOG101" [3%N] [] (Some 0%N)))
    as (lesson & C' & Hbody & H1 & H2 & H3 & H4 & _ & H5).
  - vm_compute. reflexivity.
  - reflexivity.
  - vm_compute. reflexivity.
  - injection Hbody as <-. exists C'.
    split; [exact H1|]. split; [exact H2|]. split; [exact H3|].
    split; [exact H4|]. apply H5. simpl. intros [H|[]]. discriminate.
Defined.

(** The course Logic lists the id 3 before a lesson has it (an admin's
    [PUT /api/courses/2] with [lessons: [3]]); the lesson created next draws
    the id 3, which is pushed on the list: the course references the new
    lesson twice. *)
Lemma listed_id_is_referenced_twice :
  put_course Example.env 350 Example.alice_headers (JOid 2%N) Example.list_3
    Example.w_course
  = (Ok (json 200 (CourseDoc (Some Example.logic_listed))), Example.w_listed)
  /\ Course_findById 2%N Example.w_listed = Some Example.logic_listed
  /\ post_course_lessons Example.env 400 Example.alice_headers (JOid 2%N)
       Example.intro_request Example.w_listed
     = (Ok (json 201 (LessonDoc (Some Example.intro_lesson))),
        Example.w_twice)
  /\ Course_findById 2%N Example.w_twice = Some Example.logic_twice
  /\ count_occ N.eq_dec (Course.lessons Example.logic_twice)
                (Lesson._id Example.intro_lesson)
     = 2%nat.
Proof.
  repeat split; vm_compute; reflexivity.
Qed.


(** The wallet Kraken is none of the ten providers, and the request carries
    no e-mail address: the answer is 500 and no Notification Record is
    stored. *)
Lemma unknown_wallet_without_email_stores_nothing :
  Example.unknown_no_email !! "wallet" = Some "Kraken"
  /\ (Js.toLowerCase "Kraken" ∉ template_names)
  /\ post_send_email "Transaction" Example.render Js.toLowerCase
       Example.relay_up None Example.clock Example.unknown_no_email
       Example.mail_empty
     = (Ok (json 500
              (Message
                 "Transaction validation failed: email: Path `email` is required.")),
        Example.mail_empty)
  /\ transactions Example.mail_empty = [].
Proof.
  split; [reflexivity|]. split.
  - intros H; apply list_elem_of_In in H; simpl in H; intuition discriminate.
  - split; [vm_compute; reflexivity|reflexivity].
Qed.

(** The wallet Kraken with an e-mail address: 500, and the record stays. *)
Lemma unknown_wallet_leaves_record_witness :
  exists w',
    post_send_email "Transaction" Example.render Js.toLowerCase
      Example.relay_up None Example.clock Example.unknown_request
      Example.mail_empty
    = (Ok (json 500 (Message "templates[templateName] is not a function")), w')
    /\ transactions w'
       = [TransactionEmail.mk "Kraken" "1 ETH" "a@b.com" "Aug 18, 2025"
                              "12:59 PM" "Sent"].
Proof.
  destruct (unknown_wallet_leaves_record "Transaction" Example.render
              Js.toLowerCase Example.relay_up None Example.clock
              Example.unknown_request Example.mail_empty "Kraken" "a@b.com")
    as (r & w' & Hrun & Htx & _ & _ & Hr).
  - reflexivity.
  - reflexivity.
  - discriminate.
  - discriminate.
  - intros H; apply list_elem_of_In in H; simpl in H; intuition discriminate.
  - destruct Hr as [-> _]; [exact I|].
    exists w'. split; [exact Hrun|exact Htx].
Defined.

(** *** The further properties at work on the example data *)

(** A token that is not active yet, under a library that checks it. *)
Lemma other_verify_errors_are_auth_failed_witness :
  authenticateToken (jwtlib := Example.jwt_nbf) Example.env 10
    Example.alice_headers Example.w_login
  = (Ok (Responded AUTH_FAILED), Example.w_login).
Proof.
  apply (other_verify_errors_are_auth_failed (jwtlib := Example.jwt_nbf)
           Example.env 10 Example.alice_headers Example.w_login
           Example.alice_access "first@x.com"
           (mkError "NotBeforeError" "jwt not active"));
    try reflexivity; discriminate.
Defined.

(** Alice's token after the word Basic passes as it does after Bearer. *)
Lemma authorization_scheme_is_ignored_witness :
  authenticateToken Example.env 300
    (<["authorization" := "Basic" ++ " " ++ Example.alice_access]>
       {[ "email" := "first@x.com" ]})
    Example.w_login
  = authenticateToken Example.env 300
      (<["authorization" := "Bearer " ++ Example.alice_access]>
         {[ "email" := "first@x.com" ]})
      Example.w_login
  /\ authenticateToken Example.env 300
       (<["authorization" := "Bearer " ++ Example.alice_access]>
          {[ "email" := "first@x.com" ]})
       Example.w_login
     = (Ok (Next Example.alice_user), Example.w_login).
Proof.
  split.
  - apply (authorization_scheme_is_ignored Example.env 300
             {[ "email" := "first@x.com" ]} Example.w_login "Basic"
             Example.alice_access); reflexivity.
  - vm_compute. reflexivity.
Defined.

(** Alice's token sent as the whole [authorization] header. *)
Lemma bare_token_is_token_missing_witness :
  authenticateToken Example.env 300
    {[ "authorization" := Example.alice_access; "email" := "first@x.com" ]}
    Example.w_login
  = (Ok (Responded TOKEN_MISSING), Example.w_login).
Proof.
  apply (bare_token_is_token_missing Example.env 300
           {[ "authorization" := Example.alice_access;
              "email" := "first@x.com" ]}
           Example.w_login Example.alice_access); reflexivity.
Defined.

(** A token with Alice's id and the role student passes as her own token
    does, and the stored Alice, an admin, is attached. *)
Lemma only_userId_of_the_token_counts_witness :
  authenticateToken Example.env 300
    (Example.bearer Example.alice_as_student "first@x.com") Example.w_login
  = authenticateToken Example.env 300 Example.alice_headers Example.w_login
  /\ authenticateToken Example.env 300 Example.alice_headers Example.w_login
     = (Ok (Next Example.alice_user), Example.w_login).
Proof.
  split.
  - apply (only_userId_of_the_token_counts Example.env 300
             (Example.bearer Example.alice_as_student "first@x.com")
             Example.alice_headers Example.w_login
             Example.alice_as_student Example.alice_access
             (Example.decode "0" "student") (Example.decode "0" "admin"));
      reflexivity.
  - vm_compute. reflexivity.
Defined.

(** The store with Alice's account is well formed. *)
Lemma users_ok_w_alice : users_ok Example.w_alice.
Proof.
  split; [|split]; vm_compute.
  - repeat constructor.
  - repeat constructor. intros H. inversion H.
  - repeat constructor. intros H. inversion H.
Defined.

(** Bob registers on the store that has Alice's account. *)
Lemma accounts_keep_users_ok_witness : users_ok Example.w_both.
Proof.
  apply (accounts_keep_users_ok Example.env 110 Example.bob Example.w_alice
           Example.w_both Example.bob_registered).
  - exact users_ok_w_alice.
  - left. vm_compute. reflexivity.
Defined.

(** Bob's registration leaves Alice an admin and appends a student. *)
Lemma roles_are_never_rewritten_witness :
  map User.role (users Example.w_both) = [admin; student].
Proof.
  destruct (roles_are_never_rewritten Example.env 110 Example.bob
              Example.w_alice Example.w_both Example.bob_registered)
    as [H|H].
  - exact users_ok_w_alice.
  - left. vm_compute. reflexivity.
  - vm_compute in H. discriminate.
  - exact H.
Defined.


(** A wrong password for Alice's account. *)
Lemma failed_login_changes_nothing_witness :
  snd (post_login Example.env 300 Example.wrong_password Example.w_login)
  = Example.w_login.
Proof.
  apply (failed_login_changes_nothing Example.env 300 Example.wrong_password
           Example.w_login _ INVALID_LOGIN).
  - vm_compute. reflexivity.
  - vm_compute. discriminate.
Defined.

(** Alice registers where no [JWT_SECRET] is configured: 500, her account is
    stored, and the same registration again is refused. *)
Lemma register_stores_user_before_signing_witness :
  exists w',
    post_register Example.env_no_secret 100 Example.alice empty_world
    = (Ok (json 500 (MessageError "Registration failed"
                                  "secretOrPrivateKey must have a value")),
       w')
    /\ users w'
       = [User.mk 0%N "Alice" "first@x.com" "$2a$10$correct horse" admin 100
                  []]
    /\ forall now',
         post_register Example.env_no_secret now' Example.alice w'
         = (Ok (json 400 (Message "Email already in use")), w').
Proof.
  destruct (register_stores_user_before_signing Example.env_no_secret 100
              Example.alice empty_world "Alice" "first@x.com" "correct horse"
              (mkError "Error" "secretOrPrivateKey must have a value"))
    as (w' & H1 & H2 & H3).
  - constructor.
  - reflexivity.
  - reflexivity.
  - reflexivity.
  - simpl. lia.
  - reflexivity.
  - discriminate.
  - left. reflexivity.
  - exists w'. split; [exact H1|]. split; [exact H2|exact H3].
Defined.

(** The token pair of Alice's registration, used at time 300. *)
Lemma registered_tokens_are_accepted_witness :
  exists u,
    authenticateToken Example.env 300 Example.alice_headers Example.w_alice
    = (Ok (Next u), Example.w_alice)
    /\ public u = mkPublicUser 0%N "Alice" "first@x.com" admin
    /\ In u (users Example.w_alice).
Proof.
  apply (registered_tokens_are_accepted Example.env 100 300 Example.alice
           empty_world Example.w_alice Example.alice_registered
           Example.alice_access Example.alice_refresh
           (mkPublicUser 0%N "Alice" "first@x.com" admin)
           Example.alice_headers
           (Example.decode "0" "admin") (Example.decode "0" "")).
  - constructor.
  - vm_compute. reflexivity.
  - reflexivity.
  - vm_compute. reflexivity.
  - reflexivity.
  - vm_compute. reflexivity.
  - reflexivity.
  - reflexivity.
  - reflexivity.
Defined.

(** The token pair of Alice's login at time 200, used at time 300. *)
Lemma login_tokens_are_accepted_witness :
  exists u,
    authenticateToken Example.env 300
      (Example.bearer Example.alice_access2 "first@x.com") Example.w_alice2
    = (Ok (Next u), Example.w_alice2)
    /\ public u = mkPublicUser 0%N "Alice" "first@x.com" admin
    /\ In u (users Example.w_alice2).
Proof.
  apply (login_tokens_are_accepted Example.env 200 300 Example.alice_login
           Example.w_both Example.w_alice2 Example.alice_logged_in
           Example.alice_access2 Example.alice_refresh2
           (mkPublicUser 0%N "Alice" "first@x.com" admin)
           (Example.bearer Example.alice_access2 "first@x.com")
           (Example.decode "0" "admin") (Example.decode "0" "")).
  - vm_compute. repeat constructor.
    + intros [H|[]]. discriminate.
    + intros H. inversion H.
  - vm_compute. reflexivity.
  - reflexivity.
  - vm_compute. reflexivity.
  - reflexivity.
  - vm_compute. reflexivity.
  - reflexivity.
  - reflexivity.
  - reflexivity.
Defined.

(** Alice's session, opened by her registration, after Bob registered. *)
Lemma sessions_survive_registrations_and_logins_witness :
  exists u',
    authenticateToken Example.env 300 Example.alice_headers Example.w_both
    = (Ok (Next u'), Example.w_both)
    /\ User._id u' = 0%N.
Proof.
  apply (sessions_survive_registrations_and_logins Example.env 110 300
           Example.bob Example.w_alice Example.w_both Example.bob_registered
           Example.alice_headers Example.alice_new).
  - exact users_ok_w_alice.
  - left. vm_compute. reflexivity.
  - vm_compute. reflexivity.
Defined.

(** Bob, a student, asks to delete the course Logic. *)
Lemma catalog_gate_on_stored_role_witness :
  mutate Example.env 300 (Example.bearer Example.bob_access "second@x.com")
    (DeleteCourse (JOid 2%N)) Example.w_course
  = (Ok Forbidden, Example.w_course).
Proof.
  apply (catalog_gate_on_stored_role Example.env 300
           (Example.bearer Example.bob_access "second@x.com")
           Example.w_course Example.bob_user (DeleteCourse (JOid 2%N))).
  - discriminate.
  - vm_compute. reflexivity.
  - discriminate.
Defined.

(** A request without headers asks to delete the course Logic. *)
Lemma rejected_requests_mutate_nothing_witness :
  mutate Example.env 300 ∅ (DeleteCourse (JOid 2%N)) Example.w_course
  = (Ok TOKEN_MISSING, Example.w_course).
Proof.
  apply (rejected_requests_mutate_nothing Example.env 300 ∅ Example.w_course
           TOKEN_MISSING (DeleteCourse (JOid 2%N))).
  vm_compute. reflexivity.
Defined.

(** Alice creates the lesson under the id 7, which no course has. *)
Lemma lesson_under_missing_course_is_orphaned_witness :
  exists w',
    post_course_lessons Example.env 400 Example.alice_headers (JOid 7%N)
      Example.intro_request Example.w_course
    = (Ok (json 201
             (LessonDoc
                (Some (Lesson.mk 3%N "Introduction" "https://youtu.be/intro"
                                 (Some 7%N))))),
       w')
    /\ lessons w'
       = [Lesson.mk 3%N "Introduction" "https://youtu.be/intro" (Some 7%N)]
    /\ courses w' = [Example.logic]
    /\ Course_findById 7%N w' = None
    /\ Forall (fun C => ~ In 3%N (Course.lessons C)) (courses w').
Proof.
  destruct (lesson_under_missing_course_is_orphaned Example.env 400
              Example.alice_headers 7%N Example.intro_request
              Example.w_course Example.alice_user "Introduction"
              "https://youtu.be/intro")
    as (w' & H1 & H2 & H3 & H4 & H5).
  - vm_compute. reflexivity.
  - reflexivity.
  - reflexivity.
  - reflexivity.
  - reflexivity.
  - exists w'. split; [exact H1|]. split; [exact H2|].
    split; [exact H3|]. split; [exact H4|].
    apply H5. vm_compute. repeat constructor. intros H. exact H.
Defined.

(** Alice deletes the course Logic, which has one lesson: the lesson stays. *)
Lemma delete_course_does_not_cascade_witness :
  exists w',
    delete_course Example.env 500 Example.alice_headers (JOid 2%N)
      Example.w_lesson
    = (Ok (json 200 (Message "Course deleted")), w')
    /\ lessons w' = [Example.intro_lesson]
    /\ courses w' = [].
Proof.
  destruct (delete_course_does_not_cascade Example.env 500
              Example.alice_headers 2%N Example.w_lesson Example.alice_user)
    as (w' & H1 & H2 & _ & _ & H3 & _).
  - vm_compute. reflexivity.
  - reflexivity.
  - exists w'. split; [exact H1|]. split; [exact H2|exact H3].
Defined.

(** Alice creates the first lesson of Logic and deletes it again. *)
Lemma deleted_lesson_stays_referenced_witness :
  exists w1 w2 C',
    post_course_lessons Example.env 400 Example.alice_headers (JOid 2%N)
      Example.intro_request Example.w_course
    = (Ok (json 201 (LessonDoc (Some Example.intro_lesson))), w1)
    /\ delete_lesson Example.env 500 Example.alice_headers (JOid 3%N) w1
       = (Ok (json 200 (Message "Lesson deleted")), w2)
    /\ lessons w2 = []
    /\ Course_findById 2%N w2 = Some C'
    /\ In 3%N (Course.lessons C').
Proof.
  destruct (deleted_lesson_stays_referenced Example.env 400 500
              Example.alice_headers Example.alice_headers 2%N
              Example.intro_request Example.w_course Example.alice_user
              Example.alice_user "Introduction" "https://youtu.be/intro"
              Example.logic)
    as (w1 & w2 & C' & H1 & H2 & _ & H3 & H4 & H5).
  - vm_compute. reflexivity.
  - reflexivity.
  - reflexivity.
  - reflexivity.
  - reflexivity.
  - constructor.
  - vm_compute. reflexivity.
  - reflexivity.
  - exists w1, w2, C'. split; [exact H1|]. split; [exact H2|].
    split; [exact H3|]. split; [exact H4|exact H5].
Defined.

(** Alice renames the course, the lesson and the assignment with the id 9,
    which nothing has. *)
Lemma update_of_unknown_id_is_a_noop_witness :
  put_course Example.env 400 Example.alice_headers (JOid 9%N)
    (Course.mkPatch (Some "Renamed") None None None None) Example.w_course
  = (Ok (json 200 (CourseDoc None)), Example.w_course)
  /\ put_lesson Example.env 400 Example.alice_headers (JOid 9%N)
       (Lesson.mkPatch (Some "Renamed") None None) Example.w_course
     = (Ok (json 200 (LessonDoc None)), Example.w_course)
  /\ put_assignment Example.env 400 Example.alice_headers (JOid 9%N)
       (Assignment.mkPatch (Some "Renamed") None None) Example.w_course
     = (Ok (json 200 (AssignmentDoc None)), Example.w_course).
Proof.
  destruct (update_of_unknown_id_is_a_noop Example.env 400
              Example.alice_headers 9%N Example.w_course Example.alice_user)
    as (H1 & H2 & H3).
  - vm_compute. reflexivity.
  - reflexivity.
  - split; [|split].
    + apply H1. reflexivity.
    + apply H2. reflexivity.
    + apply H3. reflexivity.
Defined.

(** Alice adds the first assignment to the course Logic. *)
Lemma create_assignment_referenced_once_witness :
  exists assignment C',
    In assignment (assignments Example.w_essay)
    /\ Assignment.course assignment = Some 2%N
    /\ Course_findById 2%N Example.w_essay = Some C'
    /\ Course.assignments C' = [Assignment._id assignment]
    /\ count_occ N.eq_dec (Course.assignments C') (Assignment._id assignment)
       = 1%nat.
Proof.
  destruct (create_assignment_referenced_once Example.env 400
              Example.alice_headers 2%N Example.essay_request
              Example.w_course Example.w_essay
              (json 201 (AssignmentDoc (Some Example.essay)))
              Example.logic)
    as (assignment & C' & _ & H1 & H2 & H3 & H4 & _ & H5).
  - vm_compute. reflexivity.
  - reflexivity.
  - vm_compute. reflexivity.
  - constructor.
  - exists assignment, C'.
    split; [exact H1|]. split; [exact H2|]. split; [exact H3|].
    split; [exact H4|exact H5].
Defined.

(** Alice, who sends [role: admin], creates the course Logic; the same
    request again is refused for the code, and a request without a code for
    the validation. *)
Lemma post_courses_outcomes_witness :
  post_courses Example.env 300 (<["role" := "admin"]> Example.alice_headers)
    Example.logic_course Example.w_login
  = (Ok (json 201 (CourseDoc (Some Example.logic))), Example.w_course)
  /\ post_courses Example.env 300 (<["role" := "admin"]> Example.alice_headers)
       Example.logic_course Example.w_course
     = (Ok (json 500 (MessageError "Error creating course"
                                   (err_message DuplicateKey))),
        drawn Example.w_course)
  /\ exists message,
       post_courses Example.env 300
         (<["role" := "admin"]> Example.alice_headers)
         {[ "name" := "Logic" ]} Example.w_course
       = (Ok (json 500 (MessageError "Error creating course" message)),
          drawn Example.w_course).
Proof.
  split; [|split].
  - destruct (post_courses_outcomes Example.env 300
                (<["role" := "admin"]> Example.alice_headers)
                Example.logic_course Example.w_login Example.alice_user)
      as (_ & H).
    + vm_compute. reflexivity.
    + reflexivity.
    + destruct (H "Logic" "LOG101" eq_refl eq_refl) as (_ & H2).
      apply H2. constructor.
  - destruct (post_courses_outcomes Example.env 300
                (<["role" := "admin"]> Example.alice_headers)
                Example.logic_course Example.w_course Example.alice_user)
      as (_ & H).
    + vm_compute. reflexivity.
    + reflexivity.
    + destruct (H "Logic" "LOG101" eq_refl eq_refl) as (H1 & _).
      apply H1. exists Example.logic.
      split; [vm_compute; now left|]. split; [reflexivity|discriminate].
  - destruct (post_courses_outcomes Example.env 300
                (<["role" := "admin"]> Example.alice_headers)
                {[ "name" := "Logic" ]} Example.w_course Example.alice_user)
      as (H & _).
    + vm_compute. reflexivity.
    + reflexivity.
    + apply H. right. reflexivity.
Defined.

(** Alice creates the first lesson of Logic and reads the course. *)
Lemma created_lesson_is_read_back_witness :
  exists w1 P,
    post_course_lessons Example.env 400 Example.alice_headers (JOid 2%N)
      Example.intro_request Example.w_course
    = (Ok (json 201 (LessonDoc (Some Example.intro_lesson))), w1)
    /\ get_course (JOid 2%N) w1 = (Ok (read_json 200 (OneCourse P)), w1)
    /\ Populated.lessons P = [Example.intro_lesson]
    /\ Populated.assignments P = [].
Proof.
  destruct (created_lesson_is_read_back Example.env 400
              Example.alice_headers 2%N Example.intro_request
              Example.w_course Example.alice_user "Introduction"
              "https://youtu.be/intro" Example.logic)
    as (w1 & P & H1 & H2 & H3 & H4).
  - vm_compute. reflexivity.
  - reflexivity.
  - reflexivity.
  - reflexivity.
  - reflexivity.
  - constructor.
  - constructor.
  - exists w1, P. split; [exact H1|]. split; [exact H2|].
    split; [exact H3|exact H4].
Defined.

(** Alice creates the first lesson of Logic, deletes it and reads the
    course: no lesson is shown, and the course lists the id 3. *)
Lemma deleted_lesson_is_not_read_back_witness :
  exists w2 P C',
    get_course (JOid 2%N) w2 = (Ok (read_json 200 (OneCourse P)), w2)
    /\ Populated.lessons P = []
    /\ Course_findById 2%N w2 = Some C'
    /\ Course.lessons C' = [3%N].
Proof.
  destruct (deleted_lesson_is_not_read_back Example.env 400 500
              Example.alice_headers Example.alice_headers 2%N
              Example.intro_request Example.w_course Example.alice_user
              Example.alice_user "Introduction" "https://youtu.be/intro"
              Example.logic)
    as (w1 & w2 & r & P & C' & _ & _ & H1 & H2 & H3 & H4).
  - vm_compute. reflexivity.
  - reflexivity.
  - reflexivity.
  - reflexivity.
  - reflexivity.
  - constructor.
  - vm_compute. reflexivity.
  - reflexivity.
  - exists w2, P, C'. split; [exact H1|]. split; [exact H2|].
    split; [exact H3|exact H4].
Defined.

(** The scenario of the specification, delivered: the message went to
    a@b.com under the subject of the route. *)
Lemma ok_means_delivered_witness :
  exists mail,
    Example.relay_up mail = None
    /\ mail_to mail = Some "a@b.com"
    /\ mail_subject mail = "Binance Transaction Confirmation"
    /\ events
         (snd (post_send_email "Transaction" Example.render Js.toLowerCase
                 Example.relay_up None Example.clock Example.binance_request
                 Example.mail_empty))
       = [Saved (TransactionEmail.mk "Binance" "0.5 BTC" "a@b.com"
                                     "Aug 18, 2025" "12:59 PM" "Sent");
          Dispatched mail true].
Proof.
  destruct (ok_means_delivered "Transaction" Example.render Js.toLowerCase
              None Example.relay_up
              (fun wallet _ => wallet ++ " Transaction Confirmation")
              Example.clock Example.binance_request Example.mail_empty
              (snd (post_send_email "Transaction" Example.render
                      Js.toLowerCase Example.relay_up None Example.clock
                      Example.binance_request Example.mail_empty))
              (json 200 (Message "Email sent successfully")))
    as (wallet & email & mail & Hw & He & H1 & H2 & H3 & _ & H4).
  - vm_compute. reflexivity.
  - reflexivity.
  - vm_compute in Hw. injection Hw as <-.
    vm_compute in He. injection He as <-.
    exists mail. split; [exact H1|]. split; [exact H2|].
    split; [exact H3|exact H4].
Defined.

(** A request for Binance without [amount] and [coin]. *)
Lemma missing_amount_is_stored_as_undefined_witness :
  exists r w',
    post_send_email "Transaction" Example.render Js.toLowerCase
      Example.relay_up None Example.clock Example.no_amount_request
      Example.mail_empty
    = (Ok r, w')
    /\ transactions w'
       = [TransactionEmail.mk "Binance" "undefined undefined" "a@b.com"
                              "Aug 18, 2025" "12:59 PM" "Sent"].
Proof.
  destruct (missing_amount_is_stored_as_undefined "Transaction"
              Example.render Js.toLowerCase None Example.relay_up
              (fun wallet _ => wallet ++ " Transaction Confirmation")
              Example.clock Example.no_amount_request Example.mail_empty
              "Binance" "a@b.com")
    as (r & w' & H1 & H2 & _).
  - reflexivity.
  - reflexivity.
  - discriminate.
  - discriminate.
  - exists r, w'. split; [exact H1|exact H2].
Defined.

(** C5.  The two failures of a login are not indistinguishable: the handler
    does not check that [password] is a string, and [bcrypt.compare], which
    throws on anything else, is called only when a stored user has the
    e-mail.  With the number 1 for a password, a login with Alice's e-mail is
    answered 500 "Login failed" and one with an e-mail nobody registered the
    generic 401: the answers tell which e-mails are registered. *)
Theorem login_tells_known_email_from_unknown :
  In "first@x.com" (map User.email (users Example.w_login))
  /\ ~ In "nobody@x.com" (map User.email (users Example.w_login))
  /\ post_login_json Example.env 300 Example.alice_numeric Example.w_login
     = (Ok (json 500 (MessageError "Login failed"
                                   "Illegal arguments: number, string")),
        Example.w_login)
  /\ post_login_json Example.env 300 Example.nobody_numeric Example.w_login
     = (Ok INVALID_LOGIN, Example.w_login).
Proof.
  split; [vm_compute; tauto|]. split.
  - vm_compute. intros [H|[H|[]]]; discriminate.
  - split; vm_compute; reflexivity.
Qed.

(** C6.  The length check does not stop every password shorter than 8
    characters: [password.length] of a number is [undefined], and
    [undefined < 8] is false.  A registration with the number 1234567 for a
    password passes the check; under a new e-mail [bcrypt.hash] throws and
    the answer is 500 "Registration failed", not 400, and under Alice's
    e-mail the answer is that of the duplicate check, which runs first for
    it.  No user is created. *)
Theorem numeric_password_passes_the_length_check :
  post_register_json Example.env 120 Example.carol_numeric Example.w_alice
  = (Ok (json 500 (MessageError "Registration failed"
                                "Illegal arguments: number, number")),
     Example.w_alice)
  /\ post_register_json Example.env 120 Example.carol_numeric_taken
       Example.w_alice
     = (Ok (json 400 (Message "Email already in use")), Example.w_alice)
  /\ users Example.w_alice = [Example.alice_new].
Proof.
  repeat split; vm_compute; reflexivity.
Qed.
